(** * CardSentry: the synthetic transaction generator

    A shallow embedding of [src/dataInitializing/transactionSim.py].

    Conventions of the embedding.
    - A Python [float] is a real number ([R]); arithmetic is exact.  The
      places where the script itself rounds ([round(x, 6)], [round(x, 2)],
      the microsecond resolution of [datetime]) are modelled as rounding.
      Exact and IEEE arithmetic part ways in kind at two places.  The
      cosine of a latitude of exactly 90 or -90 degrees is 0 here and
      about 6.1e-17 in [math.cos(math.radians(90.0))]: line 32 divides
      by zero here and not in CPython.  The quantity [a] of [haversine]
      stays within [[0, 1]] here, while rounding can push it above 1 for
      nearly antipodal points, where [math.sqrt(1 - a)] raises
      [ValueError] in CPython.  The statements below that involve the
      two functions either assume a returned value or speak of inputs on
      which the two arithmetics agree.
    - A [datetime] is its number of microseconds since the epoch ([Z]); a
      [timedelta] is a number of microseconds.  Neither is bounded here;
      CPython raises [OverflowError] outside the years 1 to 9999 and
      beyond 999999999 days.
    - Exceptions are values of [exn]; a computation that can raise returns a
      [result].
    - The module-level generator of [random] is an explicit state threaded
      through every call ([RandomSource]); [uuid.uuid4] and
      [datetime.datetime.now] do not read that generator and are separate
      inputs of the simulation.
    - [SEND_TO_KINESIS] is [False] in the script; the Kinesis branch and
      [send_to_kinesis] are output plumbing and are not modelled.  What
      [print(json_output)] writes is the list of emitted records. *)

From Stdlib Require Import Reals Lra Lia ZArith List Ascii String Bool Machin.
From Stdlib Require Import DecimalString DecimalNat Sorted.
Import ListNotations.

Open Scope R_scope.

(* ================================================================= *)
(** ** Exceptions and results *)

Inductive exn : Type :=
| ZeroDivisionError
| ValueError
| IndexError
| KeyError
| TypeError.

Inductive result (A : Type) : Type :=
| Ok (a : A)
| Raise (e : exn).

Arguments Ok {A} a.
Arguments Raise {A} e.

Definition rbind {A B : Type} (r : result A) (k : A -> result B) : result B :=
  match r with
  | Ok a => k a
  | Raise e => Raise e
  end.

Notation "x <~ r ;; k" := (rbind r (fun x => k))
  (at level 61, r at next level, right associativity).

(* ================================================================= *)
(** ** Python built-ins on floats *)

Definition Rltb (x y : R) : bool := if Rlt_dec x y then true else false.

(** [x / y]: raises on a zero divisor. *)
Definition py_div (x y : R) : result R :=
  if Req_dec_T y 0 then Raise ZeroDivisionError else Ok (x / y).

(** [x % y] on floats, for [y <> 0]: the result has the sign of [y]. *)
Definition py_mod (x y : R) : R := x - y * IZR (Zfloor (x / y)).

(** [max(a, b)] keeps its first argument unless the second is larger;
    [min(a, b)] keeps its first argument unless the second is smaller. *)
Definition py_max (a b : R) : R := if Rlt_dec a b then b else a.
Definition py_min (a b : R) : R := if Rlt_dec b a then b else a.

(** Rounding to the nearest integer, ties to even. *)
Definition round_half_even (x : R) : Z :=
  let n := Zfloor x in
  let f := x - IZR n in
  if Rlt_dec f (1 / 2) then n
  else if Rlt_dec (1 / 2) f then (n + 1)%Z
  else if Z.even n then n else (n + 1)%Z.

(** [round(x, ndigits)]. *)
Definition py_round (x : R) (ndigits : nat) : R :=
  IZR (round_half_even (x * 10 ^ ndigits)) / 10 ^ ndigits.

(** Truth value of an optional [datetime]: only [None] is falsy. *)
Definition truthy_datetime (o : option Z) : bool :=
  match o with
  | None => false
  | Some _ => true
  end.

(** Truth value of an optional float: [None] and [0.0] are falsy. *)
Definition truthy_float (o : option R) : bool :=
  match o with
  | None => false
  | Some x => if Req_dec_T x 0 then false else true
  end.

(* ================================================================= *)
(** ** The [math] module *)

Definition math_radians (x : R) : R := x * (PI / 180).

Definition math_sqrt (x : R) : result R :=
  if Rlt_dec x 0 then Raise ValueError else Ok (sqrt x).

Definition math_log (x : R) : result R :=
  if Rle_dec x 0 then Raise ValueError else Ok (ln x).

Definition math_atan2 (y x : R) : R :=
  if Rlt_dec 0 x then atan (y / x)
  else if Rlt_dec x 0 then
    (if Rle_dec 0 y then atan (y / x) + PI else atan (y / x) - PI)
  else if Rlt_dec 0 y then PI / 2
  else if Rlt_dec y 0 then - (PI / 2)
  else 0.

(* ================================================================= *)
(** ** The [datetime] module *)

Definition datetime : Type := Z.
Definition timedelta : Type := Z.

(** [datetime.timedelta(seconds=s)]: rounded to the microsecond. *)
Definition timedelta_of_seconds (s : R) : timedelta :=
  round_half_even (s * 1000000).

(** [d.total_seconds()]. *)
Definition total_seconds (d : timedelta) : R := IZR d / 1000000.

(** [t.strftime('%Y-%m-%dT%H:%M:%SZ')]: the instant at second precision
    (the whole seconds since the epoch stand for the calendar string). *)
Definition strftime_second (t : datetime) : Z := (t / 1000000)%Z.

(* ================================================================= *)
(** ** Strings *)

Definition str_of_nat (n : nat) : string :=
  NilEmpty.string_of_uint (Nat.to_uint n).

Fixpoint zeros (k : nat) : string :=
  match k with
  | O => EmptyString
  | S k' => String "0"%char (zeros k')
  end.

(** [f"{i:04d}"]-style padding: zeros on the left up to [width]. *)
Definition zfill (width : nat) (s : string) : string :=
  (zeros (width - String.length s) ++ s)%string.

(* ================================================================= *)
(** ** The [random] module *)

(** The generator behind [random.random], [random.choice] and the rest.
    [rng_random] is [random()], a float in [[0, 1)]; [rng_randbelow n] is
    the private [_randbelow(n)] in [[0, n)]; [rng_gauss] is [gauss]. *)
Class RandomSource (G : Type) : Type := {
  rng_random : G -> R * G;
  rng_randbelow : nat -> G -> nat * G;
  rng_gauss : R -> R -> G -> R * G;
  rng_random_range : forall g, 0 <= fst (rng_random g) < 1;
  rng_randbelow_range :
    forall n g, (0 < n)%nat -> (fst (rng_randbelow n g) < n)%nat
}.

(** Computations that draw from the generator and may raise. *)
Definition Rand (G A : Type) : Type := G -> result (A * G).

Definition ret {G A : Type} (a : A) : Rand G A := fun g => Ok (a, g).

Definition bind {G A B : Type} (m : Rand G A) (k : A -> Rand G B) : Rand G B :=
  fun g =>
    match m g with
    | Ok (a, g') => k a g'
    | Raise e => Raise e
    end.

Definition lift {G A : Type} (r : result A) : Rand G A :=
  fun g =>
    match r with
    | Ok a => Ok (a, g)
    | Raise e => Raise e
    end.

Definition raise {G A : Type} (e : exn) : Rand G A := fun _ => Raise e.

Notation "x <- m ;; k" := (bind m (fun x => k))
  (at level 61, m at next level, right associativity).
Notation "' p <- m ;; k" := (bind m (fun x => let 'p := x in k))
  (at level 61, p pattern, m at next level, right associativity).

Section Random.
Context {G : Type} `{RandomSource G}.

Definition random_random : Rand G R := fun g => Ok (rng_random g).

(** [uniform(a, b)] is [a + (b - a) * random()]. *)
Definition random_uniform (a b : R) : Rand G R :=
  u <- random_random ;;
  ret (a + (b - a) * u).

(** [expovariate(lambd)] is [-log(1.0 - random()) / lambd]. *)
Definition random_expovariate (lambd : R) : Rand G R :=
  u <- random_random ;;
  l <- lift (math_log (1 - u)) ;;
  lift (py_div (- l) lambd).

(** [choice(seq)]: [IndexError] on an empty sequence. *)
Definition random_choice {A : Type} (seq : list A) : Rand G A :=
  match seq with
  | [] => raise IndexError
  | d :: _ =>
      fun g =>
        let (k, g') := rng_randbelow (List.length seq) g in
        Ok (nth k seq d, g')
  end.

(** [randint(a, b)]: [a + _randbelow(b - a + 1)]. *)
Definition random_randint (a b : Z) : Rand G Z :=
  if (b <? a)%Z then raise ValueError
  else
    fun g =>
      let (k, g') := rng_randbelow (Z.to_nat (b - a + 1)) g in
      Ok ((a + Z.of_nat k)%Z, g').

Definition random_gauss (mu sigma : R) : Rand G R :=
  fun g => Ok (rng_gauss mu sigma g).

End Random.

(* ================================================================= *)
(** ** Configuration *)

Record Config : Type := {
  NUM_CARDS : Z;
  NUM_TRANSACTIONS : Z;
  FRAUD_INJECTION_PROBABILITY : R;
  COMPROMISE_CARD_PROBABILITY : R;
  AVG_TRANSACTION_DELAY_SECONDS : R;
  LOCATION_VARIATION_KM_NORMAL : R;
  LOCATION_VARIATION_KM_FRAUD : R;
  NORMAL_AMOUNT_RANGE : R * R;
  FRAUD_AMOUNT_RANGE : R * R;
  HIGH_VELOCITY_THRESHOLD_KMH : R
}.

(** The constants of the script. *)
Definition default_config : Config := {|
  NUM_CARDS := 50;
  NUM_TRANSACTIONS := 1000;
  FRAUD_INJECTION_PROBABILITY := 0.03;
  COMPROMISE_CARD_PROBABILITY := 0.10;
  AVG_TRANSACTION_DELAY_SECONDS := 0.5;
  LOCATION_VARIATION_KM_NORMAL := 50;
  LOCATION_VARIATION_KM_FRAUD := 5000;
  NORMAL_AMOUNT_RANGE := (5, 250);
  FRAUD_AMOUNT_RANGE := (100, 2000);
  HIGH_VELOCITY_THRESHOLD_KMH := 800
|}.

(* ================================================================= *)
(** ** Data model *)

(** One entry of [cards_data]. *)
Record Card : Type := {
  HomeLatitude : R;
  HomeLongitude : R;
  IsCompromised : bool;
  LastTxTimestamp : option datetime;
  LastTxLatitude : option R;
  LastTxLongitude : option R
}.

(** [transaction_data]. *)
Record Transaction : Type := {
  TransactionID : string;
  CardID : string;
  Timestamp : Z;
  Amount : R;
  MerchantID : string;
  MerchantLatitude : R;
  MerchantLongitude : R;
  IsFraud : bool;
  TxHomeLatitude : R;
  TxHomeLongitude : R
}.

(** [cards_data]: a dict keeps its keys in insertion order. *)
Definition Cards : Type := list (string * Card).

Fixpoint dict_get (k : string) (d : Cards) : result Card :=
  match d with
  | [] => Raise KeyError
  | (k', c) :: d' => if String.eqb k k' then Ok c else dict_get k d'
  end.

Fixpoint dict_set (k : string) (c : Card) (d : Cards) : Cards :=
  match d with
  | [] => [(k, c)]
  | (k', c') :: d' =>
      if String.eqb k k' then (k', c) :: d' else (k', c') :: dict_set k c d'
  end.

Definition dict_keys (d : Cards) : list string := map fst d.

(* ================================================================= *)
(** ** Helper functions of the script *)

Section Simulation.
Context {G : Type} `{RandomSource G}.

Definition generate_location_around (lat lon max_distance_km : R)
  : Rand G (R * R) :=
  let radius_deg_lat := max_distance_km / 111.1 in
  radius_deg_lon <-
    lift (py_div max_distance_km (111.1 * cos (math_radians lat))) ;;
  delta_lat <- random_uniform (- radius_deg_lat) radius_deg_lat ;;
  delta_lon <- random_uniform (- radius_deg_lon) radius_deg_lon ;;
  let new_lat := py_max (-90) (py_min 90 (lat + delta_lat)) in
  let new_lon := py_mod (lon + delta_lon + 180) 360 - 180 in
  ret (py_round new_lat 6, py_round new_lon 6).

Definition haversine (lat1 lon1 lat2 lon2 : R) : result R :=
  let R_earth := 6371 in
  let dLat := math_radians (lat2 - lat1) in
  let dLon := math_radians (lon2 - lon1) in
  let lat1 := math_radians lat1 in
  let lat2 := math_radians lat2 in
  let a := sin (dLat / 2) ^ 2 + cos lat1 * cos lat2 * sin (dLon / 2) ^ 2 in
  sa <~ math_sqrt a ;;
  sb <~ math_sqrt (1 - a) ;;
  let c := 2 * math_atan2 sa sb in
  let distance := R_earth * c in
  Ok distance.

Definition generate_timestamp (start_time : datetime) (increment_seconds : R)
  : datetime :=
  (start_time + timedelta_of_seconds increment_seconds)%Z.

(* =============================================================== *)
(** ** Main simulation *)

Definition card_id_of (i : nat) : string :=
  ("CARD_" ++ zfill 4 (str_of_nat i))%string.

(** The body of the bootstrap loop. *)
Definition init_card (cfg : Config) (i : nat) (cards_data : Cards)
  : Rand G Cards :=
  let card_id := card_id_of i in
  home_lat <- random_uniform 25 65 ;;
  home_lon <- random_uniform (-125) 40 ;;
  u <- random_random ;;
  ret (dict_set card_id
         {| HomeLatitude := py_round home_lat 6;
            HomeLongitude := py_round home_lon 6;
            IsCompromised := Rltb u (COMPROMISE_CARD_PROBABILITY cfg);
            LastTxTimestamp := None;
            LastTxLatitude := None;
            LastTxLongitude := None |}
         cards_data).

Fixpoint init_cards (cfg : Config) (range : list nat) (cards_data : Cards)
  : Rand G Cards :=
  match range with
  | [] => ret cards_data
  | i :: range' =>
      cards_data' <- init_card cfg i cards_data ;;
      init_cards cfg range' cards_data'
  end.

(** Lines 114-135: the clock on the fraud path. *)
Definition velocity_anomaly (cfg : Config) (card_info : Card)
    (merchant_lat merchant_lon : R) (current_time : datetime)
  : Rand G datetime :=
  if truthy_datetime (LastTxTimestamp card_info)
     && truthy_float (LastTxLatitude card_info)
  then
    match LastTxTimestamp card_info with
    | None => raise TypeError
    | Some last_ts =>
        let time_delta_seconds := total_seconds (current_time - last_ts)%Z in
        if Rlt_dec 0 time_delta_seconds then
          match LastTxLatitude card_info, LastTxLongitude card_info with
          | Some last_lat, Some last_lon =>
              distance_km <-
                lift (haversine last_lat last_lon merchant_lat merchant_lon) ;;
              q <- lift (py_div distance_km time_delta_seconds) ;;
              let velocity_kmh := q * 3600 in
              if Rlt_dec velocity_kmh (HIGH_VELOCITY_THRESHOLD_KMH cfg) then
                u <- random_random ;;
                if Rlt_dec u 0.5 then
                  q' <- lift (py_div distance_km
                                (HIGH_VELOCITY_THRESHOLD_KMH cfg)) ;;
                  let required_time_seconds := q' * 3600 in
                  v <- random_uniform (required_time_seconds * 0.5)
                                      (required_time_seconds * 0.9) ;;
                  let simulated_short_delay := py_max 1 v in
                  ret (last_ts + timedelta_of_seconds simulated_short_delay)%Z
                else ret current_time
              else ret current_time
          | _, _ => raise TypeError
          end
        else
          lambd <- lift (py_div 1 (AVG_TRANSACTION_DELAY_SECONDS cfg)) ;;
          time_increment <- random_expovariate lambd ;;
          ret (generate_timestamp current_time time_increment)
    end
  else ret current_time.

(** Lines 98-148: fraud decision, amount, merchant location and clock. *)
Definition decide_transaction (cfg : Config) (card_info : Card)
    (current_time : datetime)
  : Rand G (bool * R * R * R * datetime) :=
  is_fraud <-
    (if IsCompromised card_info then
       u <- random_random ;;
       ret (Rltb u (FRAUD_INJECTION_PROBABILITY cfg))
     else ret false) ;;
  if is_fraud : bool then
    a <- random_uniform (fst (FRAUD_AMOUNT_RANGE cfg))
                        (snd (FRAUD_AMOUNT_RANGE cfg)) ;;
    let amount := py_round a 2 in
    d <- random_uniform (LOCATION_VARIATION_KM_NORMAL cfg * 2)
                        (LOCATION_VARIATION_KM_FRAUD cfg) ;;
    '(merchant_lat, merchant_lon) <-
      generate_location_around (HomeLatitude card_info)
                               (HomeLongitude card_info) d ;;
    current_time' <-
      velocity_anomaly cfg card_info merchant_lat merchant_lon current_time ;;
    ret (true, amount, merchant_lat, merchant_lon, current_time')
  else
    a <- random_uniform (fst (NORMAL_AMOUNT_RANGE cfg))
                        (snd (NORMAL_AMOUNT_RANGE cfg)) ;;
    let amount := py_round a 2 in
    d <- random_uniform 0 (LOCATION_VARIATION_KM_NORMAL cfg) ;;
    '(merchant_lat, merchant_lon) <-
      generate_location_around (HomeLatitude card_info)
                               (HomeLongitude card_info) d ;;
    lambd <- lift (py_div 1 (AVG_TRANSACTION_DELAY_SECONDS cfg)) ;;
    time_increment <- random_expovariate lambd ;;
    ret (false, amount, merchant_lat, merchant_lon,
         generate_timestamp current_time time_increment).

(** The state the main loop carries from one iteration to the next. *)
Record State : Type := {
  rng : G;
  current_time : datetime;
  cards_data : Cards
}.

(** One iteration of the main loop; [transaction_id] is what
    [str(uuid.uuid4())] returns in this iteration. *)
Definition step (cfg : Config) (transaction_id : string) (st : State)
  : result (Transaction * State) :=
  let body : Rand G (Transaction * datetime * Cards) :=
    card_id <- random_choice (dict_keys (cards_data st)) ;;
    card_info <- lift (dict_get card_id (cards_data st)) ;;
    '(is_fraud, amount, merchant_lat, merchant_lon, now) <-
      decide_transaction cfg card_info (current_time st) ;;
    n <- random_randint 1000 9999 ;;
    let merchant_id := ("MERCHANT_" ++ str_of_nat (Z.to_nat n))%string in
    let transaction_data :=
      {| TransactionID := transaction_id;
         CardID := card_id;
         Timestamp := strftime_second now;
         Amount := amount;
         MerchantID := merchant_id;
         MerchantLatitude := merchant_lat;
         MerchantLongitude := merchant_lon;
         IsFraud := is_fraud;
         TxHomeLatitude := HomeLatitude card_info;
         TxHomeLongitude := HomeLongitude card_info |} in
    let card_info' :=
      {| HomeLatitude := HomeLatitude card_info;
         HomeLongitude := HomeLongitude card_info;
         IsCompromised := IsCompromised card_info;
         LastTxTimestamp := Some now;
         LastTxLatitude := Some merchant_lat;
         LastTxLongitude := Some merchant_lon |} in
    g <- random_gauss (AVG_TRANSACTION_DELAY_SECONDS cfg)
                      (AVG_TRANSACTION_DELAY_SECONDS cfg / 3) ;;
    let delay := py_max 0.05 g in
    ret (transaction_data, now, dict_set card_id card_info' (cards_data st))
  in
  match body (rng st) with
  | Ok (transaction_data, now, cards, g') =>
      Ok (transaction_data,
          {| rng := g'; current_time := now; cards_data := cards |})
  | Raise e => Raise e
  end.

(** [for i in range(n)], from iteration [i]: the records printed so far
    and how the loop ended. *)
Fixpoint transaction_loop (cfg : Config) (uuid4 : nat -> string)
    (i n : nat) (st : State) : list Transaction * result State :=
  match n with
  | O => ([], Ok st)
  | S n' =>
      match step cfg (uuid4 i) st with
      | Ok (transaction_data, st') =>
          let (out, r) := transaction_loop cfg uuid4 (S i) n' st' in
          (transaction_data :: out, r)
      | Raise e => ([], Raise e)
      end
  end.

(** The whole script: [g] is the generator state at start (the seed),
    [now] what [datetime.datetime.now] returns, [uuid4 i] the identifier
    [uuid.uuid4] yields in iteration [i]. *)
Definition simulate (cfg : Config) (g : G) (now : datetime)
    (uuid4 : nat -> string) : list Transaction * result State :=
  match init_cards cfg (seq 0 (Z.to_nat (NUM_CARDS cfg))) [] g with
  | Raise e => ([], Raise e)
  | Ok (cards, g') =>
      transaction_loop cfg uuid4 0 (Z.to_nat (NUM_TRANSACTIONS cfg))
        {| rng := g'; current_time := now; cards_data := cards |}
  end.

End Simulation.

(* ================================================================= *)
(** ** A scripted generator, for running the model on concrete draws *)

(** The draws a run will see: the floats [random()] returns, and the
    numbers [_randbelow] returns (reduced below its bound).  An exhausted
    script answers [0]; [gauss] answers its mean. *)
Record Script : Type := {
  floats : list R;
  indices : list nat
}.

Definition unit_interval (x : R) : R :=
  if Rle_dec 0 x then (if Rlt_dec x 1 then x else 0) else 0.

Definition script_random (s : Script) : R * Script :=
  match floats s with
  | [] => (0, s)
  | x :: l => (unit_interval x, {| floats := l; indices := indices s |})
  end.

Definition script_randbelow (n : nat) (s : Script) : nat * Script :=
  match indices s with
  | [] => (0%nat, s)
  | k :: l => ((k mod n)%nat, {| floats := floats s; indices := l |})
  end.

Definition script_gauss (mu sigma : R) (s : Script) : R * Script := (mu, s).

Lemma unit_interval_range (x : R) : 0 <= unit_interval x < 1.
Proof.
  unfold unit_interval.
  destruct (Rle_dec 0 x); [destruct (Rlt_dec x 1)|]; lra.
Qed.

Lemma unit_interval_id (x : R) : 0 <= x < 1 -> unit_interval x = x.
Proof.
  intros [H0 H1]. unfold unit_interval.
  destruct (Rle_dec 0 x); [destruct (Rlt_dec x 1)|]; lra.
Qed.

Lemma script_random_range (s : Script) : 0 <= fst (script_random s) < 1.
Proof.
  unfold script_random. destruct (floats s); simpl.
  - lra.
  - apply unit_interval_range.
Qed.

Lemma script_randbelow_range (n : nat) (s : Script) :
  (0 < n)%nat -> (fst (script_randbelow n s) < n)%nat.
Proof.
  intros Hn. unfold script_randbelow. destruct (indices s); simpl.
  - exact Hn.
  - apply Nat.mod_upper_bound. lia.
Qed.

#[global] Instance ScriptSource : RandomSource Script := {|
  rng_random := script_random;
  rng_randbelow := script_randbelow;
  rng_gauss := script_gauss;
  rng_random_range := script_random_range;
  rng_randbelow_range := script_randbelow_range
|}.

(* ================================================================= *)
(** ** Rounding, clamping and wrapping *)

Lemma py_max_Rmax (a b : R) : py_max a b = Rmax a b.
Proof.
  unfold py_max, Rmax.
  destruct (Rlt_dec a b), (Rle_dec a b); lra.
Qed.

Lemma clamp_range (lo hi x : R) :
  lo <= hi -> lo <= py_max lo (py_min hi x) <= hi.
Proof.
  intros Hle. unfold py_max, py_min.
  destruct (Rlt_dec x hi); destruct (Rlt_dec lo _); lra.
Qed.

Lemma clamp_inside (lo hi x : R) :
  lo <= x <= hi -> py_max lo (py_min hi x) = x.
Proof.
  intros [H1 H2]. unfold py_max, py_min.
  destruct (Rlt_dec x hi); destruct (Rlt_dec lo _); lra.
Qed.

Lemma round_half_even_cases (x : R) :
  round_half_even x = Zfloor x \/ round_half_even x = (Zfloor x + 1)%Z.
Proof.
  unfold round_half_even.
  destruct (Rlt_dec _ _); [now left|].
  destruct (Rlt_dec _ _); [now right|].
  destruct (Z.even _); [now left | now right].
Qed.

Lemma round_half_even_bound (x : R) :
  x - 1 / 2 <= IZR (round_half_even x) <= x + 1 / 2.
Proof.
  pose proof (Zfloor_bound x) as [Hlo Hhi].
  unfold round_half_even.
  destruct (Rlt_dec _ _) as [Hlt | Hge]; [lra|].
  destruct (Rlt_dec _ _) as [Hgt | Hle]; [rewrite plus_IZR; lra|].
  destruct (Z.even _); [lra | rewrite plus_IZR; lra].
Qed.

Lemma round_half_even_eq (n : Z) (x : R) :
  IZR n - 1 / 2 < x < IZR n + 1 / 2 -> round_half_even x = n.
Proof.
  intros [Hlo Hhi].
  pose proof (round_half_even_bound x) as [Blo Bhi].
  assert (H1 : IZR (round_half_even x) < IZR n + 1) by lra.
  assert (H2 : IZR n - 1 < IZR (round_half_even x)) by lra.
  rewrite <- plus_IZR in H1. rewrite <- minus_IZR in H2.
  apply lt_IZR in H1. apply lt_IZR in H2. lia.
Qed.

Lemma round_half_even_IZR (n : Z) : round_half_even (IZR n) = n.
Proof. apply round_half_even_eq. lra. Qed.

Lemma round_half_even_le (x y : R) :
  x <= y -> (round_half_even x <= round_half_even y)%Z.
Proof.
  intros Hxy.
  pose proof (Zfloor_le x y Hxy) as Hfl.
  destruct (Z.eq_dec (Zfloor x) (Zfloor y)) as [Heq | Hne].
  - unfold round_half_even. rewrite <- Heq.
    repeat match goal with
           | |- context [Rlt_dec ?a ?b] => destruct (Rlt_dec a b)
           end; try lia; try lra;
      destruct (Z.even (Zfloor x)); lia.
  - destruct (round_half_even_cases x) as [-> | ->];
      destruct (round_half_even_cases y) as [-> | ->]; lia.
Qed.

Lemma pow10_pos (n : nat) : 0 < 10 ^ n.
Proof. apply pow_lt. lra. Qed.

Lemma py_round_le (x y : R) (n : nat) :
  x <= y -> py_round x n <= py_round y n.
Proof.
  intros Hxy. unfold py_round.
  pose proof (pow10_pos n) as Hp.
  apply Rmult_le_compat_r.
  - apply Rlt_le, Rinv_0_lt_compat, Hp.
  - apply IZR_le, round_half_even_le.
    apply Rmult_le_compat_r; lra.
Qed.

Lemma py_round_IZR (z : Z) (n : nat) : py_round (IZR z) n = IZR z.
Proof.
  unfold py_round.
  replace (10 ^ n) with (IZR (10 ^ Z.of_nat n)).
  - rewrite <- mult_IZR, round_half_even_IZR, mult_IZR.
    field. apply not_0_IZR. apply Z.pow_nonzero; lia.
  - rewrite <- pow_IZR. reflexivity.
Qed.

Lemma py_round_error (x : R) (n : nat) :
  Rabs (py_round x n - x) <= / 2 / 10 ^ n.
Proof.
  unfold py_round.
  pose proof (pow10_pos n) as Hp.
  pose proof (round_half_even_bound (x * 10 ^ n)) as [Hlo Hhi].
  set (r := IZR (round_half_even (x * 10 ^ n))) in *.
  replace (r / 10 ^ n - x) with ((r - x * 10 ^ n) / 10 ^ n) by (field; lra).
  unfold Rdiv at 1. rewrite Rabs_mult, (Rabs_pos_eq (/ 10 ^ n)).
  - apply Rmult_le_compat_r.
    + apply Rlt_le, Rinv_0_lt_compat, Hp.
    + apply Rabs_le. lra.
  - apply Rlt_le, Rinv_0_lt_compat, Hp.
Qed.

Lemma py_mod_range (x y : R) : 0 < y -> 0 <= py_mod x y < y.
Proof.
  intros Hy. unfold py_mod.
  pose proof (Zfloor_bound (x / y)) as [Hlo Hhi].
  assert (Hx : x = x / y * y) by (field; lra).
  split.
  - apply Rmult_le_compat_r with (r := y) in Hlo; lra.
  - apply Rmult_lt_compat_r with (r := y) in Hhi; lra.
Qed.

Lemma py_mod_small (x y : R) : 0 <= x < y -> py_mod x y = x.
Proof.
  intros [H0 Hy]. unfold py_mod.
  rewrite (Zfloor_eq 0).
  - lra.
  - split.
    + apply Rmult_le_pos; [lra | apply Rlt_le, Rinv_0_lt_compat; lra].
    + apply Rmult_lt_reg_r with (r := y); [lra|].
      unfold Rdiv. rewrite Rmult_assoc, Rinv_l; lra.
Qed.

(* ================================================================= *)
(** ** Reasoning about [Rand] computations *)

Lemma bind_Ok {G A B : Type} (m : Rand G A) (k : A -> Rand G B)
    (g g' : G) (b : B) :
  bind m k g = Ok (b, g') ->
  exists a g1, m g = Ok (a, g1) /\ k a g1 = Ok (b, g').
Proof.
  unfold bind. destruct (m g) as [[a g1] | e]; [|discriminate].
  intros Hk. now exists a, g1.
Qed.

Lemma lift_Ok {G A : Type} (r : result A) (g g' : G) (a : A) :
  lift r g = Ok (a, g') -> r = Ok a /\ g' = g.
Proof.
  unfold lift. destruct r; [|discriminate]. intros [= -> ->]. now split.
Qed.

Lemma ret_Ok {G A : Type} (a b : A) (g g' : G) :
  ret a g = Ok (b, g') -> b = a /\ g' = g.
Proof. unfold ret. intros [= -> ->]. now split. Qed.

Lemma py_div_nonzero (x y : R) : y <> 0 -> py_div x y = Ok (x / y).
Proof. intros Hy. unfold py_div. now destruct (Req_dec_T y 0). Qed.

(** Inversion of a successful [Rand] computation, one layer at a time. *)
Ltac inv_rand H :=
  match type of H with
  | bind _ _ _ = Ok _ =>
      let a := fresh "a" in
      let g := fresh "g" in
      let H1 := fresh "Hm" in
      let H2 := fresh "Hk" in
      apply bind_Ok in H; destruct H as (a & g & H1 & H2)
  | lift _ _ = Ok _ =>
      let H1 := fresh "Hr" in
      apply lift_Ok in H; destruct H as [H1 ->]
  | ret _ _ = Ok _ =>
      let H1 := fresh "Hg" in
      apply ret_Ok in H; destruct H as [H H1]; try subst
  end.

Section GeospatialModel.
Context {G : Type} `{RandomSource G}.

Lemma random_uniform_eq (a b : R) (g : G) :
  random_uniform a b g =
  Ok (a + (b - a) * fst (rng_random g), snd (rng_random g)).
Proof.
  unfold random_uniform, bind, random_random, ret.
  now destruct (rng_random g).
Qed.

(** The sampler, as one equation: it raises exactly when the divisor of
    line 32 is zero, and otherwise consumes two draws. *)
Lemma generate_location_around_eq (lat lon d : R) (g : G) :
  generate_location_around lat lon d g =
  if Req_dec_T (111.1 * cos (math_radians lat)) 0
  then Raise ZeroDivisionError
  else
    let rlat := d / 111.1 in
    let rlon := d / (111.1 * cos (math_radians lat)) in
    let u1 := fst (rng_random g) in
    let g1 := snd (rng_random g) in
    let u2 := fst (rng_random g1) in
    let g2 := snd (rng_random g1) in
    let delta_lat := - rlat + (rlat - - rlat) * u1 in
    let delta_lon := - rlon + (rlon - - rlon) * u2 in
    Ok (py_round (py_max (-90) (py_min 90 (lat + delta_lat))) 6,
        py_round (py_mod (lon + delta_lon + 180) 360 - 180) 6,
        g2).
Proof.
  unfold generate_location_around, bind at 1, lift, py_div.
  destruct (Req_dec_T _ 0); [reflexivity|].
  unfold bind. rewrite !random_uniform_eq. reflexivity.
Qed.

Lemma py_round6_lat (x : R) : -90 <= x <= 90 -> -90 <= py_round x 6 <= 90.
Proof.
  intros [Hlo Hhi]. split.
  - rewrite <- (py_round_IZR (-90) 6). now apply py_round_le.
  - rewrite <- (py_round_IZR 90 6). now apply py_round_le.
Qed.

Lemma py_round6_lon (x : R) : -180 <= x <= 180 -> -180 <= py_round x 6 <= 180.
Proof.
  intros [Hlo Hhi]. split.
  - rewrite <- (py_round_IZR (-180) 6). now apply py_round_le.
  - rewrite <- (py_round_IZR 180 6). now apply py_round_le.
Qed.

Lemma generate_location_around_bounds (lat lon d : R) (g g' : G) (la lo : R) :
  generate_location_around lat lon d g = Ok (la, lo, g') ->
  (-90 <= la <= 90) /\ (-180 <= lo <= 180).
Proof.
  rewrite generate_location_around_eq.
  destruct (Req_dec_T _ 0); [discriminate|].
  cbv zeta. intros [= <- <- _]. split.
  - apply py_round6_lat, clamp_range. lra.
  - apply py_round6_lon.
    pose proof (py_mod_range (lon + (- (d / (111.1 * cos (math_radians lat)))
      + (d / (111.1 * cos (math_radians lat))
         - - (d / (111.1 * cos (math_radians lat))))
        * fst (rng_random (snd (rng_random g)))) + 180) 360) as Hm.
    lra.
Qed.

Lemma generate_location_around_total (lat lon d : R) (g : G) :
  cos (math_radians lat) <> 0 ->
  exists la lo g', generate_location_around lat lon d g = Ok (la, lo, g').
Proof.
  intros Hc. rewrite generate_location_around_eq.
  destruct (Req_dec_T _ 0) as [Hz | _].
  - exfalso. apply Hc. nra.
  - cbv zeta. eauto.
Qed.

End GeospatialModel.

(* ================================================================= *)
(** ** Running the sampler on scripted draws *)

Lemma script_random_cons (x : R) (l : list R) (idx : list nat) :
  0 <= x < 1 ->
  rng_random {| floats := x :: l; indices := idx |} =
  (x, {| floats := l; indices := idx |}).
Proof.
  intros Hx. simpl. unfold script_random. simpl.
  now rewrite unit_interval_id.
Qed.

Lemma py_round_eq (x : R) (n : nat) (z : Z) :
  IZR z - 1 / 2 < x * 10 ^ n < IZR z + 1 / 2 ->
  py_round x n = IZR z / 10 ^ n.
Proof.
  intros Hx. unfold py_round. now rewrite (round_half_even_eq z).
Qed.

Lemma math_radians_0 : math_radians 0 = 0.
Proof. unfold math_radians. lra. Qed.






(* ================================================================= *)
(** ** The great-circle distance *)

Lemma PI_bounds : 3.1415 < PI < 3.1416.
Proof.
  generalize (PI_2_3_7_ineq 2).
  unfold sum_f_R0, tg_alt, PI_2_3_7_tg, Ratan_seq. simpl.
  intros [Hlo Hhi]. split; lra.
Qed.

Lemma math_sqrt_Ok (x : R) : 0 <= x -> math_sqrt x = Ok (sqrt x).
Proof.
  intros Hx. unfold math_sqrt. destruct (Rlt_dec x 0); [lra | reflexivity].
Qed.

Lemma math_atan2_pos (y x : R) : 0 < x -> math_atan2 y x = atan (y / x).
Proof.
  intros Hx. unfold math_atan2. destruct (Rlt_dec 0 x); [reflexivity | lra].
Qed.

(** The quantity under the square roots, as a function of the angles. *)
Definition haversine_a (lat1 lon1 lat2 lon2 : R) : R :=
  sin (math_radians (lat2 - lat1) / 2) ^ 2
  + cos (math_radians lat1) * cos (math_radians lat2)
    * sin (math_radians (lon2 - lon1) / 2) ^ 2.

Lemma haversine_unfold (lat1 lon1 lat2 lon2 : R) :
  haversine lat1 lon1 lat2 lon2 =
  (sa <~ math_sqrt (haversine_a lat1 lon1 lat2 lon2) ;;
   sb <~ math_sqrt (1 - haversine_a lat1 lon1 lat2 lon2) ;;
   Ok (6371 * (2 * math_atan2 sa sb))).
Proof. reflexivity. Qed.

(** Two points on one meridian, the second to the north: the distance is
    the Earth radius times the difference of latitude in radians. *)
Lemma haversine_meridian (lat1 lat2 lon : R) :
  0 <= lat2 - lat1 < 180 ->
  haversine lat1 lon lat2 lon = Ok (6371 * math_radians (lat2 - lat1)).
Proof.
  intros [Hlo Hhi].
  pose proof PI_RGT_0 as Hpi.
  set (h := math_radians (lat2 - lat1) / 2).
  assert (Hh : 0 <= h < PI / 2).
  { unfold h, math_radians. split; nra. }
  assert (Hsin : 0 <= sin h) by (apply sin_ge_0; lra).
  assert (Hcos : 0 < cos h) by (apply cos_gt_0; lra).
  assert (Ha : haversine_a lat1 lon lat2 lon = (sin h) ^ 2).
  { unfold haversine_a. fold h.
    replace (lon - lon) with 0 by lra.
    rewrite math_radians_0.
    replace (0 / 2) with 0 by lra.
    rewrite sin_0. ring. }
  rewrite haversine_unfold, Ha.
  assert (Hb : 1 - sin h ^ 2 = (cos h) ^ 2).
  { pose proof (sin2_cos2 h) as Hsc. unfold Rsqr in Hsc. nra. }
  rewrite Hb.
  rewrite (math_sqrt_Ok (sin h ^ 2)) by nra.
  rewrite (math_sqrt_Ok (cos h ^ 2)) by nra.
  cbn [rbind].
  replace (sin h ^ 2) with (sin h * sin h) by ring.
  replace (cos h ^ 2) with (cos h * cos h) by ring.
  rewrite !sqrt_square by lra.
  rewrite math_atan2_pos by exact Hcos.
  change (sin h / cos h) with (tan h).
  rewrite atan_tan by lra.
  f_equal. unfold h. lra.
Qed.

(** For latitudes between -90 and 90 degrees both square roots are
    defined: [haversine] does not raise. *)
Lemma haversine_a_range (lat1 lon1 lat2 lon2 : R) :
  -90 <= lat1 <= 90 -> -90 <= lat2 <= 90 ->
  0 <= haversine_a lat1 lon1 lat2 lon2 <= 1.
Proof.
  intros H1 H2.
  pose proof PI_RGT_0 as Hpi.
  set (p1 := math_radians lat1). set (p2 := math_radians lat2).
  assert (Hp1 : - (PI / 2) <= p1 <= PI / 2).
  { unfold p1, math_radians. split; nra. }
  assert (Hp2 : - (PI / 2) <= p2 <= PI / 2).
  { unfold p2, math_radians. split; nra. }
  assert (Hc1 : 0 <= cos p1) by (apply cos_ge_0; lra).
  assert (Hc2 : 0 <= cos p2) by (apply cos_ge_0; lra).
  unfold haversine_a. fold p1 p2.
  replace (math_radians (lat2 - lat1)) with (p2 - p1)
    by (unfold p1, p2, math_radians; lra).
  set (s := sin (math_radians (lon2 - lon1) / 2)).
  assert (Hs : 0 <= s ^ 2 <= 1).
  { pose proof (sin2_cos2 (math_radians (lon2 - lon1) / 2)) as Hsc.
    unfold Rsqr in Hsc. fold s in Hsc.
    pose proof (pow2_ge_0 s). pose proof (pow2_ge_0 (cos (math_radians (lon2 - lon1) / 2))).
    split; nra. }
  set (t := sin ((p2 - p1) / 2)).
  assert (Ht : t ^ 2 = (1 - cos (p2 - p1)) / 2).
  { pose proof (cos_2a_sin ((p2 - p1) / 2)) as Hc.
    replace (2 * ((p2 - p1) / 2)) with (p2 - p1) in Hc by lra.
    rewrite Hc. unfold t. field. }
  assert (Hcc : cos p1 * cos p2 = (cos (p2 - p1) + cos (p2 + p1)) / 2).
  { rewrite cos_minus, cos_plus. lra. }
  pose proof (COS_bound (p2 - p1)) as [Hm1 Hm2].
  pose proof (COS_bound (p2 + p1)) as [Hq1 Hq2].
  assert (Hprod : 0 <= cos p1 * cos p2) by nra.
  split.
  - pose proof (pow2_ge_0 t). nra.
  - rewrite Ht.
    assert (cos p1 * cos p2 * s ^ 2 <= cos p1 * cos p2) by nra.
    lra.
Qed.

Lemma haversine_total (lat1 lon1 lat2 lon2 : R) :
  -90 <= lat1 <= 90 -> -90 <= lat2 <= 90 ->
  exists d, haversine lat1 lon1 lat2 lon2 = Ok d.
Proof.
  intros H1 H2.
  destruct (haversine_a_range lat1 lon1 lat2 lon2 H1 H2) as [Ha0 Ha1].
  rewrite haversine_unfold.
  rewrite math_sqrt_Ok by lra.
  rewrite math_sqrt_Ok by lra.
  cbn [rbind]. eauto.
Qed.

(* ================================================================= *)
(** ** The card dictionary *)

Lemma dict_get_set_same (k : string) (c : Card) (d : Cards) :
  dict_get k (dict_set k c d) = Ok c.
Proof.
  induction d as [| [k' c'] d IH]; simpl.
  - now rewrite String.eqb_refl.
  - destruct (String.eqb k k') eqn:E; simpl; rewrite E; [reflexivity | exact IH].
Qed.

Lemma dict_get_set_other (k k' : string) (c : Card) (d : Cards) :
  k' <> k -> dict_get k' (dict_set k c d) = dict_get k' d.
Proof.
  intros Hne. induction d as [| [k0 c0] d IH]; simpl.
  - destruct (String.eqb k' k) eqn:E; [|reflexivity].
    apply String.eqb_eq in E. contradiction.
  - destruct (String.eqb k k0) eqn:E; simpl.
    + apply String.eqb_eq in E. subst k0.
      destruct (String.eqb k' k) eqn:E'; [|reflexivity].
      apply String.eqb_eq in E'. contradiction.
    + destruct (String.eqb k' k0); [reflexivity | exact IH].
Qed.

Lemma dict_keys_set_present (k : string) (c c0 : Card) (d : Cards) :
  dict_get k d = Ok c0 -> dict_keys (dict_set k c d) = dict_keys d.
Proof.
  unfold dict_keys. induction d as [| [k' c'] d IH]; simpl.
  - discriminate.
  - destruct (String.eqb k k') eqn:E; simpl.
    + reflexivity.
    + intros Hget. now rewrite IH.
Qed.

Lemma dict_get_in_keys (k : string) (d : Cards) :
  In k (dict_keys d) -> exists c, dict_get k d = Ok c.
Proof.
  unfold dict_keys. induction d as [| [k' c'] d IH]; simpl.
  - contradiction.
  - intros [Heq | Hin].
    + subst k'. rewrite String.eqb_refl. eauto.
    + destruct (String.eqb k k'); eauto.
Qed.

(* ================================================================= *)
(** ** One iteration of the main loop, taken apart *)

Section Engine.
Context {G : Type} `{RandomSource G}.

Lemma random_choice_Ok {A : Type} (seq : list A) (g g' : G) (x : A) :
  random_choice seq g = Ok (x, g') -> In x seq.
Proof.
  destruct seq as [| d l]; [discriminate|].
  unfold random_choice.
  pose proof (rng_randbelow_range (List.length (d :: l)) g) as Hr.
  destruct (rng_randbelow _ g) as [k g1]. intros [= Hx _].
  assert (Hnth : In (nth k (d :: l) d) (d :: l)).
  { apply nth_In. apply Hr. simpl. lia. }
  now rewrite <- Hx.
Qed.

Lemma random_choice_rng {A : Type} (seq : list A) (g g' : G) (x : A) :
  random_choice seq g = Ok (x, g') ->
  g' = snd (rng_randbelow (List.length seq) g).
Proof.
  destruct seq as [| d l]; [discriminate|].
  unfold random_choice.
  destruct (rng_randbelow _ g) as [k g1]. now intros [= _ <-].
Qed.

Lemma random_choice_total {A : Type} (seq : list A) (g : G) :
  seq <> [] -> exists x g', random_choice seq g = Ok (x, g').
Proof.
  destruct seq as [| d l]; [contradiction|]. intros _.
  unfold random_choice. destruct (rng_randbelow _ g) as [k g1]. eauto.
Qed.

Lemma random_randint_total (a b : Z) (g : G) :
  (a <= b)%Z -> exists n g', random_randint a b g = Ok (n, g').
Proof.
  intros Hab. unfold random_randint.
  destruct (Z.ltb_spec b a); [lia|].
  destruct (rng_randbelow _ g) as [k g1]. eauto.
Qed.

(** The card [step] writes back for the chosen card. *)
Definition updated_card (card_info : Card) (now : datetime)
    (merchant_lat merchant_lon : R) : Card :=
  {| HomeLatitude := HomeLatitude card_info;
     HomeLongitude := HomeLongitude card_info;
     IsCompromised := IsCompromised card_info;
     LastTxTimestamp := Some now;
     LastTxLatitude := Some merchant_lat;
     LastTxLongitude := Some merchant_lon |}.

(** What a successful iteration did: the card it chose, the outcome of
    lines 98-148, the record it printed and the state it left. *)
Lemma step_Ok (cfg : Config) (tid : string) (st st' : State)
    (tx : Transaction) :
  step cfg tid st = Ok (tx, st') ->
  exists card_id card_info g1 is_fraud amount mlat mlon now g2,
    g1 = snd (rng_randbelow (List.length (dict_keys (cards_data st))) (rng st)) /\
    In card_id (dict_keys (cards_data st)) /\
    dict_get card_id (cards_data st) = Ok card_info /\
    decide_transaction cfg card_info (current_time st) g1
      = Ok (is_fraud, amount, mlat, mlon, now, g2) /\
    TransactionID tx = tid /\
    CardID tx = card_id /\
    Timestamp tx = strftime_second now /\
    Amount tx = amount /\
    MerchantLatitude tx = mlat /\
    MerchantLongitude tx = mlon /\
    IsFraud tx = is_fraud /\
    TxHomeLatitude tx = HomeLatitude card_info /\
    TxHomeLongitude tx = HomeLongitude card_info /\
    current_time st' = now /\
    cards_data st' =
      dict_set card_id (updated_card card_info now mlat mlon) (cards_data st).
Proof.
  unfold step.
  match goal with
  | |- match ?b with _ => _ end = _ -> _ => destruct b as [[[[tx0 now0] cards0] g0] | e] eqn:Hbody
  end; [|discriminate].
  intros [= <- <-].
  inv_rand Hbody. rename a into card_id, g into g1.
  pose proof (random_choice_Ok _ _ _ _ Hm) as Hin.
  inv_rand Hk. rename a into card_info.
  inv_rand Hm0.
  inv_rand Hk0. destruct a as [[[[is_fraud amount] mlat] mlon] now].
  inv_rand Hk. inv_rand Hk0. inv_rand Hk.
  injection Hk as -> -> ->.
  pose proof (random_choice_rng _ _ _ _ Hm) as Hrng.
  exists card_id, card_info, g1, is_fraud, amount, mlat, mlon, now, g.
  simpl. repeat split; try reflexivity; assumption.
Qed.

End Engine.

(* ================================================================= *)
(** ** Lines 98-148: the two paths *)

Section Paths.
Context {G : Type} `{RandomSource G}.

(** The draw of line 104; [random()] is only called for a compromised
    card. *)
Definition fraud_decision (cfg : Config) (card_info : Card) : Rand G bool :=
  if IsCompromised card_info then
    u <- random_random ;;
    ret (Rltb u (FRAUD_INJECTION_PROBABILITY cfg))
  else ret false.

(** Lines 105-135. *)
Definition fraud_path (cfg : Config) (card_info : Card)
    (current_time : datetime) : Rand G (bool * R * R * R * datetime) :=
  a <- random_uniform (fst (FRAUD_AMOUNT_RANGE cfg))
                      (snd (FRAUD_AMOUNT_RANGE cfg)) ;;
  d <- random_uniform (LOCATION_VARIATION_KM_NORMAL cfg * 2)
                      (LOCATION_VARIATION_KM_FRAUD cfg) ;;
  '(merchant_lat, merchant_lon) <-
    generate_location_around (HomeLatitude card_info)
                             (HomeLongitude card_info) d ;;
  current_time' <-
    velocity_anomaly cfg card_info merchant_lat merchant_lon current_time ;;
  ret (true, py_round a 2, merchant_lat, merchant_lon, current_time').

(** Lines 137-148. *)
Definition normal_path (cfg : Config) (card_info : Card)
    (current_time : datetime) : Rand G (bool * R * R * R * datetime) :=
  a <- random_uniform (fst (NORMAL_AMOUNT_RANGE cfg))
                      (snd (NORMAL_AMOUNT_RANGE cfg)) ;;
  d <- random_uniform 0 (LOCATION_VARIATION_KM_NORMAL cfg) ;;
  '(merchant_lat, merchant_lon) <-
    generate_location_around (HomeLatitude card_info)
                             (HomeLongitude card_info) d ;;
  lambd <- lift (py_div 1 (AVG_TRANSACTION_DELAY_SECONDS cfg)) ;;
  time_increment <- random_expovariate lambd ;;
  ret (false, py_round a 2, merchant_lat, merchant_lon,
       generate_timestamp current_time time_increment).

Lemma decide_transaction_paths (cfg : Config) (card_info : Card)
    (now : datetime) :
  decide_transaction cfg card_info now =
  (is_fraud <- fraud_decision cfg card_info ;;
   if is_fraud : bool then fraud_path cfg card_info now
   else normal_path cfg card_info now).
Proof. reflexivity. Qed.

Lemma fraud_decision_Ok (cfg : Config) (card_info : Card) (g g' : G)
    (b : bool) :
  fraud_decision cfg card_info g = Ok (b, g') ->
  (b = true ->
   IsCompromised card_info = true /\
   fst (rng_random g) < FRAUD_INJECTION_PROBABILITY cfg /\
   g' = snd (rng_random g)) /\
  (IsCompromised card_info = false -> b = false /\ g' = g).
Proof.
  unfold fraud_decision. destruct (IsCompromised card_info).
  - unfold bind, random_random, ret. destruct (rng_random g) as [u g1].
    intros [= <- <-]. split; [|discriminate].
    unfold Rltb. destruct (Rlt_dec _ _); [|discriminate].
    intros _. simpl. auto.
  - intros Hr. inv_rand Hr. split; [discriminate | auto].
Qed.

Lemma fraud_decision_total (cfg : Config) (card_info : Card) (g : G) :
  exists b g', fraud_decision cfg card_info g = Ok (b, g').
Proof.
  unfold fraud_decision. destruct (IsCompromised card_info).
  - unfold bind, random_random, ret. destruct (rng_random g). eauto.
  - unfold ret. eauto.
Qed.

(** A compromised card whose draw succeeds takes the fraud path. *)
Lemma fraud_decision_true (cfg : Config) (card_info : Card) (g : G) :
  IsCompromised card_info = true ->
  fst (rng_random g) < FRAUD_INJECTION_PROBABILITY cfg ->
  fraud_decision cfg card_info g = Ok (true, snd (rng_random g)).
Proof.
  intros Hc Hu. unfold fraud_decision. rewrite Hc.
  unfold bind, random_random, ret, Rltb.
  destruct (rng_random g) as [u g1]. simpl in *.
  destruct (Rlt_dec _ _); [reflexivity | contradiction].
Qed.

End Paths.

Section PathsInversion.
Context {G : Type} `{RandomSource G}.

Lemma fraud_path_Ok (cfg : Config) (card_info : Card)
    (now now' : datetime) (g g' : G) (b : bool) (amount mlat mlon : R) :
  fraud_path cfg card_info now g = Ok (b, amount, mlat, mlon, now', g') ->
  b = true /\
  exists d g1 g2,
    generate_location_around (HomeLatitude card_info)
      (HomeLongitude card_info) d g1 = Ok (mlat, mlon, g2) /\
    velocity_anomaly cfg card_info mlat mlon now g2 = Ok (now', g').
Proof.
  unfold fraud_path. intros Hp.
  inv_rand Hp. inv_rand Hk. rename a0 into d, g1 into g_loc.
  inv_rand Hk0. destruct a0 as [la lo].
  inv_rand Hk. inv_rand Hk0.
  injection Hk0 as -> _ <- <- <-.
  split; [reflexivity|].
  exists d, g_loc, g1. split; assumption.
Qed.

(** The normal path: the radius drawn at line 144, the two draws of the
    sampler, and the clock moved by [generate_timestamp]. *)
Lemma normal_path_Ok (cfg : Config) (card_info : Card)
    (now now' : datetime) (g g' : G) (b : bool) (amount mlat mlon : R) :
  normal_path cfg card_info now g = Ok (b, amount, mlat, mlon, now', g') ->
  b = false /\
  exists d g1 g2 incr,
    random_uniform 0 (LOCATION_VARIATION_KM_NORMAL cfg) g1 = Ok (d, g2) /\
    (exists g3, generate_location_around (HomeLatitude card_info)
      (HomeLongitude card_info) d g2 = Ok (mlat, mlon, g3)) /\
    now' = generate_timestamp now incr.
Proof.
  unfold normal_path. intros Hp.
  inv_rand Hp. inv_rand Hk. rename a0 into d, g1 into g_loc.
  inv_rand Hk0. destruct a0 as [la lo].
  inv_rand Hk. inv_rand Hm2. inv_rand Hk0. inv_rand Hk.
  injection Hk as -> _ <- <- ->.
  split; [reflexivity|].
  exists d, g0, g_loc, a1. split; [assumption|]. split; [eauto | reflexivity].
Qed.

(** A record is flagged as fraud only on the fraud path, and the fraud
    path is only entered for a compromised card. *)
Lemma decide_transaction_Ok (cfg : Config) (card_info : Card)
    (now now' : datetime) (g g' : G) (is_fraud : bool) (amount mlat mlon : R) :
  decide_transaction cfg card_info now g
    = Ok (is_fraud, amount, mlat, mlon, now', g') ->
  exists g1,
    fraud_decision cfg card_info g = Ok (is_fraud, g1) /\
    (if is_fraud
     then fraud_path cfg card_info now g1
     else normal_path cfg card_info now g1)
    = Ok (is_fraud, amount, mlat, mlon, now', g').
Proof.
  rewrite decide_transaction_paths. intros Hd.
  inv_rand Hd. rename a into b, g0 into g1.
  exists g1.
  assert (Hb : is_fraud = b).
  { destruct b.
    - apply fraud_path_Ok in Hk. exact (proj1 Hk).
    - apply normal_path_Ok in Hk. exact (proj1 Hk). }
  subst b. split; [assumption|]. destruct is_fraud; assumption.
Qed.

Lemma decide_transaction_fraud_compromised (cfg : Config) (card_info : Card)
    (now now' : datetime) (g g' : G) (amount mlat mlon : R) :
  decide_transaction cfg card_info now g
    = Ok (true, amount, mlat, mlon, now', g') ->
  IsCompromised card_info = true.
Proof.
  intros Hd. apply decide_transaction_Ok in Hd. destruct Hd as (g1 & Hf & _).
  apply fraud_decision_Ok in Hf. destruct Hf as [Ht _]. now apply Ht.
Qed.

End PathsInversion.

(* ================================================================= *)
(** ** Lines 114-135: the clock on the fraud path, case by case *)

Section FraudClock.
Context {G : Type} `{RandomSource G}.

(** The guard of line 115 fails: nothing is drawn, the clock is kept. *)
Lemma velocity_anomaly_guard_false (cfg : Config) (card_info : Card)
    (mlat mlon : R) (now : datetime) (g : G) :
  truthy_datetime (LastTxTimestamp card_info)
    && truthy_float (LastTxLatitude card_info) = false ->
  velocity_anomaly cfg card_info mlat mlon now g = Ok (now, g).
Proof.
  intros Hguard. unfold velocity_anomaly. now rewrite Hguard.
Qed.

Lemma truthy_prior (card_info : Card) (last_ts : datetime) (last_lat : R) :
  LastTxTimestamp card_info = Some last_ts ->
  LastTxLatitude card_info = Some last_lat ->
  last_lat <> 0 ->
  truthy_datetime (LastTxTimestamp card_info)
    && truthy_float (LastTxLatitude card_info) = true.
Proof.
  intros -> -> Hnz. simpl. now destruct (Req_dec_T last_lat 0).
Qed.

(** The elapsed time is not positive: the [else] of line 132. *)
Lemma velocity_anomaly_not_positive (cfg : Config) (card_info : Card)
    (mlat mlon : R) (now : datetime) (g : G)
    (last_ts : datetime) (last_lat : R) :
  LastTxTimestamp card_info = Some last_ts ->
  LastTxLatitude card_info = Some last_lat ->
  last_lat <> 0 ->
  ~ 0 < total_seconds (now - last_ts)%Z ->
  velocity_anomaly cfg card_info mlat mlon now g =
  (lambd <- lift (py_div 1 (AVG_TRANSACTION_DELAY_SECONDS cfg)) ;;
   time_increment <- random_expovariate lambd ;;
   ret (generate_timestamp now time_increment)) g.
Proof.
  intros Hts Hlat Hnz Hdelta. unfold velocity_anomaly.
  rewrite (truthy_prior _ _ _ Hts Hlat Hnz), Hts.
  now destruct (Rlt_dec 0 _).
Qed.

(** The elapsed time is positive: lines 118-130. *)
Lemma velocity_anomaly_positive (cfg : Config) (card_info : Card)
    (mlat mlon : R) (now : datetime) (g : G)
    (last_ts : datetime) (last_lat last_lon d : R) :
  LastTxTimestamp card_info = Some last_ts ->
  LastTxLatitude card_info = Some last_lat ->
  last_lat <> 0 ->
  LastTxLongitude card_info = Some last_lon ->
  0 < total_seconds (now - last_ts)%Z ->
  haversine last_lat last_lon mlat mlon = Ok d ->
  velocity_anomaly cfg card_info mlat mlon now g =
  if Rlt_dec (d / total_seconds (now - last_ts)%Z * 3600)
             (HIGH_VELOCITY_THRESHOLD_KMH cfg)
  then
    (u <- random_random ;;
     if Rlt_dec u 0.5 then
       q' <- lift (py_div d (HIGH_VELOCITY_THRESHOLD_KMH cfg)) ;;
       v <- random_uniform (q' * 3600 * 0.5) (q' * 3600 * 0.9) ;;
       ret (last_ts + timedelta_of_seconds (py_max 1 v))%Z
     else ret now) g
  else Ok (now, g).
Proof.
  intros Hts Hlat Hnz Hlon Hdelta Hd. unfold velocity_anomaly.
  rewrite (truthy_prior _ _ _ Hts Hlat Hnz), Hts, Hlat, Hlon.
  destruct (Rlt_dec 0 _) as [_ | Hn]; [|contradiction].
  rewrite Hd. unfold bind at 1, lift at 1.
  unfold bind at 1, lift at 1.
  rewrite py_div_nonzero by lra.
  destruct (Rlt_dec _ _); reflexivity.
Qed.

(** The velocity is already at or above the threshold: the clock is kept. *)
Lemma velocity_anomaly_fast (cfg : Config) (card_info : Card)
    (mlat mlon : R) (now : datetime) (g : G)
    (last_ts : datetime) (last_lat last_lon d : R) :
  LastTxTimestamp card_info = Some last_ts ->
  LastTxLatitude card_info = Some last_lat ->
  last_lat <> 0 ->
  LastTxLongitude card_info = Some last_lon ->
  0 < total_seconds (now - last_ts)%Z ->
  haversine last_lat last_lon mlat mlon = Ok d ->
  ~ d / total_seconds (now - last_ts)%Z * 3600
      < HIGH_VELOCITY_THRESHOLD_KMH cfg ->
  velocity_anomaly cfg card_info mlat mlon now g = Ok (now, g).
Proof.
  intros Hts Hlat Hnz Hlon Hdelta Hd Hv.
  rewrite (velocity_anomaly_positive _ _ _ _ _ _ _ _ _ _
             Hts Hlat Hnz Hlon Hdelta Hd).
  now destruct (Rlt_dec _ _).
Qed.

(** The velocity is below the threshold and the draw of line 124 fails:
    the clock is kept. *)
Lemma velocity_anomaly_draw_fails (cfg : Config) (card_info : Card)
    (mlat mlon : R) (now : datetime) (g : G)
    (last_ts : datetime) (last_lat last_lon d : R) :
  LastTxTimestamp card_info = Some last_ts ->
  LastTxLatitude card_info = Some last_lat ->
  last_lat <> 0 ->
  LastTxLongitude card_info = Some last_lon ->
  0 < total_seconds (now - last_ts)%Z ->
  haversine last_lat last_lon mlat mlon = Ok d ->
  d / total_seconds (now - last_ts)%Z * 3600
    < HIGH_VELOCITY_THRESHOLD_KMH cfg ->
  ~ fst (rng_random g) < 0.5 ->
  velocity_anomaly cfg card_info mlat mlon now g
  = Ok (now, snd (rng_random g)).
Proof.
  intros Hts Hlat Hnz Hlon Hdelta Hd Hv Hu.
  rewrite (velocity_anomaly_positive _ _ _ _ _ _ _ _ _ _
             Hts Hlat Hnz Hlon Hdelta Hd).
  destruct (Rlt_dec _ _) as [_ | Hn]; [|contradiction].
  unfold bind, random_random. destruct (rng_random g) as [u g1].
  simpl in *. now destruct (Rlt_dec u 0.5).
Qed.

(** The velocity is below the threshold and the draw succeeds: the clock
    is rewritten from the prior timestamp. *)
Lemma velocity_anomaly_forced (cfg : Config) (card_info : Card)
    (mlat mlon : R) (now : datetime) (g : G)
    (last_ts : datetime) (last_lat last_lon d : R) :
  LastTxTimestamp card_info = Some last_ts ->
  LastTxLatitude card_info = Some last_lat ->
  last_lat <> 0 ->
  LastTxLongitude card_info = Some last_lon ->
  0 < total_seconds (now - last_ts)%Z ->
  haversine last_lat last_lon mlat mlon = Ok d ->
  d / total_seconds (now - last_ts)%Z * 3600
    < HIGH_VELOCITY_THRESHOLD_KMH cfg ->
  fst (rng_random g) < 0.5 ->
  HIGH_VELOCITY_THRESHOLD_KMH cfg <> 0 ->
  let g1 := snd (rng_random g) in
  let factor := 0.5 + 0.4 * fst (rng_random g1) in
  let required_time_seconds := d / HIGH_VELOCITY_THRESHOLD_KMH cfg * 3600 in
  velocity_anomaly cfg card_info mlat mlon now g
  = Ok ((last_ts
         + timedelta_of_seconds (py_max 1 (required_time_seconds * factor)))%Z,
        snd (rng_random g1)).
Proof.
  intros Hts Hlat Hnz Hlon Hdelta Hd Hv Hu HT g1 factor req.
  rewrite (velocity_anomaly_positive _ _ _ _ _ _ _ _ _ _
             Hts Hlat Hnz Hlon Hdelta Hd).
  destruct (Rlt_dec _ _) as [_ | Hn]; [|contradiction].
  unfold bind at 1, random_random.
  unfold g1 in *. destruct (rng_random g) as [u g0].
  simpl in *. destruct (Rlt_dec u 0.5) as [_ | Hn]; [|contradiction].
  unfold bind at 1, lift. rewrite py_div_nonzero by exact HT.
  unfold bind. rewrite random_uniform_eq. unfold ret.
  do 4 f_equal. apply f_equal. unfold factor, req.
  unfold Q2R. cbn [QArith_base.Qnum QArith_base.Qden]. field. exact HT.
Qed.

End FraudClock.

(** The rewritten gap, read back from the clock. *)
Lemma total_seconds_gap (last_ts : datetime) (delay : R) :
  total_seconds (last_ts + timedelta_of_seconds delay - last_ts)%Z
  = IZR (round_half_even (delay * 1000000)) / 1000000.
Proof.
  unfold total_seconds, timedelta_of_seconds. f_equal. f_equal. lia.
Qed.

Lemma timedelta_of_one_second : timedelta_of_seconds 1 = 1000000%Z.
Proof.
  unfold timedelta_of_seconds.
  replace (1 * 1000000) with (IZR 1000000) by lra.
  apply round_half_even_IZR.
Qed.

(** A delay of at least one second, below 0.9 times a bound that exceeds
    one second, stays below the bound after the microsecond rounding. *)
Lemma rounded_delay_below (delay bound : R) :
  1 <= delay -> delay <= Rmax 1 (0.9 * bound) -> 1 < bound ->
  1 <= IZR (round_half_even (delay * 1000000)) / 1000000 < bound.
Proof.
  intros H1 Hmax Hb.
  unfold Rmax in Hmax. destruct (Rle_dec 1 (0.9 * bound)) as [Hle | Hgt].
  - pose proof (round_half_even_bound (delay * 1000000)) as [_ Hhi].
    assert (Hlo : (1000000 <= round_half_even (delay * 1000000))%Z).
    { rewrite <- (round_half_even_IZR 1000000) at 1.
      apply round_half_even_le. lra. }
    apply IZR_le in Hlo.
    set (r := IZR (round_half_even (delay * 1000000))) in *.
    split; lra.
  - assert (Hone : delay * 1000000 = IZR 1000000) by lra.
    rewrite Hone, round_half_even_IZR. split; lra.
Qed.

(* ================================================================= *)
(** ** The velocity forcing of lines 124-130 *)

(** With a required time of at most one second, [max(1, _)] returns 1. *)
Lemma forced_delay_one_second (required factor : R) :
  required <= 1 -> 0.5 <= factor < 0.9 -> py_max 1 (required * factor) = 1.
Proof.
  intros Hreq Hfactor.
  assert (Hsmall : ~ 1 < required * factor) by nra.
  unfold py_max. now destruct (Rlt_dec 1 (required * factor)).
Qed.

Lemma one_second_gap (last_ts : datetime) :
  total_seconds (last_ts + 1000000 - last_ts)%Z = 1.
Proof.
  replace (last_ts + 1000000 - last_ts)%Z with 1000000%Z by lia.
  unfold total_seconds. lra.
Qed.

(** C1 (amended): on the fraud path, with a prior transaction, a positive
    elapsed time, an implied velocity below the threshold and a successful
    50% draw, the clock is rewritten to the prior timestamp plus
    [max(1, required * factor)] seconds (rounded to the microsecond), where
    [required] is the time the threshold velocity needs for the distance
    and [factor] lies in [[0.5, 0.9)].  The implied velocity then exceeds
    the threshold when [required] is above one second; otherwise the gap
    is exactly one second and the implied velocity stays at or below the
    threshold. *)
Theorem velocity_forcing_overshoots
    {G : Type} `{RandomSource G} (cfg : Config) (card_info : Card)
    (mlat mlon : R) (now : datetime) (g : G)
    (last_ts : datetime) (last_lat last_lon d : R) :
  0 < HIGH_VELOCITY_THRESHOLD_KMH cfg ->
  LastTxTimestamp card_info = Some last_ts ->
  LastTxLatitude card_info = Some last_lat ->
  last_lat <> 0 ->
  LastTxLongitude card_info = Some last_lon ->
  0 < total_seconds (now - last_ts)%Z ->
  haversine last_lat last_lon mlat mlon = Ok d ->
  d / total_seconds (now - last_ts)%Z * 3600
    < HIGH_VELOCITY_THRESHOLD_KMH cfg ->
  fst (rng_random g) < 0.5 ->
  let g1 := snd (rng_random g) in
  let factor := 0.5 + 0.4 * fst (rng_random g1) in
  let required := d / HIGH_VELOCITY_THRESHOLD_KMH cfg * 3600 in
  let now' := (last_ts + timedelta_of_seconds (py_max 1 (required * factor)))%Z in
  velocity_anomaly cfg card_info mlat mlon now g
    = Ok (now', snd (rng_random g1)) /\
  0.5 <= factor < 0.9 /\
  (1 < required ->
   HIGH_VELOCITY_THRESHOLD_KMH cfg
     < d / total_seconds (now' - last_ts)%Z * 3600) /\
  (required <= 1 ->
   now' = (last_ts + 1000000)%Z /\
   d / total_seconds (now' - last_ts)%Z * 3600
     <= HIGH_VELOCITY_THRESHOLD_KMH cfg).
Proof.
  intros HT Hts Hlat Hnz Hlon Hdelta Hd Hv Hu g1 factor required now'.
  pose proof (rng_random_range g1) as [Hf0 Hf1].
  assert (Hfactor : 0.5 <= factor < 0.9) by (unfold factor; split; lra).
  assert (Hdreq : d * 3600 = required * HIGH_VELOCITY_THRESHOLD_KMH cfg).
  { unfold required. field. lra. }
  split; [|split; [exact Hfactor|split]].
  - apply velocity_anomaly_forced with (last_lat := last_lat)
      (last_lon := last_lon); auto. lra.
  - intros Hreq. unfold now'. rewrite total_seconds_gap.
    set (delay := py_max 1 (required * factor)).
    assert (Hdelay : 1 <= delay <= Rmax 1 (0.9 * required)).
    { unfold delay. rewrite py_max_Rmax. split.
      - apply Rmax_l.
      - apply Rmax_lub; [apply Rmax_l|].
        apply Rle_trans with (0.9 * required); [nra | apply Rmax_r]. }
    destruct (rounded_delay_below delay required) as [He1 He2]; try tauto.
    set (e := IZR (round_half_even (delay * 1000000)) / 1000000) in *.
    apply Rmult_lt_reg_r with (r := e); [lra|].
    replace (d / e * 3600 * e) with (d * 3600) by (field; lra).
    rewrite Hdreq. nra.
  - intros Hreq.
    unfold now'.
    rewrite (forced_delay_one_second _ _ Hreq Hfactor), timedelta_of_one_second.
    split; [reflexivity|].
    rewrite one_second_gap.
    replace (d / 1 * 3600) with (d * 3600) by (field; lra).
    rewrite Hdreq. nra.
Qed.

(** A card whose previous transaction was at (30, 20), at time 0. *)
Definition card_at_30_20 : Card :=
  {| HomeLatitude := 30;
     HomeLongitude := 20;
     IsCompromised := true;
     LastTxTimestamp := Some 0%Z;
     LastTxLatitude := Some 30;
     LastTxLongitude := Some 20 |}.

(** The forcing draw succeeds (0.25 < 0.5); the factor draw is 0.5. *)
Definition forcing_script : Script :=
  {| floats := [0.25; 0.5]; indices := [] |}.

Lemma forcing_script_draws :
  fst (rng_random forcing_script) = 0.25 /\
  fst (rng_random (snd (rng_random forcing_script))) = 0.5 /\
  snd (rng_random (snd (rng_random forcing_script)))
  = {| floats := []; indices := [] |}.
Proof.
  unfold forcing_script.
  rewrite (script_random_cons 0.25) by lra. cbn [fst snd].
  rewrite (script_random_cons 0.5) by lra. cbn [fst snd].
  auto.
Qed.

Lemma one_hour : total_seconds (3600000000 - 0)%Z = 3600.
Proof.
  unfold total_seconds. replace (3600000000 - 0)%Z with 3600000000%Z by lia.
  lra.
Qed.

Lemma velocity_forcing_overshoots_witness :
  exists now',
    velocity_anomaly default_config card_at_30_20 31 20 3600000000%Z
      forcing_script = Ok (now', {| floats := []; indices := [] |}) /\
    800 < 6371 * math_radians (31 - 30) / total_seconds (now' - 0)%Z * 3600.
Proof.
  pose proof PI_bounds as [Hpi1 Hpi2].
  destruct forcing_script_draws as (Hu & Hf & Hg).
  assert (Hd : haversine 30 20 31 20 = Ok (6371 * math_radians (31 - 30))).
  { apply haversine_meridian. lra. }
  assert (Hrad : math_radians (31 - 30) = PI / 180).
  { unfold math_radians. lra. }
  destruct (velocity_forcing_overshoots default_config card_at_30_20 31 20
              3600000000%Z forcing_script 0%Z 30 20
              (6371 * math_radians (31 - 30)))
    as (Hrun & _ & Hover & _).
  - simpl. lra.
  - reflexivity.
  - reflexivity.
  - lra.
  - reflexivity.
  - rewrite one_hour. lra.
  - exact Hd.
  - rewrite one_hour, Hrad. simpl. lra.
  - rewrite Hu. lra.
  - rewrite Hg in Hrun. eexists. split; [exact Hrun|].
    apply Hover. rewrite Hrad. simpl. lra.
Defined.

(** C1, as stated, fails: the merchant is 0.001 degree north of the prior
    location (about 111 m), one hour later.  All conditions of the forcing
    hold, the delay is raised to one second by [max(1, _)], and the
    implied velocity is about 400 km/h, below the threshold of 800. *)
Lemma velocity_forcing_short_distance :
  ~ (forall (cfg : Config) (card_info : Card) (mlat mlon : R)
        (now now' : datetime) (g g' : Script)
        (last_ts : datetime) (last_lat last_lon d : R),
        LastTxTimestamp card_info = Some last_ts ->
        LastTxLatitude card_info = Some last_lat ->
        last_lat <> 0 ->
        LastTxLongitude card_info = Some last_lon ->
        0 < total_seconds (now - last_ts)%Z ->
        haversine last_lat last_lon mlat mlon = Ok d ->
        d / total_seconds (now - last_ts)%Z * 3600
          < HIGH_VELOCITY_THRESHOLD_KMH cfg ->
        fst (rng_random g) < 0.5 ->
        velocity_anomaly cfg card_info mlat mlon now g = Ok (now', g') ->
        HIGH_VELOCITY_THRESHOLD_KMH cfg
          < d / total_seconds (now' - last_ts)%Z * 3600).
Proof.
  intros Hclaim.
  pose proof PI_bounds as [Hpi1 Hpi2].
  destruct forcing_script_draws as (Hu & Hf & Hg).
  set (d := 6371 * math_radians (30.001 - 30)).
  assert (Hd : haversine 30 20 30.001 20 = Ok d).
  { apply haversine_meridian. lra. }
  assert (Hrad : d = 6371 * (0.001 * (PI / 180))).
  { unfold d, math_radians. lra. }
  assert (Hslow : d / total_seconds (3600000000 - 0)%Z * 3600
                  < HIGH_VELOCITY_THRESHOLD_KMH default_config).
  { rewrite one_hour, Hrad. simpl. lra. }
  assert (Hdraw : fst (rng_random forcing_script) < 0.5) by (rewrite Hu; lra).
  assert (Helapsed : 0 < total_seconds (3600000000 - 0)%Z)
    by (rewrite one_hour; lra).
  assert (Hnz : (30 : R) <> 0) by lra.
  assert (HT0 : HIGH_VELOCITY_THRESHOLD_KMH default_config <> 0)
    by (simpl; lra).
  pose proof (velocity_anomaly_forced default_config card_at_30_20
                30.001 20 3600000000%Z forcing_script 0%Z 30 20 d
                eq_refl eq_refl Hnz eq_refl Helapsed Hd Hslow Hdraw HT0)
    as Hrun.
  cbv zeta in Hrun.
  rewrite forced_delay_one_second, timedelta_of_one_second in Hrun.
  - specialize (Hclaim default_config card_at_30_20 30.001 20 3600000000%Z
                  _ forcing_script _ 0%Z 30 20 d
                  eq_refl eq_refl Hnz eq_refl Helapsed Hd Hslow Hdraw Hrun).
    rewrite one_second_gap, Hrad in Hclaim. simpl in Hclaim. lra.
  - rewrite Hrad. simpl. lra.
  - rewrite Hf. lra.
Qed.

(* ================================================================= *)
(** ** When an iteration cannot raise *)

(** What the bootstrap and the main loop maintain for every card: the home
    lies in the box of lines 79-80, and a stored last location comes from
    the sampler. *)
Definition card_ok (c : Card) : Prop :=
  (25 <= HomeLatitude c <= 65) /\
  (-125 <= HomeLongitude c <= 40) /\
  (forall la, LastTxLatitude c = Some la ->
     (-90 <= la <= 90) /\ exists lo, LastTxLongitude c = Some lo).

Definition cards_ok (d : Cards) : Prop :=
  forall k c, dict_get k d = Ok c -> card_ok c.

(** The two configuration values the loop divides by. *)
Definition divisors_nonzero (cfg : Config) : Prop :=
  AVG_TRANSACTION_DELAY_SECONDS cfg <> 0 /\
  HIGH_VELOCITY_THRESHOLD_KMH cfg <> 0.

Lemma home_cos_pos (lat : R) : 25 <= lat <= 65 -> 0 < cos (math_radians lat).
Proof.
  intros [Hlo Hhi]. pose proof PI_RGT_0 as Hpi.
  apply cos_gt_0; unfold math_radians; nra.
Qed.

Section Totality.
Context {G : Type} `{RandomSource G}.

Lemma random_expovariate_total (lambd : R) (g : G) :
  lambd <> 0 -> exists x g', random_expovariate lambd g = Ok (x, g').
Proof.
  intros Hl. unfold random_expovariate, bind, random_random.
  pose proof (rng_random_range g) as [Hu0 Hu1].
  destruct (rng_random g) as [u g1]. simpl in *.
  unfold lift, math_log. destruct (Rle_dec (1 - u) 0); [lra|].
  rewrite py_div_nonzero by exact Hl. eauto.
Qed.

Lemma advance_clock_total (cfg : Config) (now : datetime) (g : G) :
  AVG_TRANSACTION_DELAY_SECONDS cfg <> 0 ->
  exists now' g',
    (lambd <- lift (py_div 1 (AVG_TRANSACTION_DELAY_SECONDS cfg)) ;;
     time_increment <- random_expovariate lambd ;;
     ret (generate_timestamp now time_increment)) g = Ok (now', g').
Proof.
  intros Havg. unfold bind at 1, lift.
  rewrite py_div_nonzero by exact Havg.
  assert (Hl : 1 / AVG_TRANSACTION_DELAY_SECONDS cfg <> 0).
  { unfold Rdiv. rewrite Rmult_1_l. now apply Rinv_neq_0_compat. }
  destruct (random_expovariate_total _ g Hl) as (x & g' & Hx).
  unfold bind. rewrite Hx. unfold ret. eauto.
Qed.

Lemma velocity_anomaly_total (cfg : Config) (card_info : Card)
    (mlat mlon : R) (now : datetime) (g : G) :
  divisors_nonzero cfg -> card_ok card_info -> -90 <= mlat <= 90 ->
  exists now' g',
    velocity_anomaly cfg card_info mlat mlon now g = Ok (now', g').
Proof.
  intros [Havg HT] (_ & _ & Hlast) Hmlat.
  destruct (truthy_datetime (LastTxTimestamp card_info)
            && truthy_float (LastTxLatitude card_info)) eqn:Hguard.
  - apply andb_prop in Hguard. destruct Hguard as [Hts Hlat].
    destruct (LastTxTimestamp card_info) as [last_ts|] eqn:Ets;
      [|discriminate].
    destruct (LastTxLatitude card_info) as [last_lat|] eqn:Elat;
      [|discriminate].
    simpl in Hlat. destruct (Req_dec_T last_lat 0) as [|Hnz]; [discriminate|].
    destruct (Hlast last_lat eq_refl) as [Hrange [last_lon Elon]].
    destruct (Rlt_dec 0 (total_seconds (now - last_ts)%Z)) as [Hpos | Hneg].
    + destruct (haversine_total last_lat last_lon mlat mlon Hrange Hmlat)
        as [d Hd].
      rewrite (velocity_anomaly_positive _ _ _ _ _ _ _ _ _ _
                 Ets Elat Hnz Elon Hpos Hd).
      destruct (Rlt_dec _ _); [|eauto].
      unfold bind at 1, random_random. destruct (rng_random g) as [u g1].
      destruct (Rlt_dec u 0.5); [|unfold ret; eauto].
      unfold bind at 1, lift. rewrite py_div_nonzero by exact HT.
      unfold bind. rewrite random_uniform_eq. unfold ret. eauto.
    + rewrite (velocity_anomaly_not_positive _ _ _ _ _ _ _ _
                 Ets Elat Hnz Hneg).
      now apply advance_clock_total.
  - rewrite velocity_anomaly_guard_false by exact Hguard. eauto.
Qed.

Lemma fraud_path_total (cfg : Config) (card_info : Card)
    (now : datetime) (g : G) :
  divisors_nonzero cfg -> card_ok card_info ->
  exists amount mlat mlon now' g',
    fraud_path cfg card_info now g = Ok (true, amount, mlat, mlon, now', g').
Proof.
  intros Hcfg Hok. pose proof Hok as (Hhome & _ & _).
  unfold fraud_path. unfold bind at 1. rewrite random_uniform_eq.
  unfold bind at 1. rewrite random_uniform_eq.
  set (g2 := snd (rng_random (snd (rng_random g)))).
  set (d := _ + _ * fst (rng_random (snd (rng_random g)))).
  destruct (generate_location_around_total (HomeLatitude card_info)
              (HomeLongitude card_info) d g2) as (la & lo & g3 & Hloc).
  { apply Rgt_not_eq, home_cos_pos, Hhome. }
  unfold bind at 1. rewrite Hloc.
  destruct (generate_location_around_bounds _ _ _ _ _ _ _ Hloc) as [Hla _].
  destruct (velocity_anomaly_total cfg card_info la lo now g3 Hcfg Hok Hla)
    as (now' & g' & Hv).
  unfold bind. rewrite Hv. unfold ret. eauto 6.
Qed.

Lemma normal_path_total (cfg : Config) (card_info : Card)
    (now : datetime) (g : G) :
  divisors_nonzero cfg -> card_ok card_info ->
  exists amount mlat mlon now' g',
    normal_path cfg card_info now g = Ok (false, amount, mlat, mlon, now', g').
Proof.
  intros [Havg _] (Hhome & _ & _).
  unfold normal_path. unfold bind at 1. rewrite random_uniform_eq.
  unfold bind at 1. rewrite random_uniform_eq.
  set (g2 := snd (rng_random (snd (rng_random g)))).
  set (d := _ + _ * fst (rng_random (snd (rng_random g)))).
  destruct (generate_location_around_total (HomeLatitude card_info)
              (HomeLongitude card_info) d g2) as (la & lo & g3 & Hloc).
  { apply Rgt_not_eq, home_cos_pos, Hhome. }
  unfold bind at 1. rewrite Hloc.
  unfold bind at 1, lift. rewrite py_div_nonzero by exact Havg.
  assert (Hl : 1 / AVG_TRANSACTION_DELAY_SECONDS cfg <> 0).
  { unfold Rdiv. rewrite Rmult_1_l. now apply Rinv_neq_0_compat. }
  destruct (random_expovariate_total _ g3 Hl) as (x & g' & Hx).
  unfold bind. rewrite Hx. unfold ret. eauto 6.
Qed.

Lemma decide_transaction_total (cfg : Config) (card_info : Card)
    (now : datetime) (g : G) :
  divisors_nonzero cfg -> card_ok card_info ->
  exists is_fraud amount mlat mlon now' g',
    decide_transaction cfg card_info now g
    = Ok (is_fraud, amount, mlat, mlon, now', g').
Proof.
  intros Hcfg Hok. rewrite decide_transaction_paths.
  destruct (fraud_decision_total cfg card_info g) as (b & g1 & Hb).
  unfold bind. rewrite Hb. destruct b.
  - destruct (fraud_path_total cfg card_info now g1 Hcfg Hok)
      as (a & la & lo & now' & g' & Hp). eauto 7.
  - destruct (normal_path_total cfg card_info now g1 Hcfg Hok)
      as (a & la & lo & now' & g' & Hp). eauto 7.
Qed.

(** The merchant latitude an iteration produces is a sampler output. *)
Lemma decide_transaction_latitude (cfg : Config) (card_info : Card)
    (now now' : datetime) (g g' : G) (is_fraud : bool) (amount mlat mlon : R) :
  decide_transaction cfg card_info now g
    = Ok (is_fraud, amount, mlat, mlon, now', g') ->
  -90 <= mlat <= 90.
Proof.
  intros Hd. apply decide_transaction_Ok in Hd. destruct Hd as (g1 & _ & Hp).
  destruct is_fraud.
  - apply fraud_path_Ok in Hp. destruct Hp as (_ & d & ga & gb & Hloc & _).
    now apply generate_location_around_bounds in Hloc.
  - apply normal_path_Ok in Hp.
    destruct Hp as (_ & d & ga & gb & incr & _ & [g3 Hloc] & _).
    now apply generate_location_around_bounds in Hloc.
Qed.

Lemma step_total (cfg : Config) (tid : string) (st : State) :
  divisors_nonzero cfg -> cards_ok (cards_data st) ->
  cards_data st <> [] ->
  exists tx st', step cfg tid st = Ok (tx, st').
Proof.
  intros Hcfg Hok Hne. unfold step.
  destruct (random_choice_total (dict_keys (cards_data st)) (rng st))
    as (card_id & g1 & Hchoice).
  { unfold dict_keys. destruct (cards_data st); [contradiction | discriminate]. }
  pose proof (random_choice_Ok _ _ _ _ Hchoice) as Hin.
  destruct (dict_get_in_keys _ _ Hin) as [card_info Hget].
  destruct (decide_transaction_total cfg card_info (current_time st) g1 Hcfg
              (Hok _ _ Hget))
    as (is_fraud & amount & mlat & mlon & now & g2 & Hdec).
  destruct (random_randint_total 1000 9999 g2) as (n & g3 & Hn); [lia|].
  unfold bind at 1. rewrite Hchoice.
  unfold bind at 1, lift at 1. rewrite Hget.
  unfold bind at 1. rewrite Hdec.
  unfold bind at 1. rewrite Hn.
  unfold bind, random_gauss, ret. destruct (rng_gauss _ _ g3). eauto.
Qed.

(** An iteration keeps the keys and the invariant of the dictionary. *)
Lemma step_preserves (cfg : Config) (tid : string) (st st' : State)
    (tx : Transaction) :
  step cfg tid st = Ok (tx, st') ->
  dict_keys (cards_data st') = dict_keys (cards_data st) /\
  (cards_ok (cards_data st) -> cards_ok (cards_data st')).
Proof.
  intros Hstep. apply step_Ok in Hstep.
  destruct Hstep as (card_id & card_info & g1 & is_fraud & amount & mlat
                     & mlon & now & g2 & _ & Hin & Hget & Hdec & _ & _ & _
                     & _ & _ & _ & _ & _ & _ & _ & Hcards).
  rewrite Hcards. split.
  - exact (dict_keys_set_present _ _ _ _ Hget).
  - intros Hok k c Hk.
    destruct (string_dec k card_id) as [-> | Hne].
    + rewrite dict_get_set_same in Hk. injection Hk as <-.
      destruct (Hok _ _ Hget) as (Hh1 & Hh2 & _).
      split; [exact Hh1|]. split; [exact Hh2|].
      simpl. intros la [= <-]. split; [|eauto].
      apply (decide_transaction_latitude _ _ _ _ _ _ _ _ _ _ Hdec).
    + rewrite dict_get_set_other in Hk by exact Hne. exact (Hok _ _ Hk).
Qed.

Lemma dict_keys_nonempty (d d' : Cards) :
  dict_keys d' = dict_keys d -> d <> [] -> d' <> [].
Proof.
  unfold dict_keys. destruct d, d'; simpl; congruence.
Qed.

(** The loop runs to its end and prints one record per iteration. *)
Lemma transaction_loop_total (cfg : Config) (uuid4 : nat -> string)
    (n i : nat) (st : State) :
  divisors_nonzero cfg -> cards_ok (cards_data st) -> cards_data st <> [] ->
  exists out st',
    transaction_loop cfg uuid4 i n st = (out, Ok st') /\
    List.length out = n.
Proof.
  intros Hcfg. revert i st. induction n as [| n IH]; intros i st Hok Hne.
  - simpl. eauto.
  - simpl.
    destruct (step_total cfg (uuid4 i) st Hcfg Hok Hne) as (tx & st1 & Hstep).
    rewrite Hstep.
    destruct (step_preserves _ _ _ _ _ Hstep) as [Hkeys Hok'].
    destruct (IH (S i) st1 (Hok' Hok) (dict_keys_nonempty _ _ Hkeys Hne))
      as (out & st' & Hloop & Hlen).
    rewrite Hloop. exists (tx :: out), st'. simpl. now rewrite Hlen.
Qed.

End Totality.

(* ================================================================= *)
(** ** The bootstrap *)

Definition all_uncompromised (d : Cards) : Prop :=
  forall k c, dict_get k d = Ok c -> IsCompromised c = false.

Lemma py_round6_between (lo hi : Z) (x : R) :
  IZR lo <= x <= IZR hi -> IZR lo <= py_round x 6 <= IZR hi.
Proof.
  intros [Hlo Hhi]. split.
  - rewrite <- (py_round_IZR lo 6). now apply py_round_le.
  - rewrite <- (py_round_IZR hi 6). now apply py_round_le.
Qed.

Lemma dict_set_nonempty (k : string) (c : Card) (d : Cards) :
  dict_set k c d <> [].
Proof.
  destruct d as [| [k' c'] d]; simpl; [discriminate|].
  destruct (String.eqb k k'); discriminate.
Qed.

Section Bootstrap.
Context {G : Type} `{RandomSource G}.

(** Lines 76-88 for all cards of the population. *)
Definition bootstrap (cfg : Config) : Rand G Cards :=
  init_cards cfg (seq 0 (Z.to_nat (NUM_CARDS cfg))) [].

Lemma simulate_bootstrap (cfg : Config) (g : G) (now : datetime)
    (uuid4 : nat -> string) :
  simulate cfg g now uuid4 =
  match bootstrap cfg g with
  | Raise e => ([], Raise e)
  | Ok (cards, g') =>
      transaction_loop cfg uuid4 0 (Z.to_nat (NUM_TRANSACTIONS cfg))
        {| rng := g'; current_time := now; cards_data := cards |}
  end.
Proof. reflexivity. Qed.

(** One card: three draws, in the order home latitude, home longitude,
    compromise flag. *)
Lemma init_card_eq (cfg : Config) (i : nat) (cards : Cards) (g : G) :
  init_card cfg i cards g =
  let u1 := fst (rng_random g) in
  let g1 := snd (rng_random g) in
  let u2 := fst (rng_random g1) in
  let g2 := snd (rng_random g1) in
  let u3 := fst (rng_random g2) in
  let g3 := snd (rng_random g2) in
  Ok (dict_set (card_id_of i)
        {| HomeLatitude := py_round (25 + (65 - 25) * u1) 6;
           HomeLongitude := py_round (-125 + (40 - -125) * u2) 6;
           IsCompromised := Rltb u3 (COMPROMISE_CARD_PROBABILITY cfg);
           LastTxTimestamp := None;
           LastTxLatitude := None;
           LastTxLongitude := None |}
        cards, g3).
Proof.
  unfold init_card. unfold bind at 1. rewrite random_uniform_eq.
  unfold bind at 1. rewrite random_uniform_eq.
  unfold bind, random_random, ret.
  destruct (rng_random (snd (rng_random (snd (rng_random g))))).
  reflexivity.
Qed.

Lemma init_card_ok (cfg : Config) (i : nat) (cards cards' : Cards) (g g' : G) :
  init_card cfg i cards g = Ok (cards', g') ->
  cards' <> [] /\
  (cards_ok cards -> cards_ok cards') /\
  (COMPROMISE_CARD_PROBABILITY cfg <= 0 ->
   all_uncompromised cards -> all_uncompromised cards').
Proof.
  rewrite init_card_eq. cbv zeta. intros [= <- _].
  pose proof (rng_random_range g) as [Ha0 Ha1].
  pose proof (rng_random_range (snd (rng_random g))) as [Hb0 Hb1].
  pose proof (rng_random_range (snd (rng_random (snd (rng_random g)))))
    as [Hc0 Hc1].
  split; [apply dict_set_nonempty|]. split.
  - intros Hok k c Hk.
    destruct (string_dec k (card_id_of i)) as [-> | Hne].
    + rewrite dict_get_set_same in Hk. injection Hk as <-.
      split; [|split]; simpl.
      * apply (py_round6_between 25 65). lra.
      * apply (py_round6_between (-125) 40). lra.
      * discriminate.
    + rewrite dict_get_set_other in Hk by exact Hne. exact (Hok _ _ Hk).
  - intros Hp Hall k c Hk.
    destruct (string_dec k (card_id_of i)) as [-> | Hne].
    + rewrite dict_get_set_same in Hk. injection Hk as <-. simpl.
      unfold Rltb. destruct (Rlt_dec _ _); [lra | reflexivity].
    + rewrite dict_get_set_other in Hk by exact Hne. exact (Hall _ _ Hk).
Qed.

Lemma init_cards_ok (cfg : Config) (range : list nat) (cards : Cards) (g : G) :
  exists cards' g',
    init_cards cfg range cards g = Ok (cards', g') /\
    (range <> [] \/ cards <> [] -> cards' <> []) /\
    (range = [] -> cards' = cards) /\
    (cards_ok cards -> cards_ok cards') /\
    (COMPROMISE_CARD_PROBABILITY cfg <= 0 ->
     all_uncompromised cards -> all_uncompromised cards').
Proof.
  revert cards g. induction range as [| i range IH]; intros cards g.
  - exists cards, g. simpl. unfold ret.
    split; [reflexivity|]. split; [|auto].
    intros [Hr | Hc]; [contradiction | exact Hc].
  - simpl. unfold bind.
    destruct (init_card cfg i cards g) as [[cards1 g1] | e] eqn:Hinit.
    + destruct (init_card_ok _ _ _ _ _ _ Hinit) as (Hne & Hok & Hun).
      destruct (IH cards1 g1) as (cards' & g' & Hrun & Hne' & _ & Hok' & Hun').
      exists cards', g'.
      split; [exact Hrun|]. split; [auto|]. split; [discriminate|]. auto.
    + rewrite init_card_eq in Hinit. discriminate.
Qed.

Lemma cards_ok_nil : cards_ok [].
Proof. intros k c Hk. discriminate. Qed.

Lemma all_uncompromised_nil : all_uncompromised [].
Proof. intros k c Hk. discriminate. Qed.

(** The bootstrap never raises; it yields a population that satisfies the
    invariant, is not empty when [NUM_CARDS] is positive and is empty
    otherwise. *)
Lemma bootstrap_total (cfg : Config) (g : G) :
  exists cards g',
    bootstrap cfg g = Ok (cards, g') /\
    cards_ok cards /\
    ((0 < NUM_CARDS cfg)%Z -> cards <> []) /\
    ((NUM_CARDS cfg <= 0)%Z -> cards = []) /\
    (COMPROMISE_CARD_PROBABILITY cfg <= 0 -> all_uncompromised cards).
Proof.
  unfold bootstrap.
  destruct (init_cards_ok cfg (seq 0 (Z.to_nat (NUM_CARDS cfg))) [] g)
    as (cards & g' & Hrun & Hne & Hnil & Hok & Hun).
  exists cards, g'. split; [exact Hrun|]. split; [exact (Hok cards_ok_nil)|].
  split; [|split].
  - intros Hpos. apply Hne. left.
    destruct (Z.to_nat (NUM_CARDS cfg)) eqn:E; [lia | discriminate].
  - intros Hle. apply Hnil.
    replace (Z.to_nat (NUM_CARDS cfg)) with 0%nat by lia. reflexivity.
  - intros Hp. exact (Hun Hp all_uncompromised_nil).
Qed.

(* =============================================================== *)
(** ** The whole run *)

(** With a population and nonzero divisors every iteration succeeds. *)
Lemma simulate_total (cfg : Config) (g : G) (now : datetime)
    (uuid4 : nat -> string) :
  divisors_nonzero cfg -> (0 < NUM_CARDS cfg)%Z ->
  exists out st',
    simulate cfg g now uuid4 = (out, Ok st') /\
    List.length out = Z.to_nat (NUM_TRANSACTIONS cfg).
Proof.
  intros Hcfg Hpos. rewrite simulate_bootstrap.
  destruct (bootstrap_total cfg g) as (cards & g' & Hb & Hok & Hne & _).
  rewrite Hb. apply transaction_loop_total; auto.
Qed.

(** Without a population the first [random.choice] raises. *)
Lemma simulate_empty_population (cfg : Config) (g : G) (now : datetime)
    (uuid4 : nat -> string) :
  (NUM_CARDS cfg <= 0)%Z -> (0 < NUM_TRANSACTIONS cfg)%Z ->
  simulate cfg g now uuid4 = ([], Raise IndexError).
Proof.
  intros Hle Hpos. rewrite simulate_bootstrap.
  destruct (bootstrap_total cfg g) as (cards & g' & Hb & _ & _ & Hnil & _).
  rewrite Hb, (Hnil Hle).
  destruct (Z.to_nat (NUM_TRANSACTIONS cfg)) eqn:E; [lia|].
  reflexivity.
Qed.

End Bootstrap.

(* ================================================================= *)
(** ** Properties of one iteration *)

Section StepProperties.
Context {G : Type} `{RandomSource G}.

(** A fraud record comes from a compromised card, and its clock is the
    one [velocity_anomaly] returned. *)
Lemma step_fraud (cfg : Config) (tid : string) (st st' : State)
    (tx : Transaction) :
  step cfg tid st = Ok (tx, st') -> IsFraud tx = true ->
  exists card_info g g',
    dict_get (CardID tx) (cards_data st) = Ok card_info /\
    IsCompromised card_info = true /\
    velocity_anomaly cfg card_info (MerchantLatitude tx)
      (MerchantLongitude tx) (current_time st) g
    = Ok (current_time st', g').
Proof.
  intros Hstep Hfraud. apply step_Ok in Hstep.
  destruct Hstep as (card_id & card_info & g1 & is_fraud & amount & mlat
                     & mlon & now & g2 & _ & _ & Hget & Hdec & _ & Hid & _
                     & _ & Hla & Hlo & Hf & _ & _ & Hnow & _).
  rewrite Hfraud in Hf. subst is_fraud.
  pose proof (decide_transaction_fraud_compromised _ _ _ _ _ _ _ _ _ Hdec)
    as Hcomp.
  apply decide_transaction_Ok in Hdec. destruct Hdec as (g3 & _ & Hpath).
  apply fraud_path_Ok in Hpath.
  destruct Hpath as (_ & d & ga & gb & _ & Hv).
  exists card_info, gb, g2. rewrite Hid, Hla, Hlo, Hnow. auto.
Qed.

(** The flag of the record, from the card and the draw of line 104. *)
Lemma step_flag (cfg : Config) (tid : string) (st st' : State)
    (tx : Transaction) (card_info : Card) :
  step cfg tid st = Ok (tx, st') ->
  dict_get (CardID tx) (cards_data st) = Ok card_info ->
  let g1 := snd (rng_randbelow (List.length (dict_keys (cards_data st)))
                   (rng st)) in
  (IsCompromised card_info = true ->
   fst (rng_random g1) < FRAUD_INJECTION_PROBABILITY cfg ->
   IsFraud tx = true) /\
  (IsCompromised card_info = false -> IsFraud tx = false).
Proof.
  intros Hstep Hcard g1. apply step_Ok in Hstep.
  destruct Hstep as (card_id & card_info' & g1' & is_fraud & amount & mlat
                     & mlon & now & g2 & Hg1 & _ & Hget & Hdec & _ & Hid & _
                     & _ & _ & _ & Hf & _).
  rewrite Hid, Hget in Hcard. injection Hcard as ->.
  fold g1 in Hg1. subst g1'.
  apply decide_transaction_Ok in Hdec. destruct Hdec as (g3 & Hfd & _).
  rewrite Hf. split.
  - intros Hc Hu. rewrite (fraud_decision_true _ _ _ Hc Hu) in Hfd.
    now injection Hfd.
  - intros Hc. apply fraud_decision_Ok in Hfd. now apply Hfd.
Qed.

(** The record carries the clock the iteration ends with. *)
Lemma step_timestamp (cfg : Config) (tid : string)
    (st st' : State) (tx : Transaction) :
  step cfg tid st = Ok (tx, st') ->
  Timestamp tx = strftime_second (current_time st').
Proof.
  intros Hstep. apply step_Ok in Hstep.
  destruct Hstep as (card_id & card_info & g1 & is_fraud & amount & mlat
                     & mlon & now & g2 & _ & _ & _ & _ & _ & _ & Hts & _
                     & _ & _ & _ & _ & _ & Hnow & _).
  now rewrite Hts, Hnow.
Qed.

(** C7 (amended): after an iteration, whether the record is fraud or
    not, the chosen card's last-transaction coordinates are the merchant
    coordinates of the emitted record and its last-transaction timestamp
    is the shared clock the iteration ends with, at microsecond
    precision; the record's timestamp is that clock truncated to the
    whole second.  The card's home coordinates and compromise flag, and
    every other card, are unchanged. *)
Theorem step_updates_chosen_card_only (cfg : Config) (tid : string)
    (st st' : State) (tx : Transaction) :
  step cfg tid st = Ok (tx, st') ->
  exists card card',
    dict_get (CardID tx) (cards_data st) = Ok card /\
    dict_get (CardID tx) (cards_data st') = Ok card' /\
    LastTxTimestamp card' = Some (current_time st') /\
    Timestamp tx = strftime_second (current_time st') /\
    LastTxLatitude card' = Some (MerchantLatitude tx) /\
    LastTxLongitude card' = Some (MerchantLongitude tx) /\
    HomeLatitude card' = HomeLatitude card /\
    HomeLongitude card' = HomeLongitude card /\
    IsCompromised card' = IsCompromised card /\
    (forall k, k <> CardID tx ->
       dict_get k (cards_data st') = dict_get k (cards_data st)) /\
    dict_keys (cards_data st') = dict_keys (cards_data st).
Proof.
  intros Hstep. apply step_Ok in Hstep.
  destruct Hstep as (card_id & card_info & g1 & is_fraud & amount & mlat
                     & mlon & now & g2 & _ & _ & Hget & _ & _ & Hid & Hts & _
                     & Hla & Hlo & _ & _ & _ & Hnow & Hcards).
  exists card_info, (updated_card card_info now mlat mlon).
  rewrite Hid, Hcards, Hnow, Hts, Hla, Hlo.
  split; [exact Hget|]. split; [apply dict_get_set_same|].
  repeat (split; [reflexivity|]). split.
  - intros k Hk. now apply dict_get_set_other.
  - exact (dict_keys_set_present _ _ _ _ Hget).
Qed.

(** The guard of line 115 is false for the card of a fraud record: the
    iteration leaves the clock where it was. *)
Lemma step_guard_false_keeps_clock (cfg : Config) (tid : string)
    (st st' : State) (tx : Transaction) (card : Card) :
  step cfg tid st = Ok (tx, st') -> IsFraud tx = true ->
  dict_get (CardID tx) (cards_data st) = Ok card ->
  truthy_datetime (LastTxTimestamp card)
    && truthy_float (LastTxLatitude card) = false ->
  current_time st' = current_time st.
Proof.
  intros Hstep Hfraud Hcard Hguard.
  destruct (step_fraud _ _ _ _ _ Hstep Hfraud)
    as (card_info & g & g' & Hget & _ & Hv).
  rewrite Hget in Hcard. injection Hcard as ->.
  rewrite velocity_anomaly_guard_false in Hv by exact Hguard.
  now injection Hv.
Qed.

(** C10: a card that has a prior transaction whose stored merchant
    latitude is exactly 0.0 fails the guard of line 115; a fraudulent
    transaction on it skips lines 116-135 altogether (no distance, no
    draw, no increment) and the shared clock is not advanced for that
    record. *)
Theorem zero_latitude_skips_clock (cfg : Config) (tid : string)
    (st st' : State) (tx : Transaction) (card : Card) (last_ts : datetime) :
  step cfg tid st = Ok (tx, st') -> IsFraud tx = true ->
  dict_get (CardID tx) (cards_data st) = Ok card ->
  LastTxTimestamp card = Some last_ts ->
  LastTxLatitude card = Some 0 ->
  (forall mlat mlon now (g : G),
      velocity_anomaly cfg card mlat mlon now g = Ok (now, g)) /\
  current_time st' = current_time st /\
  Timestamp tx = strftime_second (current_time st).
Proof.
  intros Hstep Hfraud Hcard Hts Hlat.
  assert (Hguard : truthy_datetime (LastTxTimestamp card)
                   && truthy_float (LastTxLatitude card) = false).
  { rewrite Hts, Hlat. simpl. destruct (Req_dec_T 0 0); [reflexivity|].
    contradiction. }
  assert (Hclock : current_time st' = current_time st).
  { exact (step_guard_false_keeps_clock _ _ _ _ _ _ Hstep Hfraud Hcard Hguard). }
  split; [|split].
  - intros mlat mlon now g. now apply velocity_anomaly_guard_false.
  - exact Hclock.
  - now rewrite (step_timestamp _ _ _ _ _ Hstep), Hclock.
Qed.

End StepProperties.

(* ================================================================= *)
(** ** Properties of the printed records *)

Section Records.
Context {G : Type} `{RandomSource G}.

(** Induction over the main loop: an invariant of the state that every
    successful iteration keeps, and a property of the record printed in
    iteration [i]. *)
Lemma transaction_loop_records (cfg : Config) (uuid4 : nat -> string)
    (Inv : State -> Prop) (P : nat -> Transaction -> Prop) :
  (forall i st tx st',
      Inv st -> step cfg (uuid4 i) st = Ok (tx, st') -> Inv st' /\ P i tx) ->
  forall n i st,
    Inv st ->
    forall k tx,
      nth_error (fst (transaction_loop cfg uuid4 i n st)) k = Some tx ->
      P (i + k)%nat tx.
Proof.
  intros Hstep. induction n as [| n IH]; intros i st Hinv k tx Hk.
  - simpl in Hk. destruct k; discriminate.
  - simpl in Hk.
    destruct (step cfg (uuid4 i) st) as [[tx0 st1] | e] eqn:Hs.
    + destruct (Hstep _ _ _ _ Hinv Hs) as [Hinv1 Hp].
      specialize (IH (S i) st1 Hinv1).
      destruct (transaction_loop cfg uuid4 (S i) n st1) as [out r].
      destruct k as [| k]; simpl in Hk.
      * injection Hk as <-. now rewrite Nat.add_0_r.
      * replace (i + S k)%nat with (S i + k)%nat by lia.
        now apply IH.
    + destruct k; discriminate.
Qed.

(** The identifier of the record printed in iteration [i] is the one
    [uuid4] returned in that iteration. *)
Lemma transaction_loop_ids (cfg : Config) (uuid4 : nat -> string)
    (n i : nat) (st : State) (k : nat) (tx : Transaction) :
  nth_error (fst (transaction_loop cfg uuid4 i n st)) k = Some tx ->
  TransactionID tx = uuid4 (i + k)%nat.
Proof.
  apply (transaction_loop_records cfg uuid4 (fun _ => True)
           (fun i tx => TransactionID tx = uuid4 i)); [|exact I].
  intros j st0 tx0 st1 _ Hs. split; [exact I|].
  apply step_Ok in Hs.
  destruct Hs as (card_id & card_info & g1 & is_fraud & amount & mlat
                  & mlon & now & g2 & _ & _ & _ & _ & Htid & _).
  exact Htid.
Qed.

(** The compromise flags of the population never change. *)
Definition flags_from (cards0 cards : Cards) : Prop :=
  forall k c, dict_get k cards = Ok c ->
    exists c0, dict_get k cards0 = Ok c0 /\ IsCompromised c0 = IsCompromised c.

(** The card an iteration writes back, and the cards it leaves alone. *)
Lemma step_updates_card (cfg : Config) (tid : string) (st st' : State)
    (tx : Transaction) :
  step cfg tid st = Ok (tx, st') ->
  exists card card',
    dict_get (CardID tx) (cards_data st) = Ok card /\
    dict_get (CardID tx) (cards_data st') = Ok card' /\
    IsCompromised card' = IsCompromised card /\
    (forall k, k <> CardID tx ->
       dict_get k (cards_data st') = dict_get k (cards_data st)).
Proof.
  intros Hstep. apply step_Ok in Hstep.
  destruct Hstep as (card_id & card_info & g1 & is_fraud & amount & mlat
                     & mlon & now & g2 & _ & _ & Hget & _ & _ & Hid & _ & _
                     & _ & _ & _ & _ & _ & _ & Hcards).
  exists card_info, (updated_card card_info now mlat mlon).
  rewrite Hid, Hcards.
  split; [exact Hget|]. split; [apply dict_get_set_same|].
  split; [reflexivity|].
  intros k Hk. now apply dict_get_set_other.
Qed.

Lemma step_flags (cfg : Config) (tid : string) (cards0 : Cards)
    (st st' : State) (tx : Transaction) :
  flags_from cards0 (cards_data st) ->
  step cfg tid st = Ok (tx, st') ->
  flags_from cards0 (cards_data st') /\
  (IsFraud tx = true ->
   exists card, dict_get (CardID tx) cards0 = Ok card /\
                IsCompromised card = true).
Proof.
  intros Hflags Hstep. split.
  - destruct (step_updates_card _ _ _ _ _ Hstep)
      as (card & card' & Hget & Hget' & Hcomp & Hother).
    intros k c Hk.
    destruct (string_dec k (CardID tx)) as [-> | Hne].
    + rewrite Hget' in Hk. injection Hk as <-.
      destruct (Hflags _ _ Hget) as (c0 & Hc0 & Hf).
      exists c0. split; [exact Hc0 | congruence].
    + rewrite Hother in Hk by exact Hne. exact (Hflags _ _ Hk).
  - intros Hfraud.
    destruct (step_fraud _ _ _ _ _ Hstep Hfraud)
      as (card_info & g & g' & Hget & Hcomp & _).
    destruct (Hflags _ _ Hget) as (c0 & Hc0 & Hf).
    exists c0. split; [exact Hc0 | congruence].
Qed.

Lemma flags_from_refl (cards : Cards) : flags_from cards cards.
Proof. intros k c Hk. eauto. Qed.

(** A fraud record names a card of the population that is compromised. *)
Lemma fraud_record_card_compromised (cfg : Config) (g g1 : G)
    (now : datetime) (uuid4 : nat -> string) (cards : Cards)
    (tx : Transaction) :
  bootstrap cfg g = Ok (cards, g1) ->
  In tx (fst (simulate cfg g now uuid4)) ->
  IsFraud tx = true ->
  exists card, dict_get (CardID tx) cards = Ok card /\
               IsCompromised card = true.
Proof.
  intros Hboot Hin.
  rewrite simulate_bootstrap, Hboot in Hin.
  apply In_nth_error in Hin. destruct Hin as [k Hk].
  revert Hk.
  apply (transaction_loop_records cfg uuid4
           (fun st => flags_from cards (cards_data st))
           (fun _ tx => IsFraud tx = true ->
              exists card, dict_get (CardID tx) cards = Ok card /\
                           IsCompromised card = true)).
  - intros i st tx0 st' Hinv Hs. exact (step_flags _ _ _ _ _ _ Hinv Hs).
  - apply flags_from_refl.
Qed.

(** With a compromise probability of 0 or less no record is fraud. *)
Lemma zero_probability_no_fraud (cfg : Config) (g : G)
    (now : datetime) (uuid4 : nat -> string) (tx : Transaction) :
  COMPROMISE_CARD_PROBABILITY cfg <= 0 ->
  In tx (fst (simulate cfg g now uuid4)) ->
  IsFraud tx = false.
Proof.
  intros Hzero Hin.
  destruct (bootstrap_total cfg g) as (cards & g' & Hb & _ & _ & _ & Hun).
  destruct (IsFraud tx) eqn:E; [|reflexivity].
  destruct (fraud_record_card_compromised _ _ _ _ _ _ _ Hb Hin E)
    as (card & Hget & Hcomp).
  rewrite (Hun Hzero _ _ Hget) in Hcomp. discriminate.
Qed.

(** C3: every fraud record names a card of the population whose
    compromise flag is set; with a compromise probability of 0 (or less)
    no record of the run is fraud, however many transactions there are. *)
Theorem fraud_only_from_compromised_cards (cfg : Config) (g g1 : G)
    (now : datetime) (uuid4 : nat -> string) (cards : Cards)
    (tx : Transaction) :
  bootstrap cfg g = Ok (cards, g1) ->
  In tx (fst (simulate cfg g now uuid4)) ->
  (IsFraud tx = true ->
   exists card, dict_get (CardID tx) cards = Ok card /\
                IsCompromised card = true) /\
  (COMPROMISE_CARD_PROBABILITY cfg <= 0 -> IsFraud tx = false).
Proof.
  intros Hboot Hin. split.
  - intros Hfraud.
    exact (fraud_record_card_compromised _ _ _ _ _ _ _ Hboot Hin Hfraud).
  - intros Hzero.
    exact (zero_probability_no_fraud _ _ _ _ _ Hzero Hin).
Qed.

End Records.

(* ================================================================= *)
(** ** Configuration is not validated *)

(** The configurations the specification calls invalid: a non-positive
    amount bound or radius, a probability outside [[0, 1]], or a
    population size that is not positive. *)
Definition invalid_configuration (cfg : Config) : Prop :=
  fst (NORMAL_AMOUNT_RANGE cfg) <= 0 \/ snd (NORMAL_AMOUNT_RANGE cfg) <= 0 \/
  fst (FRAUD_AMOUNT_RANGE cfg) <= 0 \/ snd (FRAUD_AMOUNT_RANGE cfg) <= 0 \/
  LOCATION_VARIATION_KM_NORMAL cfg <= 0 \/
  LOCATION_VARIATION_KM_FRAUD cfg <= 0 \/
  ~ 0 <= FRAUD_INJECTION_PROBABILITY cfg <= 1 \/
  ~ 0 <= COMPROMISE_CARD_PROBABILITY cfg <= 1 \/
  (NUM_CARDS cfg <= 0)%Z.

(** The script's constants, with a fraud probability of 1.5. *)
Definition overdriven_config : Config := {|
  NUM_CARDS := 50;
  NUM_TRANSACTIONS := 1000;
  FRAUD_INJECTION_PROBABILITY := 1.5;
  COMPROMISE_CARD_PROBABILITY := 0.10;
  AVG_TRANSACTION_DELAY_SECONDS := 0.5;
  LOCATION_VARIATION_KM_NORMAL := 50;
  LOCATION_VARIATION_KM_FRAUD := 5000;
  NORMAL_AMOUNT_RANGE := (5, 250);
  FRAUD_AMOUNT_RANGE := (100, 2000);
  HIGH_VELOCITY_THRESHOLD_KMH := 800
|}.

Definition exhausted_script : Script := {| floats := []; indices := [] |}.

Lemma overdriven_config_invalid : invalid_configuration overdriven_config.
Proof.
  unfold invalid_configuration. do 6 right. left. simpl. lra.
Qed.

Lemma overdriven_config_divisors : divisors_nonzero overdriven_config.
Proof. split; simpl; lra. Qed.

(** C9, as stated, fails: with a fraud probability of 1.5 the run neither
    raises nor stays silent; it prints all its records. *)
Lemma invalid_probability_is_not_rejected :
  ~ (forall (cfg : Config) (g : Script) (now : datetime)
        (uuid4 : nat -> string),
        invalid_configuration cfg ->
        exists e, simulate cfg g now uuid4 = ([], Raise e)).
Proof.
  intros Hclaim.
  destruct (Hclaim overdriven_config exhausted_script 0%Z
              (fun _ => EmptyString) overdriven_config_invalid) as [e He].
  destruct (simulate_total overdriven_config exhausted_script 0%Z
              (fun _ => EmptyString) overdriven_config_divisors)
    as (out & st' & Hrun & _).
  - reflexivity.
  - rewrite He in Hrun. discriminate.
Qed.

(* ================================================================= *)
(** ** Two runs from the same generator state *)

(** A run started [delta] microseconds later: every stored timestamp is
    moved by [delta], nothing else changes. *)
Definition shift_card (delta : Z) (c : Card) : Card :=
  {| HomeLatitude := HomeLatitude c;
     HomeLongitude := HomeLongitude c;
     IsCompromised := IsCompromised c;
     LastTxTimestamp :=
       match LastTxTimestamp c with
       | Some t => Some (t + delta)%Z
       | None => None
       end;
     LastTxLatitude := LastTxLatitude c;
     LastTxLongitude := LastTxLongitude c |}.

Definition shift_cards (delta : Z) (d : Cards) : Cards :=
  map (fun kc => (fst kc, shift_card delta (snd kc))) d.

(** Two records that agree on everything but [TransactionID] and
    [Timestamp]. *)
Definition same_but_id_and_time (tx1 tx2 : Transaction) : Prop :=
  CardID tx1 = CardID tx2 /\
  Amount tx1 = Amount tx2 /\
  MerchantID tx1 = MerchantID tx2 /\
  MerchantLatitude tx1 = MerchantLatitude tx2 /\
  MerchantLongitude tx1 = MerchantLongitude tx2 /\
  IsFraud tx1 = IsFraud tx2 /\
  TxHomeLatitude tx1 = TxHomeLatitude tx2 /\
  TxHomeLongitude tx1 = TxHomeLongitude tx2.

Lemma dict_get_shift (delta : Z) (k : string) (d : Cards) :
  dict_get k (shift_cards delta d) =
  match dict_get k d with
  | Ok c => Ok (shift_card delta c)
  | Raise e => Raise e
  end.
Proof.
  induction d as [| [k' c'] d IH]; simpl; [reflexivity|].
  destruct (String.eqb k k'); [reflexivity | exact IH].
Qed.

Lemma dict_set_shift (delta : Z) (k : string) (c : Card) (d : Cards) :
  dict_set k (shift_card delta c) (shift_cards delta d)
  = shift_cards delta (dict_set k c d).
Proof.
  induction d as [| [k' c'] d IH]; simpl; [reflexivity|].
  destruct (String.eqb k k'); simpl; [reflexivity | now rewrite IH].
Qed.

Lemma dict_keys_shift (delta : Z) (d : Cards) :
  dict_keys (shift_cards delta d) = dict_keys d.
Proof.
  unfold dict_keys, shift_cards. rewrite map_map. reflexivity.
Qed.

Section SeededRuns.
Context {G : Type} `{RandomSource G}.

Definition shift_state (delta : Z) (st : @State G) : @State G :=
  {| rng := rng st;
     current_time := (current_time st + delta)%Z;
     cards_data := shift_cards delta (cards_data st) |}.

(** The clock computation only looks at differences of timestamps. *)
Lemma velocity_anomaly_shift (delta : Z) (cfg : Config) (card_info : Card)
    (mlat mlon : R) (now : datetime) (g : G) :
  velocity_anomaly cfg (shift_card delta card_info) mlat mlon
    (now + delta)%Z g =
  match velocity_anomaly cfg card_info mlat mlon now g with
  | Ok (t, g') => Ok ((t + delta)%Z, g')
  | Raise e => Raise e
  end.
Proof.
  unfold velocity_anomaly. simpl.
  destruct (LastTxTimestamp card_info) as [last_ts|]; simpl; [|reflexivity].
  destruct (truthy_float (LastTxLatitude card_info)); simpl; [|reflexivity].
  replace (now + delta - (last_ts + delta))%Z with (now - last_ts)%Z by lia.
  destruct (Rlt_dec 0 _).
  - destruct (LastTxLatitude card_info) as [last_lat|]; [|reflexivity].
    destruct (LastTxLongitude card_info) as [last_lon|]; [|reflexivity].
    unfold bind, lift, ret, random_random, generate_timestamp.
    destruct (haversine _ _ _ _); [|reflexivity].
    destruct (py_div _ _); [|reflexivity].
    destruct (Rlt_dec _ _); [|reflexivity].
    destruct (rng_random g) as [u g1].
    destruct (Rlt_dec u 0.5); [|reflexivity].
    destruct (py_div _ _); [|reflexivity].
    rewrite random_uniform_eq. do 2 f_equal. lia.
  - unfold bind, lift, ret, generate_timestamp.
    destruct (py_div _ _); [|reflexivity].
    destruct (random_expovariate _ g) as [[x g1] | e]; [|reflexivity].
    do 2 f_equal. lia.
Qed.

(** A continuation-wise way to push a result transformer through [bind]. *)
Lemma bind_commute {A B C : Type}
    (f : result (B * G) -> result (C * G))
    (m : Rand G A) (k1 : A -> Rand G C) (k2 : A -> Rand G B) (g : G) :
  (forall e, f (Raise e) = Raise e) ->
  (forall a g', k1 a g' = f (k2 a g')) ->
  bind m k1 g = f (bind m k2 g).
Proof.
  intros Hf Hk. unfold bind.
  destruct (m g) as [[a g'] | e]; [apply Hk | now rewrite Hf].
Qed.

Lemma bind_commute_map {A A' B C : Type}
    (f : result (B * G) -> result (C * G)) (h : A -> A')
    (m1 : Rand G A') (m2 : Rand G A)
    (k1 : A' -> Rand G C) (k2 : A -> Rand G B) (g : G) :
  (forall e, f (Raise e) = Raise e) ->
  m1 g = match m2 g with
         | Ok (a, g') => Ok (h a, g')
         | Raise e => Raise e
         end ->
  (forall a g', k1 (h a) g' = f (k2 a g')) ->
  bind m1 k1 g = f (bind m2 k2 g).
Proof.
  intros Hf Hm Hk. unfold bind. rewrite Hm.
  destruct (m2 g) as [[a g'] | e]; [apply Hk | now rewrite Hf].
Qed.

Definition shift_outcome (delta : Z)
    (r : result (bool * R * R * R * datetime * G))
  : result (bool * R * R * R * datetime * G) :=
  match r with
  | Ok (b, a, la, lo, t, g) => Ok (b, a, la, lo, (t + delta)%Z, g)
  | Raise e => Raise e
  end.

Lemma fraud_path_shift (delta : Z) (cfg : Config) (card_info : Card)
    (now : datetime) (g : G) :
  fraud_path cfg (shift_card delta card_info) (now + delta)%Z g
  = shift_outcome delta (fraud_path cfg card_info now g).
Proof.
  unfold fraud_path. simpl HomeLatitude. simpl HomeLongitude.
  apply bind_commute; [reflexivity|]. intros a g1.
  apply bind_commute; [reflexivity|]. intros d g2.
  apply bind_commute; [reflexivity|]. intros [la lo] g3.
  unfold bind. rewrite velocity_anomaly_shift.
  destruct (velocity_anomaly cfg card_info la lo now g3) as [[t g4] | e];
    reflexivity.
Qed.

Lemma normal_path_shift (delta : Z) (cfg : Config) (card_info : Card)
    (now : datetime) (g : G) :
  normal_path cfg (shift_card delta card_info) (now + delta)%Z g
  = shift_outcome delta (normal_path cfg card_info now g).
Proof.
  unfold normal_path. simpl HomeLatitude. simpl HomeLongitude.
  apply bind_commute; [reflexivity|]. intros a g1.
  apply bind_commute; [reflexivity|]. intros d g2.
  apply bind_commute; [reflexivity|]. intros [la lo] g3.
  apply bind_commute; [reflexivity|]. intros lambd g4.
  apply bind_commute; [reflexivity|]. intros x g5.
  unfold ret, generate_timestamp. simpl. do 3 f_equal. lia.
Qed.

Lemma decide_transaction_shift (delta : Z) (cfg : Config) (card_info : Card)
    (now : datetime) (g : G) :
  decide_transaction cfg (shift_card delta card_info) (now + delta)%Z g
  = shift_outcome delta (decide_transaction cfg card_info now g).
Proof.
  rewrite !decide_transaction_paths.
  change (fraud_decision cfg (shift_card delta card_info))
    with (fraud_decision cfg card_info).
  apply bind_commute; [reflexivity|]. intros [|] g1.
  - apply fraud_path_shift.
  - apply normal_path_shift.
Qed.

(** The body of [step], before the state is put together again. *)
Definition step_body (cfg : Config) (transaction_id : string)
    (st : @State G)
  : Rand G (Transaction * datetime * Cards) :=
  card_id <- random_choice (dict_keys (cards_data st)) ;;
  card_info <- lift (dict_get card_id (cards_data st)) ;;
  '(is_fraud, amount, merchant_lat, merchant_lon, now) <-
    decide_transaction cfg card_info (current_time st) ;;
  n <- random_randint 1000 9999 ;;
  g <- random_gauss (AVG_TRANSACTION_DELAY_SECONDS cfg)
                    (AVG_TRANSACTION_DELAY_SECONDS cfg / 3) ;;
  ret ({| TransactionID := transaction_id;
          CardID := card_id;
          Timestamp := strftime_second now;
          Amount := amount;
          MerchantID := ("MERCHANT_" ++ str_of_nat (Z.to_nat n))%string;
          MerchantLatitude := merchant_lat;
          MerchantLongitude := merchant_lon;
          IsFraud := is_fraud;
          TxHomeLatitude := HomeLatitude card_info;
          TxHomeLongitude := HomeLongitude card_info |},
       now,
       dict_set card_id (updated_card card_info now merchant_lat merchant_lon)
         (cards_data st)).

Lemma step_step_body (cfg : Config) (tid : string) (st : State) :
  step cfg tid st =
  match step_body cfg tid st (rng st) with
  | Ok (transaction_data, now, cards, g') =>
      Ok (transaction_data,
          {| rng := g'; current_time := now; cards_data := cards |})
  | Raise e => Raise e
  end.
Proof. reflexivity. Qed.

(** The record of the later run: another identifier, the later clock. *)
Definition restamp (tid : string) (t : datetime) (tx : Transaction)
  : Transaction :=
  {| TransactionID := tid;
     CardID := CardID tx;
     Timestamp := strftime_second t;
     Amount := Amount tx;
     MerchantID := MerchantID tx;
     MerchantLatitude := MerchantLatitude tx;
     MerchantLongitude := MerchantLongitude tx;
     IsFraud := IsFraud tx;
     TxHomeLatitude := TxHomeLatitude tx;
     TxHomeLongitude := TxHomeLongitude tx |}.

Definition shift_body (tid : string) (delta : Z)
    (r : result (Transaction * datetime * Cards * G))
  : result (Transaction * datetime * Cards * G) :=
  match r with
  | Ok (tx, now, cards, g) =>
      Ok (restamp tid (now + delta)%Z tx, (now + delta)%Z,
          shift_cards delta cards, g)
  | Raise e => Raise e
  end.

Lemma step_body_shift (delta : Z) (cfg : Config) (tid1 tid2 : string)
    (st : State) (g : G) :
  step_body cfg tid2 (shift_state delta st) g
  = shift_body tid2 delta (step_body cfg tid1 st g).
Proof.
  unfold step_body. simpl current_time. simpl cards_data.
  rewrite dict_keys_shift.
  apply bind_commute; [reflexivity|]. intros card_id g1.
  apply (bind_commute_map _ (shift_card delta)); [reflexivity | |].
  { unfold lift. rewrite dict_get_shift.
    now destruct (dict_get card_id (cards_data st)). }
  intros card_info g2.
  apply (bind_commute_map _
           (fun o : bool * R * R * R * datetime =>
              let '(b, a, la, lo, t) := o in (b, a, la, lo, (t + delta)%Z)));
    [reflexivity | |].
  { rewrite decide_transaction_shift.
    now destruct (decide_transaction cfg card_info (current_time st) g2)
      as [[[[[[b a] la] lo] t] g3] | e]. }
  intros [[[[is_fraud amount] mlat] mlon] now] g3.
  apply bind_commute; [reflexivity|]. intros n g4.
  apply bind_commute; [reflexivity|]. intros x g5.
  unfold ret, shift_body, restamp. simpl.
  rewrite <- dict_set_shift. reflexivity.
Qed.

(** The same iteration, [delta] later and with another identifier. *)
Lemma step_shift (delta : Z) (cfg : Config) (tid1 tid2 : string)
    (st : State) :
  match step cfg tid1 st, step cfg tid2 (shift_state delta st) with
  | Ok (tx1, st1), Ok (tx2, st2) =>
      same_but_id_and_time tx1 tx2 /\ st2 = shift_state delta st1
  | Raise e1, Raise e2 => e1 = e2
  | _, _ => False
  end.
Proof.
  rewrite !step_step_body. simpl rng.
  rewrite (step_body_shift delta cfg tid1 tid2).
  destruct (step_body cfg tid1 st (rng st)) as [[[[tx now] cards] g] | e];
    simpl; [|reflexivity].
  split; [|reflexivity].
  unfold same_but_id_and_time. simpl. repeat split; reflexivity.
Qed.

(** Related results of the loop: the same number of records, pairwise
    equal up to identifier and timestamp, and the same way of ending. *)
Definition same_ending (r1 r2 : result (@State G)) : Prop :=
  match r1, r2 with
  | Ok _, Ok _ => True
  | Raise e1, Raise e2 => e1 = e2
  | _, _ => False
  end.

Lemma transaction_loop_shift (delta : Z) (cfg : Config)
    (uuid_a uuid_b : nat -> string) (n i : nat) (st : State) :
  Forall2 same_but_id_and_time
    (fst (transaction_loop cfg uuid_a i n st))
    (fst (transaction_loop cfg uuid_b i n (shift_state delta st))) /\
  same_ending
    (snd (transaction_loop cfg uuid_a i n st))
    (snd (transaction_loop cfg uuid_b i n (shift_state delta st))).
Proof.
  revert i st. induction n as [| n IH]; intros i st.
  - simpl. split; constructor.
  - simpl.
    pose proof (step_shift delta cfg (uuid_a i) (uuid_b i) st) as Hs.
    destruct (step cfg (uuid_a i) st) as [[tx1 st1] | e1];
      destruct (step cfg (uuid_b i) (shift_state delta st))
        as [[tx2 st2] | e2]; try contradiction.
    + destruct Hs as [Hsame ->].
      destruct (IH (S i) st1) as [Hout Hend].
      destruct (transaction_loop cfg uuid_a (S i) n st1) as [out1 r1].
      destruct (transaction_loop cfg uuid_b (S i) n (shift_state delta st1))
        as [out2 r2].
      simpl in *. split; [constructor; assumption | exact Hend].
    + simpl. split; [constructor | exact Hs].
Qed.

Lemma shift_state_initial (delta : Z) (g : G) (now : datetime)
    (cards : Cards) :
  shift_cards delta cards = cards ->
  shift_state delta {| rng := g; current_time := now; cards_data := cards |}
  = {| rng := g; current_time := (now + delta)%Z; cards_data := cards |}.
Proof. intros Hc. unfold shift_state. simpl. now rewrite Hc. Qed.

(** The cards the bootstrap creates hold no timestamp. *)
Lemma init_cards_unshifted (delta : Z) (cfg : Config) (range : list nat)
    (cards cards' : Cards) (g g' : G) :
  shift_cards delta cards = cards ->
  init_cards cfg range cards g = Ok (cards', g') ->
  shift_cards delta cards' = cards'.
Proof.
  revert cards g. induction range as [| i range IH]; intros cards g Hc.
  - simpl. unfold ret. now intros [= <- _].
  - simpl. unfold bind. rewrite init_card_eq. cbv zeta.
    apply IH. rewrite <- dict_set_shift, Hc. reflexivity.
Qed.

End SeededRuns.

Section SeededRunsAgree.
Context {G : Type} `{RandomSource G}.

Lemma transaction_loop_ext (cfg : Config) (uuid_a uuid_b : nat -> string)
    (n i : nat) (st : State) :
  (forall j, uuid_a j = uuid_b j) ->
  transaction_loop cfg uuid_a i n st = transaction_loop cfg uuid_b i n st.
Proof.
  intros Hext. revert i st. induction n as [| n IH]; intros i st.
  - reflexivity.
  - simpl. rewrite Hext.
    destruct (step cfg (uuid_b i) st) as [[tx st1] | e]; [|reflexivity].
    now rewrite IH.
Qed.

Lemma simulate_ids (cfg : Config) (g : G) (now : datetime)
    (uuid4 : nat -> string) (k : nat) (tx : Transaction) :
  nth_error (fst (simulate cfg g now uuid4)) k = Some tx ->
  TransactionID tx = uuid4 k.
Proof.
  rewrite simulate_bootstrap.
  destruct (bootstrap cfg g) as [[cards g'] | e].
  - apply transaction_loop_ids.
  - destruct k; discriminate.
Qed.

(** C8 (amended): two runs of the same configuration from the same
    generator state print the same number of records, which agree
    pairwise in every field except [TransactionID] (from [uuid.uuid4],
    which does not read the generator) and [Timestamp] (from the wall
    clock at start), and end the same way; when the start time and the
    identifiers are the same as well, the two runs are identical. *)
Theorem seeded_runs_agree_up_to_id_and_time (cfg : Config) (g : G)
    (now1 now2 : datetime) (uuid_a uuid_b : nat -> string) :
  Forall2 same_but_id_and_time
    (fst (simulate cfg g now1 uuid_a)) (fst (simulate cfg g now2 uuid_b)) /\
  same_ending
    (snd (simulate cfg g now1 uuid_a)) (snd (simulate cfg g now2 uuid_b)) /\
  (now1 = now2 -> (forall i, uuid_a i = uuid_b i) ->
   simulate cfg g now1 uuid_a = simulate cfg g now2 uuid_b).
Proof.
  split; [|split].
  - rewrite !simulate_bootstrap.
    destruct (bootstrap cfg g) as [[cards g'] | e] eqn:Hboot; [|constructor].
    assert (Hfix : shift_cards (now2 - now1) cards = cards).
    { apply (init_cards_unshifted _ _ _ _ _ _ _ eq_refl Hboot). }
    pose proof (shift_state_initial (now2 - now1) g' now1 cards Hfix) as Hst.
    replace (now1 + (now2 - now1))%Z with now2 in Hst by lia.
    rewrite <- Hst. apply transaction_loop_shift.
  - rewrite !simulate_bootstrap.
    destruct (bootstrap cfg g) as [[cards g'] | e] eqn:Hboot; [|reflexivity].
    assert (Hfix : shift_cards (now2 - now1) cards = cards).
    { apply (init_cards_unshifted _ _ _ _ _ _ _ eq_refl Hboot). }
    pose proof (shift_state_initial (now2 - now1) g' now1 cards Hfix) as Hst.
    replace (now1 + (now2 - now1))%Z with now2 in Hst by lia.
    rewrite <- Hst. apply transaction_loop_shift.
  - intros <- Hext. rewrite !simulate_bootstrap.
    destruct (bootstrap cfg g) as [[cards g'] | e]; [|reflexivity].
    now apply transaction_loop_ext.
Qed.

End SeededRunsAgree.

Lemma seeded_runs_agree_up_to_id_and_time_witness :
  simulate default_config exhausted_script 0%Z (fun _ => EmptyString)
  = simulate default_config exhausted_script 0%Z (fun _ => EmptyString).
Proof.
  destruct (seeded_runs_agree_up_to_id_and_time default_config
              exhausted_script 0%Z 0%Z (fun _ => EmptyString)
              (fun _ => EmptyString)) as (_ & _ & Hsame).
  apply Hsame; reflexivity.
Defined.

Lemma default_config_divisors : divisors_nonzero default_config.
Proof. split; simpl; lra. Qed.

(** C8, as stated, fails: the same configuration and the same generator
    state, but the identifiers [uuid.uuid4] hands out differ between the
    two runs, and so do the records. *)
Lemma seeded_runs_differ_in_transaction_id :
  ~ (forall (cfg : Config) (g : Script) (now1 now2 : datetime)
        (uuid_a uuid_b : nat -> string),
        fst (simulate cfg g now1 uuid_a) = fst (simulate cfg g now2 uuid_b)).
Proof.
  intros Hclaim.
  specialize (Hclaim default_config exhausted_script 0%Z 0%Z
                (fun _ => "a"%string) (fun _ => "b"%string)).
  destruct (simulate_total default_config exhausted_script 0%Z
              (fun _ => "a"%string) default_config_divisors)
    as (out & st' & Hrun & Hlen); [reflexivity|].
  destruct out as [| tx out]; [discriminate|].
  assert (Ha : nth_error (fst (simulate default_config exhausted_script 0%Z
                                 (fun _ => "a"%string))) 0 = Some tx)
    by now rewrite Hrun.
  pose proof Ha as Hb. rewrite Hclaim in Hb.
  apply simulate_ids in Ha. apply simulate_ids in Hb.
  rewrite Ha in Hb. discriminate.
Qed.

(* ================================================================= *)
(** ** Runs on concrete inputs *)

(** With a single card in the dictionary, that card is the one chosen. *)
Lemma step_single_card {G : Type} `{RandomSource G} (cfg : Config)
    (tid : string) (st st' : State) (tx : Transaction)
    (k : string) (c : Card) :
  cards_data st = [(k, c)] ->
  step cfg tid st = Ok (tx, st') ->
  CardID tx = k /\ dict_get (CardID tx) (cards_data st) = Ok c.
Proof.
  intros Hcards Hstep.
  destruct (step_updates_card _ _ _ _ _ Hstep) as (card & _ & Hget & _).
  rewrite Hcards in *. simpl in Hget.
  destruct (String.eqb (CardID tx) k) eqn:E; [|discriminate].
  apply String.eqb_eq in E. injection Hget as <-.
  split; [exact E|]. simpl. rewrite E, String.eqb_refl. reflexivity.
Qed.

(** The script's constants with a compromise probability of 0. *)
Definition zero_compromise_config : Config := {|
  NUM_CARDS := 50;
  NUM_TRANSACTIONS := 1000;
  FRAUD_INJECTION_PROBABILITY := 0.03;
  COMPROMISE_CARD_PROBABILITY := 0;
  AVG_TRANSACTION_DELAY_SECONDS := 0.5;
  LOCATION_VARIATION_KM_NORMAL := 50;
  LOCATION_VARIATION_KM_FRAUD := 5000;
  NORMAL_AMOUNT_RANGE := (5, 250);
  FRAUD_AMOUNT_RANGE := (100, 2000);
  HIGH_VELOCITY_THRESHOLD_KMH := 800
|}.

Lemma zero_compromise_config_divisors : divisors_nonzero zero_compromise_config.
Proof. split; simpl; lra. Qed.

Lemma fraud_only_from_compromised_cards_witness :
  exists tx,
    In tx (fst (simulate zero_compromise_config exhausted_script 0%Z
                  (fun _ => EmptyString))) /\
    IsFraud tx = false.
Proof.
  destruct (bootstrap_total zero_compromise_config exhausted_script)
    as (cards & g1 & Hboot & _).
  destruct (simulate_total zero_compromise_config exhausted_script 0%Z
              (fun _ => EmptyString) zero_compromise_config_divisors)
    as (out & st' & Hrun & Hlen); [reflexivity|].
  destruct out as [| tx out]; [discriminate|].
  assert (Hin : In tx (fst (simulate zero_compromise_config exhausted_script
                              0%Z (fun _ => EmptyString)))).
  { rewrite Hrun. now left. }
  exists tx. split; [exact Hin|].
  destruct (fraud_only_from_compromised_cards zero_compromise_config
              exhausted_script g1 0%Z (fun _ => EmptyString) cards tx
              Hboot Hin) as [_ Hzero].
  apply Hzero. simpl. lra.
Defined.

(** A compromised card at home (30, 20) that has not been used yet. *)
Definition fresh_card : Card :=
  {| HomeLatitude := 30;
     HomeLongitude := 20;
     IsCompromised := true;
     LastTxTimestamp := None;
     LastTxLatitude := None;
     LastTxLongitude := None |}.

(** The same card after a transaction at latitude 0.0 (the equator),
    longitude 20, at time 0. *)
Definition equator_card : Card :=
  {| HomeLatitude := 30;
     HomeLongitude := 20;
     IsCompromised := true;
     LastTxTimestamp := Some 0%Z;
     LastTxLatitude := Some 0;
     LastTxLongitude := Some 20 |}.

Definition single_card_state (c : Card) (now : datetime) : @State Script :=
  {| rng := exhausted_script;
     current_time := now;
     cards_data := [("CARD_0000"%string, c)] |}.

Lemma single_card_ok (c : Card) (now : datetime) :
  card_ok c -> cards_ok (cards_data (single_card_state c now)).
Proof.
  intros Hc k c' Hk. simpl in Hk.
  destruct (String.eqb k "CARD_0000"); [|discriminate].
  now injection Hk as <-.
Qed.

Lemma fresh_card_ok : card_ok fresh_card.
Proof.
  unfold card_ok. simpl. split; [lra|]. split; [lra|]. discriminate.
Qed.

Lemma equator_card_ok : card_ok equator_card.
Proof.
  unfold card_ok. simpl. split; [lra|]. split; [lra|].
  intros la [= <-]. split; [lra | eauto].
Qed.

(** With every draw equal to 0.0 a compromised single card yields a
    fraud record. *)
Lemma single_card_step_fraud (cfg : Config) (k : string) (c : Card)
    (now : datetime) (tid : string) (tx : Transaction) (st' : State) :
  IsCompromised c = true ->
  0 < FRAUD_INJECTION_PROBABILITY cfg ->
  step cfg tid {| rng := exhausted_script;
                  current_time := now;
                  cards_data := [(k, c)] |} = Ok (tx, st') ->
  dict_get (CardID tx) [(k, c)] = Ok c /\ IsFraud tx = true.
Proof.
  intros Hc Hp Hstep.
  set (st := {| rng := exhausted_script;
                current_time := now;
                cards_data := [(k, c)] |}) in *.
  assert (Hcards : cards_data st = [(k, c)]) by reflexivity.
  destruct (step_single_card _ _ _ _ _ _ _ Hcards Hstep) as [_ Hget].
  split; [exact Hget|].
  destruct (step_flag _ _ _ _ _ _ Hstep Hget) as [Hflag _].
  apply Hflag; [exact Hc|]. exact Hp.
Qed.

Lemma step_updates_chosen_card_only_witness :
  exists tx st' card card',
    step default_config "id"%string (single_card_state fresh_card 0%Z)
    = Ok (tx, st') /\
    dict_get (CardID tx) (cards_data (single_card_state fresh_card 0%Z))
    = Ok card /\
    dict_get (CardID tx) (cards_data st') = Ok card' /\
    LastTxTimestamp card' = Some (current_time st') /\
    LastTxLatitude card' = Some (MerchantLatitude tx) /\
    LastTxLongitude card' = Some (MerchantLongitude tx).
Proof.
  destruct (step_total default_config "id"%string
              (single_card_state fresh_card 0%Z) default_config_divisors
              (single_card_ok _ _ fresh_card_ok))
    as (tx & st' & Hstep); [discriminate|].
  destruct (step_updates_chosen_card_only _ _ _ _ _ Hstep)
    as (card & card' & H1 & H2 & H3 & _ & H5 & H6 & _).
  exists tx, st', card, card'. auto 10.
Defined.

(** C7, as stated, fails: the card does not store the timestamp of the
    record.  A fraud transaction on a fresh card at half a second past
    the epoch leaves the clock where it was; the card stores the instant
    0.5 s, the record carries the second 0. *)
Lemma card_timestamp_differs_from_record :
  ~ (forall (cfg : Config) (tid : string) (st st' : @State Script)
        (tx : Transaction) (card' : Card),
        step cfg tid st = Ok (tx, st') ->
        dict_get (CardID tx) (cards_data st') = Ok card' ->
        LastTxTimestamp card' = Some (Timestamp tx * 1000000)%Z).
Proof.
  intros Hclaim.
  destruct (step_total default_config "id"%string
              (single_card_state fresh_card 500000%Z) default_config_divisors
              (single_card_ok _ _ fresh_card_ok))
    as (tx & st' & Hstep); [discriminate|].
  assert (Hp : 0 < FRAUD_INJECTION_PROBABILITY default_config)
    by (simpl; lra).
  destruct (single_card_step_fraud _ _ fresh_card _ _ _ _ eq_refl Hp Hstep)
    as [Hget Hfraud].
  assert (Hclock : current_time st' = 500000%Z).
  { apply (step_guard_false_keeps_clock _ _ _ _ _ _ Hstep Hfraud Hget).
    reflexivity. }
  pose proof (step_timestamp _ _ _ _ _ Hstep) as Hts.
  pose proof Hstep as Hinv. apply step_Ok in Hinv.
  destruct Hinv as (card_id & card_info & g1 & is_fraud & amount & mlat
                    & mlon & now & g2 & _ & _ & _ & _ & _ & Hid & _ & _
                    & _ & _ & _ & _ & _ & Hnow & Hcards).
  assert (Hcard : dict_get (CardID tx) (cards_data st')
                  = Ok (updated_card card_info now mlat mlon)).
  { rewrite Hcards, Hid. apply dict_get_set_same. }
  specialize (Hclaim _ _ _ _ _ _ Hstep Hcard).
  simpl in Hclaim. rewrite Hts, <- Hnow, Hclock in Hclaim.
  discriminate.
Qed.

Lemma zero_latitude_skips_clock_witness :
  exists tx st',
    step default_config "id"%string
      (single_card_state equator_card 3600000000%Z) = Ok (tx, st') /\
    IsFraud tx = true /\
    current_time st' = 3600000000%Z.
Proof.
  destruct (step_total default_config "id"%string
              (single_card_state equator_card 3600000000%Z)
              default_config_divisors (single_card_ok _ _ equator_card_ok))
    as (tx & st' & Hstep); [discriminate|].
  assert (Hp : 0 < FRAUD_INJECTION_PROBABILITY default_config)
    by (simpl; lra).
  destruct (single_card_step_fraud _ _ equator_card _ _ _ _ eq_refl Hp Hstep)
    as [Hget Hfraud].
  destruct (zero_latitude_skips_clock _ _ _ _ _ _ 0%Z Hstep Hfraud Hget
              eq_refl eq_refl) as (_ & Hclock & _).
  exists tx, st'. auto.
Defined.

(* ================================================================= *)
(** ** The fraud path without forcing: the clock stands still *)

(** The script's constants with one card and one transaction. *)
Definition single_card_config : Config := {|
  NUM_CARDS := 1;
  NUM_TRANSACTIONS := 1;
  FRAUD_INJECTION_PROBABILITY := 0.03;
  COMPROMISE_CARD_PROBABILITY := 0.10;
  AVG_TRANSACTION_DELAY_SECONDS := 0.5;
  LOCATION_VARIATION_KM_NORMAL := 50;
  LOCATION_VARIATION_KM_FRAUD := 5000;
  NORMAL_AMOUNT_RANGE := (5, 250);
  FRAUD_AMOUNT_RANGE := (100, 2000);
  HIGH_VELOCITY_THRESHOLD_KMH := 800
|}.

Lemma single_card_config_divisors : divisors_nonzero single_card_config.
Proof. split; simpl; lra. Qed.

(** The card the bootstrap creates when every draw is 0.0. *)
Definition first_card : Card :=
  {| HomeLatitude := py_round (25 + (65 - 25) * 0) 6;
     HomeLongitude := py_round (-125 + (40 - -125) * 0) 6;
     IsCompromised := Rltb 0 0.10;
     LastTxTimestamp := None;
     LastTxLatitude := None;
     LastTxLongitude := None |}.

Lemma first_card_compromised : IsCompromised first_card = true.
Proof.
  simpl. unfold Rltb. destruct (Rlt_dec 0 0.10); [reflexivity | lra].
Qed.

(** The first iteration of the loop, for a loop of one iteration. *)
Lemma transaction_loop_once {G : Type} `{RandomSource G} (cfg : Config)
    (uuid4 : nat -> string) (st st' : State) (out : list Transaction) :
  transaction_loop cfg uuid4 0 1 st = (out, Ok st') ->
  exists tx, out = [tx] /\ step cfg (uuid4 0%nat) st = Ok (tx, st').
Proof.
  simpl. destruct (step cfg (uuid4 0%nat) st) as [[tx st1] | e].
  - intros [= <- <-]. eauto.
  - discriminate.
Qed.

Lemma dict_get_single (k k' : string) (c c' : Card) :
  dict_get k' [(k, c)] = Ok c' -> c' = c.
Proof.
  simpl. destruct (String.eqb k' k); [|discriminate]. now intros [= <-].
Qed.

(** Lines 134-135 and 147-148: the normal increment of the clock. *)
Definition advance_clock {G : Type} `{RandomSource G} (cfg : Config)
    (current_time : datetime) : Rand G datetime :=
  lambd <- lift (py_div 1 (AVG_TRANSACTION_DELAY_SECONDS cfg)) ;;
  time_increment <- random_expovariate lambd ;;
  ret (generate_timestamp current_time time_increment).

(** It is what the [else] of line 132 runs, and nothing else on the
    fraud path does. *)
Lemma velocity_anomaly_else_branch {G : Type} `{RandomSource G}
    (cfg : Config) (card_info : Card) (mlat mlon : R) (now : datetime)
    (g : G) (last_ts : datetime) (last_lat : R) :
  LastTxTimestamp card_info = Some last_ts ->
  LastTxLatitude card_info = Some last_lat ->
  last_lat <> 0 ->
  ~ 0 < total_seconds (now - last_ts)%Z ->
  velocity_anomaly cfg card_info mlat mlon now g = advance_clock cfg now g.
Proof.
  intros Hts Hlat Hnz Hdelta.
  exact (velocity_anomaly_not_positive cfg card_info mlat mlon now g
           last_ts last_lat Hts Hlat Hnz Hdelta).
Qed.

(** Eight draws of 0.0 (home latitude, home longitude, compromise flag,
    fraud decision, amount, radius and the two offsets of the sampler),
    then a draw of 0.5 for whoever draws next. *)
Definition pending_draw_script : Script :=
  {| floats := [0; 0; 0; 0; 0; 0; 0; 0; 0.5]; indices := [] |}.

Lemma pending_draw_bootstrap :
  bootstrap single_card_config pending_draw_script
  = Ok ([("CARD_0000"%string, first_card)],
        {| floats := [0; 0; 0; 0; 0; 0.5]; indices := [] |}).
Proof.
  unfold bootstrap. simpl seq. simpl init_cards. unfold bind.
  rewrite init_card_eq. cbv zeta. unfold pending_draw_script.
  rewrite (script_random_cons 0) by lra. cbn [fst snd].
  rewrite (script_random_cons 0) by lra. cbn [fst snd].
  rewrite (script_random_cons 0) by lra. cbn [fst snd].
  reflexivity.
Qed.

Section NoHistory.
Context {G : Type} `{RandomSource G}.

(** The generator an iteration leaves behind: after lines 98-148 come
    the draw of [randint] and the draw of [gauss]. *)
Lemma step_rng (cfg : Config) (tid : string) (st st' : State)
    (tx : Transaction) :
  step cfg tid st = Ok (tx, st') ->
  exists card_info amount mlat mlon g2,
    dict_get (CardID tx) (cards_data st) = Ok card_info /\
    decide_transaction cfg card_info (current_time st)
      (snd (rng_randbelow (List.length (dict_keys (cards_data st))) (rng st)))
    = Ok (IsFraud tx, amount, mlat, mlon, current_time st', g2) /\
    rng st'
    = snd (rng_gauss (AVG_TRANSACTION_DELAY_SECONDS cfg)
             (AVG_TRANSACTION_DELAY_SECONDS cfg / 3)
             (snd (rng_randbelow (Z.to_nat (9999 - 1000 + 1)) g2))).
Proof.
  unfold step.
  match goal with
  | |- match ?b with _ => _ end = _ -> _ =>
      destruct b as [[[[tx0 now0] cards0] g0] | e] eqn:Hbody
  end; [|discriminate].
  intros [= <- <-].
  inv_rand Hbody. rename a into card_id, g into g1.
  inv_rand Hk. rename a into card_info.
  inv_rand Hm0.
  inv_rand Hk0. destruct a as [[[[is_fraud amount] mlat] mlon] now].
  inv_rand Hk. inv_rand Hk0. inv_rand Hk.
  injection Hk as -> -> ->.
  pose proof (random_choice_rng _ _ _ _ Hm) as Hrng.
  exists card_info, amount, mlat, mlon, g.
  cbn [CardID IsFraud current_time rng].
  split; [exact Hr|]. split; [now rewrite <- Hrng|].
  unfold random_randint in Hm1.
  change (9999 <? 1000)%Z with false in Hm1. cbv beta iota in Hm1.
  destruct (rng_randbelow (Z.to_nat (9999 - 1000 + 1)) g) as [k g4].
  cbv beta iota zeta in Hm1. injection Hm1 as _ <-.
  unfold random_gauss in Hm2. injection Hm2 as Hgauss.
  cbn [snd]. now rewrite Hgauss.
Qed.

(** The fraud path for a card that fails the guard of line 115: four
    draws (amount, radius, two offsets) and the clock as it was. *)
Lemma fraud_path_no_history (cfg : Config) (card_info : Card)
    (now now' : datetime) (g g' : G) (b : bool) (amount mlat mlon : R) :
  truthy_datetime (LastTxTimestamp card_info)
    && truthy_float (LastTxLatitude card_info) = false ->
  fraud_path cfg card_info now g = Ok (b, amount, mlat, mlon, now', g') ->
  now' = now /\
  g' = snd (rng_random (snd (rng_random (snd (rng_random
         (snd (rng_random g))))))).
Proof.
  intros Hguard. unfold fraud_path.
  unfold bind at 1. rewrite random_uniform_eq.
  unfold bind at 1. rewrite random_uniform_eq.
  unfold bind at 1. rewrite generate_location_around_eq.
  destruct (Req_dec_T _ 0); [discriminate|].
  cbv zeta. unfold bind.
  rewrite velocity_anomaly_guard_false by exact Hguard.
  unfold ret. intros [= _ _ _ _ <- <-]. auto.
Qed.

End NoHistory.

Lemma ln_2_upper : ln 2 < 1.
Proof.
  assert (Hlt : ln 2 < ln (exp 1)).
  { apply ln_increasing; [lra|]. pose proof (exp_ineq1 1). lra. }
  now rewrite ln_exp in Hlt.
Qed.

(** The increment the pending draw of 0.5 stands for, with the script's
    average delay of 0.5 s: [ln 2 / 2], about 0.35 s. *)
Lemma advance_clock_pending (now : datetime) :
  exists now',
    advance_clock single_card_config now
      {| floats := [0.5]; indices := [] |}
    = Ok (now', {| floats := []; indices := [] |}) /\
    (now + 250000 <= now' <= now + 500000)%Z.
Proof.
  pose proof ln_lt_2 as Hlo. pose proof ln_2_upper as Hhi.
  unfold advance_clock. unfold bind at 1, lift.
  rewrite py_div_nonzero by (simpl; lra).
  unfold bind at 1, random_expovariate. unfold bind at 1, random_random.
  rewrite (script_random_cons 0.5) by lra.
  unfold bind at 1, lift, math_log.
  destruct (Rle_dec (1 - 0.5) 0); [lra|].
  rewrite py_div_nonzero by (simpl; lra).
  unfold bind, ret. eexists. split; [reflexivity|].
  assert (Hln : ln (1 - 0.5) = - ln 2).
  { replace (1 - 0.5) with (/ 2) by lra. apply ln_Rinv. lra. }
  rewrite Hln. simpl AVG_TRANSACTION_DELAY_SECONDS.
  unfold generate_timestamp, timedelta_of_seconds.
  set (x := - - ln 2 / (1 / 0.5) * 1000000).
  assert (Hx : IZR 250000 <= x <= IZR 500000) by (unfold x; lra).
  destruct Hx as [Hx1 Hx2].
  apply round_half_even_le in Hx1. apply round_half_even_le in Hx2.
  rewrite round_half_even_IZR in Hx1, Hx2. lia.
Qed.

(** C4 at a failing input: one card, one transaction, [random()] equal
    to 0.0 at its first eight calls and to 0.5 at the ninth, start time
    2023-11-14T22:13:20.800000Z.  The card is compromised and the fraud
    draw succeeds; the forcing rewrite is not applied (the card has no
    prior transaction).  The record is printed with the clock still at
    the start time, and the ninth draw has not been consumed: no
    exponential increment was added.  The increment announced at line
    133 would have consumed it and moved the clock by [ln 2 / 2]
    seconds, into the next second: the record would carry 22:13:21. *)
Theorem first_fraud_transaction_keeps_clock :
  exists tx st',
    simulate single_card_config pending_draw_script 1700000000800000%Z
      (fun _ => "id"%string) = ([tx], Ok st') /\
    IsFraud tx = true /\
    Timestamp tx = 1700000000%Z /\
    current_time st' = 1700000000800000%Z /\
    rng st' = {| floats := [0.5]; indices := [] |} /\
    exists now',
      advance_clock single_card_config 1700000000800000%Z (rng st')
      = Ok (now', {| floats := []; indices := [] |}) /\
      (1700000000800000 < now')%Z /\
      strftime_second now' = 1700000001%Z.
Proof.
  destruct (simulate_total single_card_config pending_draw_script
              1700000000800000%Z (fun _ => "id"%string)
              single_card_config_divisors)
    as (out & st' & Hrun & _); [reflexivity|].
  pose proof Hrun as Hloop.
  rewrite simulate_bootstrap, pending_draw_bootstrap in Hloop.
  apply transaction_loop_once in Hloop. destruct Hloop as (tx & -> & Hstep).
  pose proof (step_timestamp _ _ _ _ _ Hstep) as Hts.
  apply step_rng in Hstep.
  destruct Hstep as (card_info & amount & mlat & mlon & g2
                     & Hget & Hdec & Hrng).
  simpl in Hget. apply dict_get_single in Hget. subst card_info.
  rewrite decide_transaction_paths in Hdec.
  cbn [cards_data current_time rng dict_keys map List.length] in Hdec.
  unfold bind at 1 in Hdec.
  rewrite (fraud_decision_true single_card_config first_card _
             first_card_compromised) in Hdec
    by (cbn [rng_randbelow ScriptSource script_randbelow indices snd];
        rewrite (script_random_cons 0) by lra; simpl; lra).
  pose proof (proj1 (fraud_path_Ok _ _ _ _ _ _ _ _ _ _ Hdec)) as Hfraud.
  apply fraud_path_no_history in Hdec; [|reflexivity].
  destruct Hdec as [Hnow ->].
  assert (Hg : rng st' = {| floats := [0.5]; indices := [] |}).
  { rewrite Hrng. reflexivity. }
  destruct (advance_clock_pending 1700000000800000%Z)
    as (now' & Hadv & Hlo & Hhi).
  exists tx, st'. split; [exact Hrun|]. split; [exact Hfraud|].
  split; [rewrite Hts, Hnow; reflexivity|].
  split; [exact Hnow|]. split; [exact Hg|].
  exists now'. rewrite Hg. split; [exact Hadv|]. split; [lia|].
  unfold strftime_second.
  symmetry. apply (Z.div_unique _ _ _ (now' - 1700000001000000)%Z); lia.
Qed.

(* ================================================================= *)
(** ** Where the normal path places the merchant *)

Lemma home_cos_lower (lat : R) :
  25 <= lat <= 65 -> 0.4 <= cos (math_radians lat).
Proof.
  intros [Hlo Hhi]. pose proof PI_bounds as [Hpi1 Hpi2].
  assert (Hrad : 0 <= math_radians lat <= 1.135).
  { unfold math_radians. split; nra. }
  apply Rle_trans with (cos 1.135).
  - destruct (COS 1.135) as [Hlb _]; try lra.
    unfold cos_lb, cos_approx, cos_term in Hlb. simpl in Hlb.
    unfold Rdiv in Hlb. lra.
  - apply cos_decr_1; lra.
Qed.

Lemma Rabs_round6 (x c bound : R) :
  Rabs (x - c) <= bound ->
  Rabs (py_round x 6 - c) <= bound + / 2 / 10 ^ 6.
Proof.
  intros Hx. pose proof (py_round_error x 6) as Hr.
  replace (py_round x 6 - c) with ((py_round x 6 - x) + (x - c)) by ring.
  apply Rle_trans with (Rabs (py_round x 6 - x) + Rabs (x - c)).
  - apply Rabs_triang.
  - lra.
Qed.

Section NormalPath.
Context {G : Type} `{RandomSource G}.

(** For a home in the box of lines 79-80 and a radius of at most 50 km,
    the clamp and the wrap of lines 37-38 do nothing, and the result stays
    in the degree box the two offsets are drawn from. *)
Lemma generate_location_around_box (lat lon d : R) (g g' : G) (la lo : R) :
  25 <= lat <= 65 -> -125 <= lon <= 40 -> 0 <= d <= 50 ->
  generate_location_around lat lon d g = Ok (la, lo, g') ->
  Rabs (la - lat) <= d / 111.1 + / 2 / 10 ^ 6 /\
  Rabs (lo - lon)
    <= d / (111.1 * cos (math_radians lat)) + / 2 / 10 ^ 6.
Proof.
  intros Hlat Hlon Hd. rewrite generate_location_around_eq.
  destruct (Req_dec_T _ 0) as [|Hnz]; [discriminate|].
  cbv zeta. intros [= <- <- _].
  pose proof (home_cos_lower lat Hlat) as Hc.
  pose proof (rng_random_range g) as [Hu0 Hu1].
  pose proof (rng_random_range (snd (rng_random g))) as [Hv0 Hv1].
  set (u := fst (rng_random g)) in *.
  set (v := fst (rng_random (snd (rng_random g)))) in *.
  set (c := cos (math_radians lat)) in *.
  set (rlat := d / 111.1).
  set (rlon := d / (111.1 * c)).
  assert (Hrlat : 0 <= rlat <= 0.5).
  { unfold rlat. split.
    - apply Rmult_le_pos; [lra|]. apply Rlt_le, Rinv_0_lt_compat. lra.
    - apply Rmult_le_reg_r with 111.1; [lra|].
      unfold Rdiv. rewrite Rmult_assoc, Rinv_l; lra. }
  assert (Hrlon : 0 <= rlon <= 2).
  { unfold rlon. assert (Hpos : 0 < 111.1 * c) by nra. split.
    - apply Rmult_le_pos; [lra|]. apply Rlt_le, Rinv_0_lt_compat, Hpos.
    - apply Rmult_le_reg_r with (111.1 * c); [exact Hpos|].
      unfold Rdiv. rewrite Rmult_assoc, Rinv_l; nra. }
  assert (Hdlat : - rlat <= - rlat + (rlat - - rlat) * u <= rlat) by nra.
  assert (Hdlon : - rlon <= - rlon + (rlon - - rlon) * v <= rlon) by nra.
  set (delta_lat := - rlat + (rlat - - rlat) * u) in *.
  set (delta_lon := - rlon + (rlon - - rlon) * v) in *.
  split.
  - rewrite clamp_inside by lra.
    apply Rabs_round6. apply Rabs_le. lra.
  - rewrite py_mod_small by lra.
    apply Rabs_round6. apply Rabs_le. lra.
Qed.

(** The draws of the normal path, in order: the amount, the radius, then
    the two draws of the sampler. *)
Lemma normal_path_draws (cfg : Config) (card_info : Card)
    (now now' : datetime) (g g' : G) (b : bool) (amount mlat mlon : R) :
  normal_path cfg card_info now g = Ok (b, amount, mlat, mlon, now', g') ->
  let g1 := snd (rng_random g) in
  let d := 0 + (LOCATION_VARIATION_KM_NORMAL cfg - 0) * fst (rng_random g1) in
  exists g3,
    generate_location_around (HomeLatitude card_info)
      (HomeLongitude card_info) d (snd (rng_random g1)) = Ok (mlat, mlon, g3).
Proof.
  unfold normal_path. unfold bind at 1. rewrite random_uniform_eq.
  unfold bind at 1. rewrite random_uniform_eq.
  intros Hp.
  inv_rand Hp. destruct a as [la lo].
  inv_rand Hk. inv_rand Hk0. inv_rand Hk.
  injection Hk as _ _ <- <- _. eauto.
Qed.

(** One iteration on a card that satisfies the invariant: a record that
    is not fraud has its merchant in the degree box around the home. *)
Lemma step_normal_box (cfg : Config) (tid : string) (st st' : State)
    (tx : Transaction) :
  0 <= LOCATION_VARIATION_KM_NORMAL cfg <= 50 ->
  cards_ok (cards_data st) ->
  step cfg tid st = Ok (tx, st') ->
  IsFraud tx = false ->
  Rabs (MerchantLatitude tx - TxHomeLatitude tx)
    <= LOCATION_VARIATION_KM_NORMAL cfg / 111.1 + / 2 / 10 ^ 6 /\
  Rabs (MerchantLongitude tx - TxHomeLongitude tx)
    <= LOCATION_VARIATION_KM_NORMAL cfg
       / (111.1 * cos (math_radians (TxHomeLatitude tx))) + / 2 / 10 ^ 6.
Proof.
  intros HN Hok Hstep Hnormal. apply step_Ok in Hstep.
  destruct Hstep as (card_id & card_info & g1 & is_fraud & amount & mlat
                     & mlon & now & g2 & _ & _ & Hget & Hdec & _ & _ & _ & _
                     & Hla & Hlo & Hf & Hhla & Hhlo & _).
  rewrite Hnormal in Hf. subst is_fraud.
  rewrite Hla, Hlo, Hhla, Hhlo.
  destruct (Hok _ _ Hget) as (Hhome_lat & Hhome_lon & _).
  apply decide_transaction_Ok in Hdec. destruct Hdec as (g3 & _ & Hpath).
  apply normal_path_draws in Hpath. destruct Hpath as [g4 Hloc].
  pose proof (rng_random_range (snd (rng_random g3))) as [Hu0 Hu1].
  set (N := LOCATION_VARIATION_KM_NORMAL cfg) in *.
  set (u := fst (rng_random (snd (rng_random g3)))) in *.
  assert (Hd : 0 <= 0 + (N - 0) * u <= N) by nra.
  destruct (generate_location_around_box _ _ _ _ _ _ _ Hhome_lat Hhome_lon
              (conj (proj1 Hd) (Rle_trans _ _ _ (proj2 Hd) (proj2 HN))) Hloc)
    as [Hbox_lat Hbox_lon].
  pose proof (home_cos_lower _ Hhome_lat) as Hc.
  split.
  - apply Rle_trans with (1 := Hbox_lat). apply Rplus_le_compat_r.
    apply Rmult_le_compat_r; [|lra]. apply Rlt_le, Rinv_0_lt_compat. lra.
  - apply Rle_trans with (1 := Hbox_lon). apply Rplus_le_compat_r.
    apply Rmult_le_compat_r; [|lra]. apply Rlt_le, Rinv_0_lt_compat. nra.
Qed.

(** C2 (amended): with a normal radius between 0 and 50 km, every record
    that is not fraud has its merchant in the degree box around the card's
    home that the sampler draws from: the latitudes differ by at most
    [radius / 111.1] degrees and the longitudes by at most
    [radius / (111.1 * cos(home latitude))] degrees, each up to the
    rounding to 6 decimals (half a millionth of a degree).  The box is not
    a disk: the great-circle distance to the home can exceed the radius. *)
Theorem normal_records_in_home_box (cfg : Config) (g : G) (now : datetime)
    (uuid4 : nat -> string) (tx : Transaction) :
  0 <= LOCATION_VARIATION_KM_NORMAL cfg <= 50 ->
  In tx (fst (simulate cfg g now uuid4)) ->
  IsFraud tx = false ->
  Rabs (MerchantLatitude tx - TxHomeLatitude tx)
    <= LOCATION_VARIATION_KM_NORMAL cfg / 111.1 + / 2 / 10 ^ 6 /\
  Rabs (MerchantLongitude tx - TxHomeLongitude tx)
    <= LOCATION_VARIATION_KM_NORMAL cfg
       / (111.1 * cos (math_radians (TxHomeLatitude tx))) + / 2 / 10 ^ 6.
Proof.
  intros HN Hin. rewrite simulate_bootstrap in Hin.
  destruct (bootstrap_total cfg g) as (cards & g' & Hboot & Hok & _).
  rewrite Hboot in Hin.
  apply In_nth_error in Hin. destruct Hin as [k Hk]. revert Hk.
  apply (transaction_loop_records cfg uuid4
           (fun st => cards_ok (cards_data st))
           (fun _ tx =>
              IsFraud tx = false ->
              Rabs (MerchantLatitude tx - TxHomeLatitude tx)
                <= LOCATION_VARIATION_KM_NORMAL cfg / 111.1 + / 2 / 10 ^ 6 /\
              Rabs (MerchantLongitude tx - TxHomeLongitude tx)
                <= LOCATION_VARIATION_KM_NORMAL cfg
                   / (111.1 * cos (math_radians (TxHomeLatitude tx)))
                   + / 2 / 10 ^ 6)).
  - intros i st tx0 st' Hinv Hs. split.
    + now apply (step_preserves _ _ _ _ _ Hs).
    + now apply (step_normal_box _ _ _ _ _ HN Hinv Hs).
  - exact Hok.
Qed.

End NormalPath.

Lemma normal_records_in_home_box_witness :
  exists tx,
    In tx (fst (simulate zero_compromise_config exhausted_script 0%Z
                  (fun _ => EmptyString))) /\
    Rabs (MerchantLatitude tx - TxHomeLatitude tx)
      <= 50 / 111.1 + / 2 / 10 ^ 6.
Proof.
  destruct (simulate_total zero_compromise_config exhausted_script 0%Z
              (fun _ => EmptyString) zero_compromise_config_divisors)
    as (out & st' & Hrun & Hlen); [reflexivity|].
  destruct out as [| tx out]; [discriminate|].
  assert (Hin : In tx (fst (simulate zero_compromise_config exhausted_script
                              0%Z (fun _ => EmptyString)))).
  { rewrite Hrun. now left. }
  assert (Hzero : COMPROMISE_CARD_PROBABILITY zero_compromise_config <= 0)
    by (simpl; lra).
  assert (HN : 0 <= LOCATION_VARIATION_KM_NORMAL zero_compromise_config <= 50)
    by (simpl; lra).
  exists tx. split; [exact Hin|].
  exact (proj1 (normal_records_in_home_box zero_compromise_config
                  exhausted_script 0%Z (fun _ => EmptyString) tx HN Hin
                  (zero_probability_no_fraud _ _ _ _ _ Hzero Hin))).
Defined.

(* ================================================================= *)
(** ** The divisor of line 32 *)

(** Line 32 divides by [111.1 * cos(radians(lat))] as it is: the sampler
    raises exactly when that product is zero, and it returns for every
    latitude strictly between the poles.  (At exactly 90 or -90 degrees
    the real cosine is 0, whereas the IEEE value of
    [math.cos(math.radians(90.0))] is about 6.1e-17; nothing is stated
    here about these two inputs.) *)
Lemma generate_location_around_raises_iff
    {G : Type} `{RandomSource G} (lat lon d : R) (g : G) :
  generate_location_around lat lon d g = Raise ZeroDivisionError
  <-> 111.1 * cos (math_radians lat) = 0.
Proof.
  rewrite generate_location_around_eq.
  destruct (Req_dec_T _ 0) as [Hz | Hnz]; cbv zeta.
  - tauto.
  - split; [discriminate | contradiction].
Qed.

Lemma generate_location_around_between_poles
    {G : Type} `{RandomSource G} (lat lon d : R) (g : G) :
  -90 < lat < 90 ->
  exists la lo g', generate_location_around lat lon d g = Ok (la, lo, g').
Proof.
  intros [Hlo Hhi]. apply generate_location_around_total.
  pose proof PI_RGT_0 as Hpi.
  apply Rgt_not_eq, cos_gt_0; unfold math_radians; nra.
Qed.

(* ================================================================= *)
(** ** A corner of the box *)

Lemma Rabs_le_between (x b : R) : Rabs x <= b -> - b <= x <= b.
Proof.
  unfold Rabs. destruct (Rcase_abs x); intros Hx; lra.
Qed.

(** The angle [atan2(sqrt a, sqrt (1 - a))] is at least [sqrt a]. *)
Lemma math_atan2_lower (a : R) :
  0 <= a < 1 -> sqrt a <= math_atan2 (sqrt a) (sqrt (1 - a)).
Proof.
  intros [Ha0 Ha1].
  assert (Hsb : 0 < sqrt (1 - a)) by (apply sqrt_lt_R0; lra).
  pose proof (sqrt_pos a) as Hsa.
  rewrite math_atan2_pos by exact Hsb.
  set (t := sqrt a / sqrt (1 - a)).
  assert (Ht : 0 <= t).
  { unfold t. apply Rmult_le_pos; [exact Hsa|].
    apply Rlt_le, Rinv_0_lt_compat, Hsb. }
  assert (Hsin : sin (atan t) = sqrt a).
  { rewrite sin_atan.
    assert (Hsq : 1 + t² = / (1 - a)).
    { unfold t, Rsqr.
      replace (sqrt a / sqrt (1 - a) * (sqrt a / sqrt (1 - a)))
        with ((sqrt a * sqrt a) / (sqrt (1 - a) * sqrt (1 - a)))
        by (field; lra).
      rewrite !sqrt_sqrt by lra. field. lra. }
    rewrite Hsq, sqrt_inv. unfold t. field. lra. }
  destruct (Req_dec t 0) as [Hz | Hnz].
  - rewrite Hz, atan_0 in *. rewrite sin_0 in Hsin. lra.
  - assert (Hpos : 0 < atan t).
    { rewrite <- atan_0. apply atan_increasing. lra. }
    pose proof (sin_lt_x _ Hpos). lra.
Qed.

Lemma sin_lower_0039266 (x : R) :
  0.0039267 <= x <= 1 -> 0.0039266 <= sin x.
Proof.
  intros [Hlo Hhi]. pose proof PI_bounds as [Hpi1 Hpi2].
  apply Rle_trans with (sin 0.0039267).
  - destruct (SIN 0.0039267) as [Hlb _]; try lra.
    unfold sin_lb, sin_approx, sin_term in Hlb. simpl in Hlb.
    unfold Rdiv in Hlb. lra.
  - apply sin_incr_1; lra.
Qed.

Lemma sin_lower_0045332 (x : R) :
  0.0045333 <= x <= 1 -> 0.0045332 <= sin x.
Proof.
  intros [Hlo Hhi]. pose proof PI_bounds as [Hpi1 Hpi2].
  apply Rle_trans with (sin 0.0045333).
  - destruct (SIN 0.0045333) as [Hlb _]; try lra.
    unfold sin_lb, sin_approx, sin_term in Hlb. simpl in Hlb.
    unfold Rdiv in Hlb. lra.
  - apply sin_incr_1; lra.
Qed.

Lemma cos_lower_0862 (x : R) : 0 <= x <= 0.5315 -> 0.862 <= cos x.
Proof.
  intros [Hlo Hhi]. pose proof PI_bounds as [Hpi1 Hpi2].
  apply Rle_trans with (cos 0.5315).
  - destruct (COS 0.5315) as [Hlb _]; try lra.
    unfold cos_lb, cos_approx, cos_term in Hlb. simpl in Hlb.
    unfold Rdiv in Hlb. lra.
  - apply cos_decr_1; lra.
Qed.

Lemma cos_30_degrees : 0.866 <= cos (math_radians 30) <= 0.8661.
Proof.
  replace (math_radians 30) with (PI / 6) by (unfold math_radians; lra).
  rewrite cos_PI6.
  pose proof (sqrt_pos 3) as Hpos.
  pose proof (sqrt_sqrt 3) as Hsq.
  split; nra.
Qed.

(** Home (30, -42.5); merchant 0.449991 degree to the north and between
    0.5195 and 0.52 degree to the east: more than 70 km away. *)
Lemma haversine_corner (lo : R) :
  0.5195 <= lo - -42.5 <= 0.52 ->
  exists d, haversine 30 (-42.5) 30.449991 lo = Ok d /\ 70 < d.
Proof.
  intros [Hlo Hhi]. pose proof PI_bounds as [Hpi1 Hpi2].
  assert (Hrange : 0 <= haversine_a 30 (-42.5) 30.449991 lo <= 1)
    by (apply haversine_a_range; lra).
  assert (Hs1 : 0.0039266 <= sin (math_radians (30.449991 - 30) / 2)).
  { apply sin_lower_0039266. unfold math_radians. split; lra. }
  assert (Hs2 : 0.0045332 <= sin (math_radians (lo - -42.5) / 2)).
  { apply sin_lower_0045332. unfold math_radians. split; nra. }
  assert (Hs1' : sin (math_radians (30.449991 - 30) / 2) <= 0.004).
  { apply Rle_trans with (math_radians (30.449991 - 30) / 2).
    - apply Rlt_le, sin_lt_x. unfold math_radians. lra.
    - unfold math_radians. lra. }
  assert (Hs2' : sin (math_radians (lo - -42.5) / 2) <= 0.005).
  { apply Rle_trans with (math_radians (lo - -42.5) / 2).
    - apply Rlt_le, sin_lt_x. unfold math_radians. nra.
    - unfold math_radians. nra. }
  pose proof cos_30_degrees as [Hc1 Hc1'].
  assert (Hc2 : 0.862 <= cos (math_radians 30.449991)).
  { apply cos_lower_0862. unfold math_radians. split; lra. }
  pose proof (COS_bound (math_radians 30.449991)) as [_ Hc2'].
  unfold haversine_a in Hrange.
  set (s1 := sin (math_radians (30.449991 - 30) / 2)) in *.
  set (s2 := sin (math_radians (lo - -42.5) / 2)) in *.
  set (c1 := cos (math_radians 30)) in *.
  set (c2 := cos (math_radians 30.449991)) in *.
  assert (Ha : haversine_a 30 (-42.5) 30.449991 lo = s1 ^ 2 + c1 * c2 * s2 ^ 2)
    by reflexivity.
  assert (Hs1sq : 0.0039266 * 0.0039266 <= s1 ^ 2) by nra.
  assert (Hs2sq : 0.0045332 * 0.0045332 <= s2 ^ 2) by nra.
  assert (Hs1sq' : s1 ^ 2 <= 0.004 * 0.004) by nra.
  assert (Hs2sq' : s2 ^ 2 <= 0.005 * 0.005) by nra.
  assert (Hcc : 0.866 * 0.862 <= c1 * c2 <= 1) by nra.
  assert (Hcs : 0.866 * 0.862 * (0.0045332 * 0.0045332) <= c1 * c2 * s2 ^ 2
                <= 0.005 * 0.005) by nra.
  set (a := haversine_a 30 (-42.5) 30.449991 lo) in *.
  assert (Habound : 0.0055 * 0.0055 <= a < 1) by (rewrite Ha; split; lra).
  rewrite haversine_unfold. fold a.
  rewrite math_sqrt_Ok by lra. rewrite math_sqrt_Ok by lra. cbn [rbind].
  eexists. split; [reflexivity|].
  assert (Hsqrt : 0.0055 <= sqrt a).
  { rewrite <- (sqrt_square 0.0055) by lra. apply sqrt_le_1_alt. lra. }
  pose proof (math_atan2_lower a (conj (proj1 Hrange) (proj2 Habound))).
  lra.
Qed.

(* ================================================================= *)
(** ** A normal record farther than the radius *)

(** One card, one transaction.  The draws: home latitude 30 (0.125), home
    longitude -42.5 (0.5), not compromised (0.5); then amount (0), radius
    49.995 km (0.9999), latitude offset (0.99999), longitude offset
    (0.99999), time increment (0): the merchant is placed next to the
    north-east corner of the box. *)
Definition corner_script : Script :=
  {| floats := [0.125; 0.5; 0.5; 0; 0.9999; 0.99999; 0.99999; 0];
     indices := [0%nat; 0%nat] |}.

Definition corner_card : Card :=
  {| HomeLatitude := 30;
     HomeLongitude := -42.5;
     IsCompromised := false;
     LastTxTimestamp := None;
     LastTxLatitude := None;
     LastTxLongitude := None |}.

Lemma corner_bootstrap :
  bootstrap single_card_config corner_script
  = Ok ([("CARD_0000"%string, corner_card)],
        {| floats := [0; 0.9999; 0.99999; 0.99999; 0];
           indices := [0%nat; 0%nat] |}).
Proof.
  unfold bootstrap. simpl seq. simpl init_cards. unfold bind.
  rewrite init_card_eq. cbv zeta. unfold corner_script.
  rewrite (script_random_cons 0.125) by lra. cbn [fst snd].
  rewrite (script_random_cons 0.5) by lra. cbn [fst snd].
  rewrite (script_random_cons 0.5) by lra. cbn [fst snd].
  replace (25 + (65 - 25) * 0.125) with (IZR 30) by lra.
  rewrite py_round_IZR.
  rewrite (py_round_eq (-125 + (40 - -125) * 0.5) 6 (-42500000)) by lra.
  replace (Rltb 0.5 (COMPROMISE_CARD_PROBABILITY single_card_config))
    with false.
  - replace (IZR (-42500000) / 10 ^ 6) with (-42.5) by lra.
    reflexivity.
  - unfold Rltb. simpl. destruct (Rlt_dec 0.5 0.10); [lra | reflexivity].
Qed.

Lemma corner_sample (la lo : R) (g' : Script) :
  generate_location_around 30 (-42.5) (0 + (50 - 0) * 0.9999)
    {| floats := [0.99999; 0.99999; 0]; indices := [0%nat] |}
  = Ok (la, lo, g') ->
  la = 30.449991 /\ 0.5195 <= lo - -42.5 <= 0.52.
Proof.
  rewrite generate_location_around_eq.
  pose proof cos_30_degrees as [Hc Hc'].
  destruct (Req_dec_T _ 0) as [Hz | _]; [nra|].
  cbv zeta.
  rewrite (script_random_cons 0.99999) by lra. cbn [fst snd].
  rewrite (script_random_cons 0.99999) by lra. cbn [fst snd].
  set (c := cos (math_radians 30)) in *.
  set (rlon := (0 + (50 - 0) * 0.9999) / (111.1 * c)).
  assert (Hrlon : 0.5195 + 0.00005 <= rlon <= 0.5197).
  { assert (Hpos : 0 < 111.1 * c) by nra.
    assert (Heq : rlon * (111.1 * c) = 49.995).
    { unfold rlon, Rdiv. rewrite Rmult_assoc, Rinv_l; lra. }
    split; nra. }
  replace (30 + (- ((0 + (50 - 0) * 0.9999) / 111.1)
                 + ((0 + (50 - 0) * 0.9999) / 111.1
                    - - ((0 + (50 - 0) * 0.9999) / 111.1)) * 0.99999))
    with 30.449991 by lra.
  rewrite clamp_inside by lra.
  rewrite py_mod_small by lra.
  rewrite (py_round_eq 30.449991 6 30449991) by lra.
  replace (IZR 30449991 / 10 ^ 6) with 30.449991 by lra.
  intros [= <- <- _]. split; [reflexivity|].
  set (x := -42.5 + (- rlon + (rlon - - rlon) * 0.99999) + 180 - 180).
  pose proof (py_round_error x 6) as Herr.
  apply Rabs_le_between in Herr.
  assert (Heps : / 2 / 10 ^ 6 <= 0.000001) by lra.
  unfold x in *. lra.
Qed.

(** The record that run prints. *)
Lemma corner_run :
  exists tx st',
    simulate single_card_config corner_script 0%Z (fun _ => "id"%string)
    = ([tx], Ok st') /\
    IsFraud tx = false /\
    TxHomeLatitude tx = 30 /\
    TxHomeLongitude tx = -42.5 /\
    MerchantLatitude tx = 30.449991 /\
    0.5195 <= MerchantLongitude tx - -42.5 <= 0.52.
Proof.
  destruct (simulate_total single_card_config corner_script 0%Z
              (fun _ => "id"%string) single_card_config_divisors)
    as (out & st' & Hrun & _); [reflexivity|].
  pose proof Hrun as Hloop.
  rewrite simulate_bootstrap, corner_bootstrap in Hloop.
  apply transaction_loop_once in Hloop. destruct Hloop as (tx & -> & Hstep).
  exists tx, st'. split; [exact Hrun|].
  apply step_Ok in Hstep.
  destruct Hstep as (card_id & card_info & g1 & is_fraud & amount & mlat
                     & mlon & now & g2 & Hg1 & _ & Hget & Hdec & _ & _ & _ & _
                     & Hla & Hlo & Hf & Hhla & Hhlo & _).
  simpl in Hget. apply dict_get_single in Hget. subst card_info.
  simpl in Hg1.
  apply decide_transaction_Ok in Hdec. destruct Hdec as (g3 & Hfd & Hpath).
  apply fraud_decision_Ok in Hfd. destruct Hfd as [_ Hfd].
  destruct (Hfd eq_refl) as [-> ->].
  apply normal_path_draws in Hpath. destruct Hpath as [g4 Hloc].
  subst g1. unfold script_randbelow in Hloc. simpl indices in Hloc.
  simpl floats in Hloc. cbn [snd] in Hloc.
  rewrite (script_random_cons 0) in Hloc by lra. cbn [fst snd] in Hloc.
  rewrite (script_random_cons 0.9999) in Hloc by lra. cbn [fst snd] in Hloc.
  simpl LOCATION_VARIATION_KM_NORMAL in Hloc.
  simpl HomeLatitude in Hloc. simpl HomeLongitude in Hloc.
  apply corner_sample in Hloc. destruct Hloc as [-> Hcorner].
  rewrite Hf, Hhla, Hhlo, Hla, Hlo. simpl. auto.
Qed.

(** C2, as stated, fails: this record is not fraud, the radius is 50 km,
    and its merchant is more than 70 km from the card's home; a tolerance
    of 1 km, far above anything rounding can cause, does not save the
    bound. *)
Lemma normal_record_beyond_radius :
  ~ (forall (cfg : Config) (g : Script) (now : datetime)
        (uuid4 : nat -> string) (tx : Transaction) (d : R),
        In tx (fst (simulate cfg g now uuid4)) ->
        IsFraud tx = false ->
        haversine (TxHomeLatitude tx) (TxHomeLongitude tx)
          (MerchantLatitude tx) (MerchantLongitude tx) = Ok d ->
        d <= LOCATION_VARIATION_KM_NORMAL cfg + 1).
Proof.
  intros Hclaim.
  destruct corner_run
    as (tx & st' & Hrun & Hnormal & Hhla & Hhlo & Hla & Hlo).
  assert (Hin : In tx (fst (simulate single_card_config corner_script 0%Z
                              (fun _ => "id"%string)))).
  { rewrite Hrun. now left. }
  destruct (haversine_corner _ Hlo) as (d & Hd & Hfar).
  rewrite <- Hhla, <- Hla in Hd. rewrite <- Hhlo in Hd at 1.
  specialize (Hclaim _ _ _ _ _ _ Hin Hnormal Hd).
  simpl in Hclaim. lra.
Qed.

(* ================================================================= *)
(** ** The great-circle distance, for any two points *)

(** The quantity under the square roots lies between 0 and 1 whatever the
    four angles are. *)
Lemma haversine_a_unit (lat1 lon1 lat2 lon2 : R) :
  0 <= haversine_a lat1 lon1 lat2 lon2 <= 1.
Proof.
  set (p1 := math_radians lat1). set (p2 := math_radians lat2).
  unfold haversine_a. fold p1 p2.
  replace (math_radians (lat2 - lat1)) with (p2 - p1)
    by (unfold p1, p2, math_radians; lra).
  set (s := sin (math_radians (lon2 - lon1) / 2)).
  assert (Hs : 0 <= s ^ 2 <= 1).
  { pose proof (sin2_cos2 (math_radians (lon2 - lon1) / 2)) as Hsc.
    unfold Rsqr in Hsc. fold s in Hsc.
    pose proof (pow2_ge_0 s).
    pose proof (pow2_ge_0 (cos (math_radians (lon2 - lon1) / 2))).
    split; nra. }
  set (t := sin ((p2 - p1) / 2)).
  assert (Ht : t ^ 2 = (1 - cos (p2 - p1)) / 2).
  { pose proof (cos_2a_sin ((p2 - p1) / 2)) as Hc.
    replace (2 * ((p2 - p1) / 2)) with (p2 - p1) in Hc by lra.
    rewrite Hc. unfold t. field. }
  assert (Hcc : cos p1 * cos p2 = (cos (p2 - p1) + cos (p2 + p1)) / 2).
  { rewrite cos_minus, cos_plus. lra. }
  pose proof (COS_bound (p2 - p1)) as [Hm1 Hm2].
  pose proof (COS_bound (p2 + p1)) as [Hq1 Hq2].
  rewrite Ht. set (cc := cos p1 * cos p2) in *. set (s2 := s ^ 2) in *.
  destruct (Rle_dec 0 cc) as [Hpos | Hneg].
  - assert (0 <= cc * s2 <= cc) by nra. split; lra.
  - assert (cc <= cc * s2 <= 0) by nra. split; lra.
Qed.

Lemma haversine_a_sym (lat1 lon1 lat2 lon2 : R) :
  haversine_a lat1 lon1 lat2 lon2 = haversine_a lat2 lon2 lat1 lon1.
Proof.
  unfold haversine_a.
  replace (math_radians (lat1 - lat2) / 2)
    with (- (math_radians (lat2 - lat1) / 2)) by (unfold math_radians; lra).
  replace (math_radians (lon1 - lon2) / 2)
    with (- (math_radians (lon2 - lon1) / 2)) by (unfold math_radians; lra).
  rewrite !sin_neg. ring.
Qed.

(** [atan2] of two non-negative numbers is an angle of the first
    quadrant. *)
Lemma math_atan2_quadrant (y x : R) :
  0 <= y -> 0 <= x -> 0 <= math_atan2 y x <= PI / 2.
Proof.
  intros Hy Hx. pose proof PI_RGT_0 as Hpi. unfold math_atan2.
  destruct (Rlt_dec 0 x) as [Hpos | Hnpos].
  - pose proof (atan_bound (y / x)) as [_ Hhi].
    assert (Hq : 0 <= y / x).
    { unfold Rdiv. apply Rmult_le_pos; [exact Hy|].
      left. now apply Rinv_0_lt_compat. }
    split; [|lra].
    destruct Hq as [Hq | <-]; [|rewrite atan_0; lra].
    left. rewrite <- atan_0. now apply atan_increasing.
  - destruct (Rlt_dec x 0); [lra|].
    destruct (Rlt_dec 0 y); [lra|].
    destruct (Rlt_dec y 0); lra.
Qed.

Lemma haversine_Ok (lat1 lon1 lat2 lon2 : R) :
  haversine lat1 lon1 lat2 lon2 =
  Ok (6371 * (2 * math_atan2 (sqrt (haversine_a lat1 lon1 lat2 lon2))
                             (sqrt (1 - haversine_a lat1 lon1 lat2 lon2)))).
Proof.
  destruct (haversine_a_unit lat1 lon1 lat2 lon2) as [Ha0 Ha1].
  rewrite haversine_unfold.
  rewrite math_sqrt_Ok by lra. rewrite math_sqrt_Ok by lra.
  reflexivity.
Qed.

(** X1: [haversine] is symmetric: the distance from the first point to
    the second is the distance from the second to the first. *)
Theorem haversine_symmetric (lat1 lon1 lat2 lon2 : R) :
  haversine lat1 lon1 lat2 lon2 = haversine lat2 lon2 lat1 lon1.
Proof.
  rewrite !haversine_unfold.
  rewrite (haversine_a_sym lat1 lon1 lat2 lon2).
  reflexivity.
Qed.

(** X2: A distance that [haversine] returns lies between 0 and half
    the circumference of a sphere of radius 6371 km. *)
Theorem haversine_range (lat1 lon1 lat2 lon2 d : R) :
  haversine lat1 lon1 lat2 lon2 = Ok d -> 0 <= d <= 6371 * PI.
Proof.
  rewrite haversine_Ok. intros [= <-].
  pose proof (math_atan2_quadrant
                (sqrt (haversine_a lat1 lon1 lat2 lon2))
                (sqrt (1 - haversine_a lat1 lon1 lat2 lon2))
                (sqrt_pos _) (sqrt_pos _)) as [Hlo Hhi].
  split; lra.
Qed.

Lemma haversine_range_witness :
  haversine 30 20 31 20 = Ok (6371 * math_radians (31 - 30)) /\
  0 <= 6371 * math_radians (31 - 30) <= 6371 * PI.
Proof.
  assert (Hd : haversine 30 20 31 20 = Ok (6371 * math_radians (31 - 30))).
  { apply haversine_meridian. lra. }
  split; [exact Hd|].
  exact (haversine_range 30 20 31 20 _ Hd).
Defined.

(** X3: The distance from a point to itself is 0. *)
Theorem haversine_same_point (lat lon : R) :
  haversine lat lon lat lon = Ok 0.
Proof.
  assert (Ha : haversine_a lat lon lat lon = 0).
  { unfold haversine_a.
    replace (lat - lat) with 0 by lra. replace (lon - lon) with 0 by lra.
    rewrite math_radians_0. replace (0 / 2) with 0 by lra.
    rewrite sin_0. ring. }
  rewrite haversine_Ok, Ha.
  replace (1 - 0) with 1 by lra. rewrite sqrt_0, sqrt_1.
  rewrite math_atan2_pos by lra.
  replace (0 / 1) with 0 by lra. rewrite atan_0.
  f_equal. ring.
Qed.

Lemma sin_sqr_shift_nat (n : nat) (x : R) :
  sin (x + INR n * PI) ^ 2 = sin x ^ 2.
Proof.
  induction n as [| n IH].
  - simpl. replace (x + 0 * PI) with x by lra. reflexivity.
  - rewrite S_INR.
    replace (x + (INR n + 1) * PI) with (x + INR n * PI + PI) by lra.
    rewrite neg_sin, <- IH. ring.
Qed.

Lemma sin_sqr_shift (k : Z) (x : R) :
  sin (x + IZR k * PI) ^ 2 = sin x ^ 2.
Proof.
  destruct (Z_le_gt_dec 0 k) as [Hk | Hk].
  - rewrite <- (Z2Nat.id k) by exact Hk. rewrite <- INR_IZR_INZ.
    apply sin_sqr_shift_nat.
  - rewrite <- (sin_sqr_shift_nat (Z.to_nat (- k)) (x + IZR k * PI)).
    rewrite INR_IZR_INZ, Z2Nat.id by lia. rewrite opp_IZR.
    f_equal. f_equal. lra.
Qed.

(** X4: Moving one of the points by whole turns of longitude does not
    change the distance: the wrap of line 38 is invisible to
    [haversine]. *)
Theorem haversine_longitude_period (lat1 lon1 lat2 lon2 : R) (k : Z) :
  haversine lat1 lon1 lat2 (lon2 + 360 * IZR k)
  = haversine lat1 lon1 lat2 lon2.
Proof.
  rewrite !haversine_unfold.
  assert (Ha : haversine_a lat1 lon1 lat2 (lon2 + 360 * IZR k)
               = haversine_a lat1 lon1 lat2 lon2).
  { unfold haversine_a.
    replace (math_radians (lon2 + 360 * IZR k - lon1) / 2)
      with (math_radians (lon2 - lon1) / 2 + IZR k * PI)
      by (unfold math_radians; lra).
    now rewrite sin_sqr_shift. }
  now rewrite Ha.
Qed.

(** X5: Two points on one meridian less than 180 degrees of latitude
    apart: the distance is the Earth radius times the difference of
    latitude in radians, whichever of the two lies to the north. *)
Theorem haversine_along_meridian (lat1 lat2 lon : R) :
  Rabs (lat2 - lat1) < 180 ->
  haversine lat1 lon lat2 lon
  = Ok (6371 * math_radians (Rabs (lat2 - lat1))).
Proof.
  intros Habs. unfold Rabs in *.
  destruct (Rcase_abs (lat2 - lat1)) as [Hneg | Hpos].
  - rewrite haversine_unfold, haversine_a_sym, <- haversine_unfold.
    replace (- (lat2 - lat1)) with (lat1 - lat2) by lra.
    apply haversine_meridian. lra.
  - apply haversine_meridian. lra.
Qed.

Lemma haversine_along_meridian_witness :
  Rabs (30 - 31) < 180 /\
  haversine 31 20 30 20 = Ok (6371 * math_radians (Rabs (30 - 31))).
Proof.
  assert (H : Rabs (30 - 31) < 180).
  { unfold Rabs. destruct (Rcase_abs (30 - 31)); lra. }
  split; [exact H | exact (haversine_along_meridian 31 30 20 H)].
Defined.

(* ================================================================= *)
(** ** The clock arithmetic of [generate_timestamp] *)

(** X6: A larger increment never gives an earlier timestamp: the
    microsecond rounding of [timedelta] is monotone. *)
Theorem generate_timestamp_monotone (start_time : datetime)
    (inc1 inc2 : R) :
  inc1 <= inc2 ->
  (generate_timestamp start_time inc1
   <= generate_timestamp start_time inc2)%Z.
Proof.
  intros Hle. unfold generate_timestamp, timedelta_of_seconds.
  apply Z.add_le_mono_l.
  apply round_half_even_le. lra.
Qed.

Lemma generate_timestamp_monotone_witness :
  (generate_timestamp 0 0.25 <= generate_timestamp 0 0.5)%Z.
Proof.
  apply (generate_timestamp_monotone 0%Z 0.25 0.5). lra.
Defined.

(* ================================================================= *)
(** ** The sampler with a radius of zero *)

(** Rounding a rounded number changes nothing. *)
Lemma py_round_idem (x : R) (n : nat) :
  py_round (py_round x n) n = py_round x n.
Proof.
  unfold py_round at 1 3.
  pose proof (pow10_pos n) as Hp.
  replace (py_round x n * 10 ^ n)
    with (IZR (round_half_even (x * 10 ^ n))).
  - now rewrite round_half_even_IZR.
  - unfold py_round, Rdiv. rewrite Rmult_assoc, Rinv_l; lra.
Qed.

Section ZeroRadius.
Context {G : Type} `{RandomSource G}.

(** X7: With [max_distance_km = 0] the sampler returns its input point,
    rounded to six places, for a latitude between the poles and a
    longitude in [[-180, 180)]; it still consumes its two draws. *)
Theorem generate_location_around_zero_radius (lat lon : R) (g : G) :
  cos (math_radians lat) <> 0 ->
  -90 <= lat <= 90 -> -180 <= lon < 180 ->
  generate_location_around lat lon 0 g
  = Ok (py_round lat 6, py_round lon 6,
        snd (rng_random (snd (rng_random g)))).
Proof.
  intros Hc Hlat Hlon. rewrite generate_location_around_eq.
  destruct (Req_dec_T _ 0) as [Hz | _]; [exfalso; apply Hc; nra|].
  cbv zeta.
  assert (Hz1 : 0 / 111.1 = 0) by (unfold Rdiv; apply Rmult_0_l).
  assert (Hz2 : 0 / (111.1 * cos (math_radians lat)) = 0)
    by (unfold Rdiv; apply Rmult_0_l).
  rewrite Hz1, Hz2.
  set (u1 := fst (rng_random g)).
  set (u2 := fst (rng_random (snd (rng_random g)))).
  replace (lat + (- 0 + (0 - - 0) * u1)) with lat by lra.
  replace (lon + (- 0 + (0 - - 0) * u2) + 180) with (lon + 180) by lra.
  rewrite clamp_inside by lra.
  rewrite py_mod_small by lra.
  replace (lon + 180 - 180) with lon by lra.
  reflexivity.
Qed.

End ZeroRadius.

Lemma generate_location_around_zero_radius_witness :
  generate_location_around 30 20 0 exhausted_script
  = Ok (py_round 30 6, py_round 20 6,
        snd (rng_random (snd (rng_random exhausted_script)))).
Proof.
  apply (generate_location_around_zero_radius 30 20 exhausted_script).
  - apply Rgt_not_eq, home_cos_pos. lra.
  - lra.
  - lra.
Defined.

(* ================================================================= *)
(** ** The middle of the sampling box *)

(** Both draws of the sampler equal to 0.5. *)
Definition centre_script : Script :=
  {| floats := [0.5; 0.5]; indices := [] |}.

Section Centre.
Context {G : Type} `{RandomSource G}.

(** X8: The distance passed to the sampler is a maximum, not a
    minimum: when both draws are 0.5 the offsets are 0 and the sampler
    returns its input point (rounded to six places), however large
    [max_distance_km] is. *)
Theorem generate_location_around_centre (lat lon d : R) (g : G) :
  cos (math_radians lat) <> 0 ->
  -90 <= lat <= 90 -> -180 <= lon < 180 ->
  fst (rng_random g) = 0.5 ->
  fst (rng_random (snd (rng_random g))) = 0.5 ->
  generate_location_around lat lon d g
  = Ok (py_round lat 6, py_round lon 6,
        snd (rng_random (snd (rng_random g)))).
Proof.
  intros Hc Hlat Hlon Hu1 Hu2. rewrite generate_location_around_eq.
  destruct (Req_dec_T _ 0) as [Hz | _]; [exfalso; apply Hc; nra|].
  cbv zeta. rewrite Hu1, Hu2.
  set (rlat := d / 111.1).
  set (rlon := d / (111.1 * cos (math_radians lat))).
  replace (lat + (- rlat + (rlat - - rlat) * 0.5)) with lat by lra.
  replace (lon + (- rlon + (rlon - - rlon) * 0.5) + 180)
    with (lon + 180) by lra.
  rewrite clamp_inside by lra.
  rewrite py_mod_small by lra.
  replace (lon + 180 - 180) with lon by lra.
  reflexivity.
Qed.

End Centre.

Lemma generate_location_around_centre_witness :
  generate_location_around 30 20 5000 centre_script
  = Ok (py_round 30 6, py_round 20 6,
        snd (rng_random (snd (rng_random centre_script)))).
Proof.
  apply (generate_location_around_centre 30 20 5000 centre_script).
  - apply Rgt_not_eq, home_cos_pos. lra.
  - lra.
  - lra.
  - unfold centre_script. rewrite (script_random_cons 0.5) by lra.
    reflexivity.
  - unfold centre_script. rewrite (script_random_cons 0.5) by lra.
    cbn [fst snd]. rewrite (script_random_cons 0.5) by lra. reflexivity.
Defined.


(* ================================================================= *)
(** ** Card identifiers *)

(** The number a string of decimal digits denotes (leading zeros
    allowed); [None] for any other string. *)
Definition nat_of_str (s : string) : option nat :=
  option_map Nat.of_uint (NilEmpty.uint_of_string s).

Lemma nat_of_str_zero (s : string) :
  nat_of_str (String "0"%char s) = nat_of_str s.
Proof.
  unfold nat_of_str. simpl.
  destruct (NilEmpty.uint_of_string s); reflexivity.
Qed.

Lemma nat_of_str_zeros (k : nat) (s : string) :
  nat_of_str (zeros k ++ s) = nat_of_str s.
Proof.
  induction k as [| k IH]; simpl; [reflexivity|].
  now rewrite nat_of_str_zero.
Qed.

Lemma nat_of_str_of_nat (n : nat) : nat_of_str (str_of_nat n) = Some n.
Proof.
  unfold nat_of_str, str_of_nat.
  rewrite NilEmpty.usu. simpl. now rewrite Unsigned.of_to.
Qed.

(** The index of a card, read back from its identifier. *)
Definition card_index (card_id : string) : option nat :=
  match card_id with
  | String "C" (String "A" (String "R" (String "D" (String "_" digits)))) =>
      nat_of_str digits
  | _ => None
  end.

Lemma card_index_of (i : nat) : card_index (card_id_of i) = Some i.
Proof.
  unfold card_id_of, zfill. simpl.
  now rewrite nat_of_str_zeros, nat_of_str_of_nat.
Qed.

(** X9: Distinct indices get distinct card identifiers, also beyond
    four digits: the identifier determines the index. *)
Theorem card_id_of_injective (i j : nat) :
  card_id_of i = card_id_of j -> i = j.
Proof.
  intros Heq.
  assert (Hidx : card_index (card_id_of i) = card_index (card_id_of j))
    by now rewrite Heq.
  rewrite !card_index_of in Hidx.
  now injection Hidx.
Qed.

Lemma card_id_of_injective_witness :
  card_id_of 7 = "CARD_0007"%string /\ 7%nat = 7%nat.
Proof.
  split; [reflexivity|].
  apply (card_id_of_injective 7 7). reflexivity.
Defined.

Lemma card_id_of_width_check :
  forallb (fun i => Nat.eqb (String.length (card_id_of i)) 9)
          (seq 0 (100 * 100)) = true.
Proof. vm_compute. reflexivity. Qed.

(** X10: Up to index 9999 an identifier has nine characters: [CARD_]
    and four digits. *)
Theorem card_id_of_width (i : nat) :
  (i < 100 * 100)%nat -> String.length (card_id_of i) = 9%nat.
Proof.
  intros Hi.
  pose proof card_id_of_width_check as Hall.
  rewrite forallb_forall in Hall.
  apply Nat.eqb_eq, Hall.
  apply in_seq. lia.
Qed.

Lemma card_id_of_width_witness :
  String.length (card_id_of 42) = 9%nat.
Proof.
  apply (card_id_of_width 42). lia.
Defined.

(* ================================================================= *)
(** ** The population the bootstrap creates *)

Lemma dict_keys_set_absent (k : string) (c : Card) (d : Cards) :
  ~ In k (dict_keys d) -> dict_keys (dict_set k c d) = dict_keys d ++ [k].
Proof.
  unfold dict_keys. induction d as [| [k' c'] d IH]; simpl.
  - reflexivity.
  - intros Hnin. destruct (String.eqb k k') eqn:E.
    + apply String.eqb_eq in E. subst k'. exfalso. apply Hnin. now left.
    + simpl. rewrite IH; [reflexivity|]. intros Hin. apply Hnin. now right.
Qed.

Lemma card_id_of_fresh (a : nat) :
  ~ In (card_id_of a) (map card_id_of (seq 0 a)).
Proof.
  intros Hin. apply in_map_iff in Hin. destruct Hin as (j & Hj & Hseq).
  apply (f_equal card_index) in Hj. rewrite !card_index_of in Hj.
  injection Hj as ->. apply in_seq in Hseq. lia.
Qed.

(** The card that lines 79-88 build from three draws. *)
Definition new_card (cfg : Config) (u1 u2 u3 : R) : Card :=
  {| HomeLatitude := py_round (25 + (65 - 25) * u1) 6;
     HomeLongitude := py_round (-125 + (40 - -125) * u2) 6;
     IsCompromised := Rltb u3 (COMPROMISE_CARD_PROBABILITY cfg);
     LastTxTimestamp := None;
     LastTxLatitude := None;
     LastTxLongitude := None |}.

Section Population.
Context {G : Type} `{RandomSource G}.

Lemma init_card_new_card (cfg : Config) (i : nat) (cards : Cards) (g : G) :
  exists u1 u2 u3 g',
    0 <= u1 < 1 /\ 0 <= u2 < 1 /\ 0 <= u3 < 1 /\
    init_card cfg i cards g
    = Ok (dict_set (card_id_of i) (new_card cfg u1 u2 u3) cards, g').
Proof.
  rewrite init_card_eq. cbv zeta.
  exists (fst (rng_random g)),
         (fst (rng_random (snd (rng_random g)))),
         (fst (rng_random (snd (rng_random (snd (rng_random g)))))),
         (snd (rng_random (snd (rng_random (snd (rng_random g)))))).
  repeat split; try apply rng_random_range.
Qed.

(** The keys after the bootstrap loop has run over [a, a + n). *)
Lemma init_cards_keys (cfg : Config) (n a : nat) (cards : Cards) (g : G) :
  dict_keys cards = map card_id_of (seq 0 a) ->
  exists cards' g',
    init_cards cfg (seq a n) cards g = Ok (cards', g') /\
    dict_keys cards' = map card_id_of (seq 0 (a + n)).
Proof.
  revert a cards g. induction n as [| n IH]; intros a cards g Hkeys.
  - exists cards, g. simpl. unfold ret. now rewrite Nat.add_0_r.
  - destruct (init_card_new_card cfg a cards g)
      as (u1 & u2 & u3 & g1 & _ & _ & _ & Hinit).
    simpl. unfold bind. rewrite Hinit.
    destruct (IH (S a) (dict_set (card_id_of a) (new_card cfg u1 u2 u3) cards)
                g1) as (cards' & g' & Hrun & Hk').
    + rewrite dict_keys_set_absent.
      * rewrite Hkeys, seq_S, map_app. reflexivity.
      * rewrite Hkeys. apply card_id_of_fresh.
    + exists cards', g'. split; [exact Hrun|].
      now replace (a + S n)%nat with (S a + n)%nat by lia.
Qed.

(** A property of cards that every card built by lines 79-88 has holds
    for all cards of the population. *)
Lemma init_cards_forall (cfg : Config) (P : Card -> Prop) :
  (forall u1 u2 u3, 0 <= u1 < 1 -> 0 <= u2 < 1 -> 0 <= u3 < 1 ->
     P (new_card cfg u1 u2 u3)) ->
  forall (range : list nat) (cards cards' : Cards) (g g' : G),
    init_cards cfg range cards g = Ok (cards', g') ->
    (forall k c, dict_get k cards = Ok c -> P c) ->
    forall k c, dict_get k cards' = Ok c -> P c.
Proof.
  intros Hnew. induction range as [| i range IH];
    intros cards cards' g g' Hrun Hall.
  - simpl in Hrun. unfold ret in Hrun. now injection Hrun as <- _.
  - simpl in Hrun. unfold bind in Hrun.
    destruct (init_card_new_card cfg i cards g)
      as (u1 & u2 & u3 & g1 & Hu1 & Hu2 & Hu3 & Hinit).
    rewrite Hinit in Hrun.
    apply (IH _ _ _ _ Hrun).
    intros k c Hk.
    destruct (string_dec k (card_id_of i)) as [-> | Hne].
    + rewrite dict_get_set_same in Hk. injection Hk as <-.
      now apply Hnew.
    + rewrite dict_get_set_other in Hk by exact Hne. exact (Hall _ _ Hk).
Qed.

(** X11: The bootstrap never raises and creates exactly [NUM_CARDS]
    cards (none for a count of 0 or less), keyed [CARD_0000],
    [CARD_0001], ... in this order: the count line 90 prints is
    [NUM_CARDS]. *)
Theorem bootstrap_population (cfg : Config) (g : G) :
  exists cards g',
    bootstrap cfg g = Ok (cards, g') /\
    dict_keys cards
    = map card_id_of (seq 0 (Z.to_nat (NUM_CARDS cfg))) /\
    List.length cards = Z.to_nat (NUM_CARDS cfg).
Proof.
  unfold bootstrap.
  destruct (init_cards_keys cfg (Z.to_nat (NUM_CARDS cfg)) 0 [] g eq_refl)
    as (cards & g' & Hrun & Hkeys).
  exists cards, g'. split; [exact Hrun|]. split; [exact Hkeys|].
  assert (Hlen : List.length (dict_keys cards)
                 = Z.to_nat (NUM_CARDS cfg)).
  { rewrite Hkeys. simpl. now rewrite length_map, length_seq. }
  unfold dict_keys in Hlen. now rewrite length_map in Hlen.
Qed.

(** A card as the bootstrap leaves it. *)
Definition fresh (c : Card) : Prop :=
  25 <= HomeLatitude c <= 65 /\
  -125 <= HomeLongitude c <= 40 /\
  py_round (HomeLatitude c) 6 = HomeLatitude c /\
  py_round (HomeLongitude c) 6 = HomeLongitude c /\
  LastTxTimestamp c = None /\
  LastTxLatitude c = None /\
  LastTxLongitude c = None.

Lemma new_card_fresh (cfg : Config) (u1 u2 u3 : R) :
  0 <= u1 < 1 -> 0 <= u2 < 1 -> 0 <= u3 < 1 ->
  fresh (new_card cfg u1 u2 u3).
Proof.
  intros Hu1 Hu2 Hu3. unfold fresh, new_card. simpl.
  split; [apply (py_round6_between 25 65); lra|].
  split; [apply (py_round6_between (-125) 40); lra|].
  split; [apply py_round_idem|].
  split; [apply py_round_idem|].
  auto.
Qed.

(** X12: Every card of the bootstrapped population has its home in the
    box of lines 79-80 (latitude 25 to 65, longitude -125 to 40), at six
    decimal places, and no last transaction. *)
Theorem bootstrap_cards_fresh (cfg : Config) (g : G) :
  exists cards g',
    bootstrap cfg g = Ok (cards, g') /\
    forall k c, dict_get k cards = Ok c -> fresh c.
Proof.
  destruct (bootstrap_total cfg g) as (cards & g' & Hb & _).
  exists cards, g'. split; [exact Hb|].
  unfold bootstrap in Hb. intros k c Hk.
  apply (init_cards_forall cfg fresh (new_card_fresh cfg) _ _ _ _ _ Hb)
    with (k := k); [discriminate | exact Hk].
Qed.

(** X13: The compromise draw of line 84 at the ends of the scale: with
    a probability of 1 or more every card is compromised, with 0 or less
    none is. *)
Theorem bootstrap_compromise_extremes (cfg : Config) (g : G) :
  exists cards g',
    bootstrap cfg g = Ok (cards, g') /\
    (1 <= COMPROMISE_CARD_PROBABILITY cfg ->
     forall k c, dict_get k cards = Ok c -> IsCompromised c = true) /\
    (COMPROMISE_CARD_PROBABILITY cfg <= 0 ->
     forall k c, dict_get k cards = Ok c -> IsCompromised c = false).
Proof.
  destruct (bootstrap_total cfg g) as (cards & g' & Hb & _).
  exists cards, g'. split; [exact Hb|]. split.
  - intros Hp k c Hk. unfold bootstrap in Hb.
    apply (init_cards_forall cfg (fun c => IsCompromised c = true))
      with (range := seq 0 (Z.to_nat (NUM_CARDS cfg))) (cards := [])
           (cards' := cards) (g := g) (g' := g') (k := k);
      [| exact Hb | discriminate | exact Hk].
    intros u1 u2 u3 _ _ Hu3. simpl. unfold Rltb.
    destruct (Rlt_dec _ _); [reflexivity | lra].
  - intros Hp k c Hk. unfold bootstrap in Hb.
    apply (init_cards_forall cfg (fun c => IsCompromised c = false))
      with (range := seq 0 (Z.to_nat (NUM_CARDS cfg))) (cards := [])
           (cards' := cards) (g := g) (g' := g') (k := k);
      [| exact Hb | discriminate | exact Hk].
    intros u1 u2 u3 _ _ Hu3. simpl. unfold Rltb.
    destruct (Rlt_dec _ _); [lra | reflexivity].
Qed.

End Population.

(* ================================================================= *)
(** ** What every printed record carries *)

Lemma merchant_digits_check :
  forallb (fun k => Nat.eqb (String.length
                               (str_of_nat (Z.to_nat (1000 + Z.of_nat k)))) 4)
          (seq 0 (90 * 100)) = true.
Proof. vm_compute. reflexivity. Qed.

Lemma merchant_digits (n : Z) :
  (1000 <= n <= 9999)%Z ->
  String.length (str_of_nat (Z.to_nat n)) = 4%nat.
Proof.
  intros Hn. pose proof merchant_digits_check as Hall.
  rewrite forallb_forall in Hall.
  replace n with (1000 + Z.of_nat (Z.to_nat (n - 1000)))%Z by lia.
  apply Nat.eqb_eq, Hall, in_seq. lia.
Qed.

Lemma string_length_app (s1 s2 : string) :
  String.length (s1 ++ s2) = (String.length s1 + String.length s2)%nat.
Proof. induction s1 as [| a s1 IH]; simpl; [reflexivity | now rewrite IH]. Qed.

(** The homes of the population never change. *)
Definition homes_from (cards0 cards : Cards) : Prop :=
  forall k c, dict_get k cards = Ok c ->
    exists c0, dict_get k cards0 = Ok c0 /\
               HomeLatitude c0 = HomeLatitude c /\
               HomeLongitude c0 = HomeLongitude c.

Lemma homes_from_refl (cards : Cards) : homes_from cards cards.
Proof. intros k c Hk. eauto. Qed.

Section RecordFields.
Context {G : Type} `{RandomSource G}.

Lemma random_randint_Ok (a b n : Z) (g g' : G) :
  random_randint a b g = Ok (n, g') -> (a <= n <= b)%Z.
Proof.
  unfold random_randint. destruct (Z.ltb_spec b a) as [Hlt | Hle];
    [discriminate|].
  pose proof (rng_randbelow_range (Z.to_nat (b - a + 1)) g) as Hr.
  destruct (rng_randbelow _ g) as [k g1]. simpl in Hr.
  intros [= <- _]. assert (k < Z.to_nat (b - a + 1))%nat by (apply Hr; lia).
  lia.
Qed.

(** The amount of a record, from the draw of line 106 or line 139. *)
Lemma fraud_path_amount (cfg : Config) (card_info : Card)
    (now now' : datetime) (g g' : G) (b : bool) (amount mlat mlon : R) :
  fraud_path cfg card_info now g = Ok (b, amount, mlat, mlon, now', g') ->
  amount = py_round (fst (FRAUD_AMOUNT_RANGE cfg)
                     + (snd (FRAUD_AMOUNT_RANGE cfg)
                        - fst (FRAUD_AMOUNT_RANGE cfg))
                       * fst (rng_random g)) 2.
Proof.
  unfold fraud_path. intros Hp.
  inv_rand Hp. pose proof Hm as Hamount.
  inv_rand Hk. rename a0 into d, g1 into g_loc.
  inv_rand Hk0. destruct a0 as [la lo].
  inv_rand Hk. inv_rand Hk0.
  injection Hk0 as _ -> _ _ _.
  rewrite random_uniform_eq in Hamount. now injection Hamount as <- _.
Qed.

Lemma normal_path_amount (cfg : Config) (card_info : Card)
    (now now' : datetime) (g g' : G) (b : bool) (amount mlat mlon : R) :
  normal_path cfg card_info now g = Ok (b, amount, mlat, mlon, now', g') ->
  amount = py_round (fst (NORMAL_AMOUNT_RANGE cfg)
                     + (snd (NORMAL_AMOUNT_RANGE cfg)
                        - fst (NORMAL_AMOUNT_RANGE cfg))
                       * fst (rng_random g)) 2.
Proof.
  unfold normal_path. intros Hp.
  inv_rand Hp. pose proof Hm as Hamount.
  inv_rand Hk. rename a0 into d, g1 into g_loc.
  inv_rand Hk0. destruct a0 as [la lo].
  inv_rand Hk. inv_rand Hm2. inv_rand Hk0. inv_rand Hk.
  injection Hk as _ -> _ _ _.
  rewrite random_uniform_eq in Hamount. now injection Hamount as <- _.
Qed.

Lemma uniform_between (lo hi u : R) :
  lo <= hi -> 0 <= u < 1 -> lo <= lo + (hi - lo) * u <= hi.
Proof. intros Hle Hu. split; nra. Qed.

(** The amount range that applies to a record. *)
Definition amount_range (cfg : Config) (tx : Transaction) : R * R :=
  if IsFraud tx then FRAUD_AMOUNT_RANGE cfg else NORMAL_AMOUNT_RANGE cfg.

Lemma step_amount (cfg : Config) (tid : string) (st st' : State)
    (tx : Transaction) :
  fst (NORMAL_AMOUNT_RANGE cfg) <= snd (NORMAL_AMOUNT_RANGE cfg) ->
  fst (FRAUD_AMOUNT_RANGE cfg) <= snd (FRAUD_AMOUNT_RANGE cfg) ->
  step cfg tid st = Ok (tx, st') ->
  py_round (fst (amount_range cfg tx)) 2 <= Amount tx
  <= py_round (snd (amount_range cfg tx)) 2.
Proof.
  intros Hn Hf Hstep. apply step_Ok in Hstep.
  destruct Hstep as (card_id & card_info & g1 & is_fraud & amount & mlat
                     & mlon & now & g2 & _ & _ & _ & Hdec & _ & _ & _
                     & Ham & _ & _ & Hfl & _).
  apply decide_transaction_Ok in Hdec. destruct Hdec as (g3 & _ & Hpath).
  unfold amount_range. rewrite Hfl, Ham.
  pose proof (rng_random_range g3) as Hu.
  destruct is_fraud.
  - rewrite (fraud_path_amount _ _ _ _ _ _ _ _ _ _ Hpath).
    destruct (uniform_between _ _ _ Hf Hu). split; now apply py_round_le.
  - rewrite (normal_path_amount _ _ _ _ _ _ _ _ _ _ Hpath).
    destruct (uniform_between _ _ _ Hn Hu). split; now apply py_round_le.
Qed.

(** X14: With amount ranges given as (low, high), every record's amount
    lies between the two ends of the range of its kind, rounded to
    cents: 5.00 to 250.00 for a normal record and 100.00 to 2000.00 for
    a fraud record with the script's constants. *)
Theorem record_amount_in_range (cfg : Config) (g : G) (now : datetime)
    (uuid4 : nat -> string) (tx : Transaction) :
  fst (NORMAL_AMOUNT_RANGE cfg) <= snd (NORMAL_AMOUNT_RANGE cfg) ->
  fst (FRAUD_AMOUNT_RANGE cfg) <= snd (FRAUD_AMOUNT_RANGE cfg) ->
  In tx (fst (simulate cfg g now uuid4)) ->
  py_round (fst (amount_range cfg tx)) 2 <= Amount tx
  <= py_round (snd (amount_range cfg tx)) 2.
Proof.
  intros Hn Hf Hin. rewrite simulate_bootstrap in Hin.
  destruct (bootstrap cfg g) as [[cards g1] | e]; [|contradiction].
  apply In_nth_error in Hin. destruct Hin as [k Hk]. revert Hk.
  apply (transaction_loop_records cfg uuid4 (fun _ => True)
           (fun _ tx => py_round (fst (amount_range cfg tx)) 2 <= Amount tx
                        <= py_round (snd (amount_range cfg tx)) 2));
    [|exact I].
  intros i st tx0 st' _ Hs. split; [exact I|].
  exact (step_amount _ _ _ _ _ Hn Hf Hs).
Qed.

(** The merchant identifier, from the draw of line 152. *)
Lemma step_merchant_id (cfg : Config) (tid : string) (st st' : State)
    (tx : Transaction) :
  step cfg tid st = Ok (tx, st') ->
  exists n : Z,
    (1000 <= n <= 9999)%Z /\
    MerchantID tx = ("MERCHANT_" ++ str_of_nat (Z.to_nat n))%string.
Proof.
  unfold step.
  match goal with
  | |- match ?b with _ => _ end = _ -> _ =>
      destruct b as [[[[tx0 now0] cards0] g0] | e] eqn:Hbody
  end; [|discriminate].
  intros [= <- <-].
  inv_rand Hbody. inv_rand Hk. inv_rand Hm0.
  inv_rand Hk0. destruct a1 as [[[[is_fraud amount] mlat] mlon] now].
  inv_rand Hk. rename a1 into n.
  pose proof (random_randint_Ok _ _ _ _ _ Hm1) as Hn.
  inv_rand Hk0. inv_rand Hk.
  injection Hk as -> _ _.
  exists n. simpl. split; [exact Hn | reflexivity].
Qed.

(** X15: Every record's merchant identifier is [MERCHANT_] followed by
    the four digits of a number between 1000 and 9999. *)
Theorem record_merchant_id (cfg : Config) (g : G) (now : datetime)
    (uuid4 : nat -> string) (tx : Transaction) :
  In tx (fst (simulate cfg g now uuid4)) ->
  (exists n : Z,
      (1000 <= n <= 9999)%Z /\
      MerchantID tx = ("MERCHANT_" ++ str_of_nat (Z.to_nat n))%string) /\
  String.length (MerchantID tx) = 13%nat.
Proof.
  intros Hin. rewrite simulate_bootstrap in Hin.
  destruct (bootstrap cfg g) as [[cards g1] | e]; [|contradiction].
  apply In_nth_error in Hin. destruct Hin as [k Hk].
  assert (Hid : exists n : Z,
             (1000 <= n <= 9999)%Z /\
             MerchantID tx = ("MERCHANT_" ++ str_of_nat (Z.to_nat n))%string).
  { revert Hk.
    apply (transaction_loop_records cfg uuid4 (fun _ => True)
             (fun _ tx => exists n : Z,
                  (1000 <= n <= 9999)%Z /\
                  MerchantID tx
                  = ("MERCHANT_" ++ str_of_nat (Z.to_nat n))%string));
      [|exact I].
    intros i st tx0 st' _ Hs. split; [exact I|].
    exact (step_merchant_id _ _ _ _ _ Hs). }
  split; [exact Hid|].
  destruct Hid as (n & Hn & ->).
  rewrite string_length_app, (merchant_digits n Hn). reflexivity.
Qed.

(** The homes and the keys of the population, across one iteration. *)
Lemma step_homes (cfg : Config) (tid : string) (cards0 : Cards)
    (st st' : State) (tx : Transaction) :
  homes_from cards0 (cards_data st) ->
  step cfg tid st = Ok (tx, st') ->
  homes_from cards0 (cards_data st') /\
  In (CardID tx) (dict_keys (cards_data st)) /\
  exists c0, dict_get (CardID tx) cards0 = Ok c0 /\
             TxHomeLatitude tx = HomeLatitude c0 /\
             TxHomeLongitude tx = HomeLongitude c0.
Proof.
  intros Hhomes Hstep. apply step_Ok in Hstep.
  destruct Hstep as (card_id & card_info & g1 & is_fraud & amount & mlat
                     & mlon & now & g2 & _ & Hin & Hget & _ & _ & Hid & _ & _
                     & _ & _ & _ & Hhla & Hhlo & _ & Hcards).
  destruct (Hhomes _ _ Hget) as (c0 & Hc0 & Hla0 & Hlo0).
  split; [|split].
  - intros k c Hk. rewrite Hcards in Hk.
    destruct (string_dec k card_id) as [-> | Hne].
    + rewrite dict_get_set_same in Hk. injection Hk as <-.
      exists c0. simpl. auto.
    + rewrite dict_get_set_other in Hk by exact Hne. exact (Hhomes _ _ Hk).
  - now rewrite Hid.
  - exists c0. rewrite Hid, Hhla, Hhlo. auto.
Qed.

(** X16: Every record names a card of the population, [CARD_] with an
    index below [NUM_CARDS], and carries the home coordinates that the
    bootstrap gave this card: homes are never rewritten. *)
Theorem record_card_and_home (cfg : Config) (g g1 : G) (now : datetime)
    (uuid4 : nat -> string) (cards : Cards) (tx : Transaction) :
  bootstrap cfg g = Ok (cards, g1) ->
  In tx (fst (simulate cfg g now uuid4)) ->
  (exists i, (i < Z.to_nat (NUM_CARDS cfg))%nat /\
             CardID tx = card_id_of i) /\
  (exists card, dict_get (CardID tx) cards = Ok card /\
                TxHomeLatitude tx = HomeLatitude card /\
                TxHomeLongitude tx = HomeLongitude card).
Proof.
  intros Hboot Hin.
  destruct (init_cards_keys cfg (Z.to_nat (NUM_CARDS cfg)) 0 [] g eq_refl)
    as (cards' & g' & Hb & Hkeys).
  unfold bootstrap in Hboot. rewrite Hboot in Hb. injection Hb as <- <-.
  fold (bootstrap cfg g) in Hboot.
  rewrite simulate_bootstrap, Hboot in Hin.
  apply In_nth_error in Hin. destruct Hin as [k Hk].
  assert (Hrec : In (CardID tx) (dict_keys cards) /\
                 exists c0, dict_get (CardID tx) cards = Ok c0 /\
                            TxHomeLatitude tx = HomeLatitude c0 /\
                            TxHomeLongitude tx = HomeLongitude c0).
  { revert Hk.
    apply (transaction_loop_records cfg uuid4
             (fun st => homes_from cards (cards_data st) /\
                        dict_keys (cards_data st) = dict_keys cards)
             (fun _ tx =>
                In (CardID tx) (dict_keys cards) /\
                exists c0, dict_get (CardID tx) cards = Ok c0 /\
                           TxHomeLatitude tx = HomeLatitude c0 /\
                           TxHomeLongitude tx = HomeLongitude c0)).
    - intros i st tx0 st' [Hinv Hk0] Hs.
      destruct (step_homes _ _ _ _ _ _ Hinv Hs) as (Hinv' & Hin' & Hhome).
      destruct (step_preserves _ _ _ _ _ Hs) as [Hkeys' _].
      rewrite Hk0 in Hin'.
      split; [split; [exact Hinv' | congruence] | split; assumption].
    - simpl. split; [apply homes_from_refl | reflexivity]. }
  destruct Hrec as [Hin Hhome]. split; [|exact Hhome].
  rewrite Hkeys in Hin. apply in_map_iff in Hin.
  destruct Hin as (i & Hi & Hseq). apply in_seq in Hseq.
  exists i. split; [lia | now symmetry].
Qed.

(** The records the loop has printed when it stops. *)
Lemma transaction_loop_count (cfg : Config) (uuid4 : nat -> string)
    (n i : nat) (st : State) :
  match snd (transaction_loop cfg uuid4 i n st) with
  | Ok _ => List.length (fst (transaction_loop cfg uuid4 i n st)) = n
  | Raise _ => (List.length (fst (transaction_loop cfg uuid4 i n st)) < n)%nat
  end.
Proof.
  revert i st. induction n as [| n IH]; intros i st; simpl.
  - reflexivity.
  - destruct (step cfg (uuid4 i) st) as [[tx st1] | e]; simpl; [|lia].
    specialize (IH (S i) st1).
    destruct (transaction_loop cfg uuid4 (S i) n st1) as [out r]. simpl in *.
    destruct r; lia.
Qed.

(** X17: A run that ends normally has printed exactly
    [NUM_TRANSACTIONS] records; a run that ends with an exception has
    printed fewer: the records of the iterations before the one that
    raised. *)
Theorem simulate_record_count (cfg : Config) (g : G) (now : datetime)
    (uuid4 : nat -> string) :
  match snd (simulate cfg g now uuid4) with
  | Ok _ => List.length (fst (simulate cfg g now uuid4))
            = Z.to_nat (NUM_TRANSACTIONS cfg)
  | Raise _ => (List.length (fst (simulate cfg g now uuid4))
                < Z.to_nat (NUM_TRANSACTIONS cfg))%nat
  end.
Proof.
  rewrite simulate_bootstrap.
  destruct (bootstrap_total cfg g) as (cards & g' & Hb & _).
  rewrite Hb.
  pose proof (transaction_loop_count cfg uuid4
                (Z.to_nat (NUM_TRANSACTIONS cfg)) 0
                {| rng := g'; current_time := now; cards_data := cards |})
    as Hcount.
  exact Hcount.
Qed.

End RecordFields.

(** A run to apply the properties of records to: the script's constants,
    every draw 0.0. *)
Lemma default_run_record :
  exists tx,
    In tx (fst (simulate default_config exhausted_script 0%Z
                  (fun _ => EmptyString))).
Proof.
  destruct (simulate_total default_config exhausted_script 0%Z
              (fun _ => EmptyString) default_config_divisors)
    as (out & st' & Hrun & Hlen); [reflexivity|].
  destruct out as [| tx out]; [discriminate|].
  exists tx. rewrite Hrun. now left.
Qed.

Lemma record_amount_in_range_witness :
  exists tx,
    In tx (fst (simulate default_config exhausted_script 0%Z
                  (fun _ => EmptyString))) /\
    py_round (fst (amount_range default_config tx)) 2 <= Amount tx
    <= py_round (snd (amount_range default_config tx)) 2.
Proof.
  destruct default_run_record as [tx Hin].
  exists tx. split; [exact Hin|].
  apply (record_amount_in_range default_config exhausted_script 0%Z
           (fun _ => EmptyString) tx); [simpl; lra | simpl; lra | exact Hin].
Defined.

Lemma record_merchant_id_witness :
  exists tx,
    In tx (fst (simulate default_config exhausted_script 0%Z
                  (fun _ => EmptyString))) /\
    String.length (MerchantID tx) = 13%nat.
Proof.
  destruct default_run_record as [tx Hin].
  exists tx. split; [exact Hin|].
  exact (proj2 (record_merchant_id default_config exhausted_script 0%Z
                  (fun _ => EmptyString) tx Hin)).
Defined.

Lemma record_card_and_home_witness :
  exists tx i,
    In tx (fst (simulate default_config exhausted_script 0%Z
                  (fun _ => EmptyString))) /\
    (i < 50)%nat /\ CardID tx = card_id_of i.
Proof.
  destruct default_run_record as [tx Hin].
  destruct (bootstrap_total default_config exhausted_script)
    as (cards & g1 & Hboot & _).
  destruct (record_card_and_home default_config exhausted_script g1 0%Z
              (fun _ => EmptyString) cards tx Hboot Hin)
    as [(i & Hi & Hid) _].
  exists tx, i. split; [exact Hin|]. split; [exact Hi | exact Hid].
Defined.

(* ================================================================= *)
(** ** The fraud flag at the ends of the probability scale *)

Definition all_compromised (d : Cards) : Prop :=
  forall k c, dict_get k d = Ok c -> IsCompromised c = true.

(** The script's constants with a fraud probability of 0. *)
Definition zero_injection_config : Config := {|
  NUM_CARDS := 50;
  NUM_TRANSACTIONS := 1000;
  FRAUD_INJECTION_PROBABILITY := 0;
  COMPROMISE_CARD_PROBABILITY := 0.10;
  AVG_TRANSACTION_DELAY_SECONDS := 0.5;
  LOCATION_VARIATION_KM_NORMAL := 50;
  LOCATION_VARIATION_KM_FRAUD := 5000;
  NORMAL_AMOUNT_RANGE := (5, 250);
  FRAUD_AMOUNT_RANGE := (100, 2000);
  HIGH_VELOCITY_THRESHOLD_KMH := 800
|}.

(** The script's constants with both probabilities equal to 1. *)
Definition certain_fraud_config : Config := {|
  NUM_CARDS := 50;
  NUM_TRANSACTIONS := 1000;
  FRAUD_INJECTION_PROBABILITY := 1;
  COMPROMISE_CARD_PROBABILITY := 1;
  AVG_TRANSACTION_DELAY_SECONDS := 0.5;
  LOCATION_VARIATION_KM_NORMAL := 50;
  LOCATION_VARIATION_KM_FRAUD := 5000;
  NORMAL_AMOUNT_RANGE := (5, 250);
  FRAUD_AMOUNT_RANGE := (100, 2000);
  HIGH_VELOCITY_THRESHOLD_KMH := 800
|}.

Section FraudExtremes.
Context {G : Type} `{RandomSource G}.

(** The card of a record and the decision of line 104 that flagged it. *)
Lemma step_decision (cfg : Config) (tid : string) (st st' : State)
    (tx : Transaction) :
  step cfg tid st = Ok (tx, st') ->
  exists card_info g1 g2,
    dict_get (CardID tx) (cards_data st) = Ok card_info /\
    fraud_decision cfg card_info g1 = Ok (IsFraud tx, g2).
Proof.
  intros Hstep. apply step_Ok in Hstep.
  destruct Hstep as (card_id & card_info & g1 & is_fraud & amount & mlat
                     & mlon & now & g2 & _ & _ & Hget & Hdec & _ & Hid & _
                     & _ & _ & _ & Hf & _).
  apply decide_transaction_Ok in Hdec. destruct Hdec as (g3 & Hfd & _).
  exists card_info, g1, g3. rewrite Hid, Hf. auto.
Qed.

(** X18: With a fraud probability of 0 or less no record is fraud,
    however many cards are compromised: the draw of line 104 is never
    below 0. *)
Theorem no_fraud_without_injection (cfg : Config) (g : G) (now : datetime)
    (uuid4 : nat -> string) (tx : Transaction) :
  FRAUD_INJECTION_PROBABILITY cfg <= 0 ->
  In tx (fst (simulate cfg g now uuid4)) ->
  IsFraud tx = false.
Proof.
  intros Hp Hin. rewrite simulate_bootstrap in Hin.
  destruct (bootstrap cfg g) as [[cards g1] | e]; [|contradiction].
  apply In_nth_error in Hin. destruct Hin as [k Hk]. revert Hk.
  apply (transaction_loop_records cfg uuid4 (fun _ => True)
           (fun _ tx => IsFraud tx = false)); [|exact I].
  intros i st tx0 st' _ Hs. split; [exact I|].
  destruct (step_decision _ _ _ _ _ Hs) as (card_info & ga & gb & _ & Hfd).
  apply fraud_decision_Ok in Hfd. destruct Hfd as [Htrue _].
  destruct (IsFraud tx0); [|reflexivity].
  destruct (Htrue eq_refl) as (_ & Hu & _).
  pose proof (rng_random_range ga) as [Hu0 _]. lra.
Qed.

Lemma step_all_compromised (cfg : Config) (tid : string) (st st' : State)
    (tx : Transaction) :
  all_compromised (cards_data st) ->
  step cfg tid st = Ok (tx, st') ->
  all_compromised (cards_data st').
Proof.
  intros Hall Hstep.
  destruct (step_updates_card _ _ _ _ _ Hstep)
    as (card & card' & Hget & Hget' & Hcomp & Hother).
  intros k c Hk.
  destruct (string_dec k (CardID tx)) as [-> | Hne].
  - rewrite Hget' in Hk. injection Hk as <-.
    rewrite Hcomp. exact (Hall _ _ Hget).
  - rewrite Hother in Hk by exact Hne. exact (Hall _ _ Hk).
Qed.

(** X19: With both probabilities at 1 or more every record is fraud:
    every card is compromised and the draw of line 104, below 1, always
    succeeds. *)
Theorem all_fraud_at_certainty (cfg : Config) (g : G) (now : datetime)
    (uuid4 : nat -> string) (tx : Transaction) :
  1 <= COMPROMISE_CARD_PROBABILITY cfg ->
  1 <= FRAUD_INJECTION_PROBABILITY cfg ->
  In tx (fst (simulate cfg g now uuid4)) ->
  IsFraud tx = true.
Proof.
  intros Hc Hp Hin. rewrite simulate_bootstrap in Hin.
  destruct (bootstrap cfg g) as [[cards g1] | e] eqn:Hboot; [|contradiction].
  assert (Hall : all_compromised cards).
  { intros k c Hk. unfold bootstrap in Hboot.
    apply (init_cards_forall cfg (fun c => IsCompromised c = true))
      with (range := seq 0 (Z.to_nat (NUM_CARDS cfg))) (cards := [])
           (cards' := cards) (g := g) (g' := g1) (k := k);
      [| exact Hboot | discriminate | exact Hk].
    intros u1 u2 u3 _ _ Hu3. simpl. unfold Rltb.
    destruct (Rlt_dec _ _); [reflexivity | lra]. }
  apply In_nth_error in Hin. destruct Hin as [k Hk]. revert Hk.
  apply (transaction_loop_records cfg uuid4
           (fun st => all_compromised (cards_data st))
           (fun _ tx => IsFraud tx = true)); [|exact Hall].
  intros i st tx0 st' Hinv Hs.
  split; [exact (step_all_compromised _ _ _ _ _ Hinv Hs)|].
  destruct (step_decision _ _ _ _ _ Hs) as (card_info & ga & gb & Hget & Hfd).
  pose proof (rng_random_range ga) as [_ Hu1].
  rewrite (fraud_decision_true cfg card_info ga (Hinv _ _ Hget)) in Hfd
    by lra.
  now injection Hfd as <- _.
Qed.

End FraudExtremes.

Lemma zero_injection_config_divisors : divisors_nonzero zero_injection_config.
Proof. split; simpl; lra. Qed.

Lemma certain_fraud_config_divisors : divisors_nonzero certain_fraud_config.
Proof. split; simpl; lra. Qed.

Lemma no_fraud_without_injection_witness :
  exists tx,
    In tx (fst (simulate zero_injection_config exhausted_script 0%Z
                  (fun _ => EmptyString))) /\
    IsFraud tx = false.
Proof.
  destruct (simulate_total zero_injection_config exhausted_script 0%Z
              (fun _ => EmptyString) zero_injection_config_divisors)
    as (out & st' & Hrun & Hlen); [reflexivity|].
  destruct out as [| tx out]; [discriminate|].
  assert (Hin : In tx (fst (simulate zero_injection_config exhausted_script
                              0%Z (fun _ => EmptyString)))).
  { rewrite Hrun. now left. }
  exists tx. split; [exact Hin|].
  apply (no_fraud_without_injection zero_injection_config exhausted_script
           0%Z (fun _ => EmptyString) tx); [simpl; lra | exact Hin].
Defined.

Lemma all_fraud_at_certainty_witness :
  exists tx,
    In tx (fst (simulate certain_fraud_config exhausted_script 0%Z
                  (fun _ => EmptyString))) /\
    IsFraud tx = true.
Proof.
  destruct (simulate_total certain_fraud_config exhausted_script 0%Z
              (fun _ => EmptyString) certain_fraud_config_divisors)
    as (out & st' & Hrun & Hlen); [reflexivity|].
  destruct out as [| tx out]; [discriminate|].
  assert (Hin : In tx (fst (simulate certain_fraud_config exhausted_script
                              0%Z (fun _ => EmptyString)))).
  { rewrite Hrun. now left. }
  exists tx. split; [exact Hin|].
  apply (all_fraud_at_certainty certain_fraud_config exhausted_script
           0%Z (fun _ => EmptyString) tx);
    [simpl; lra | simpl; lra | exact Hin].
Defined.

(* ================================================================= *)
(** ** The clock on the normal path *)

Lemma timedelta_of_seconds_nonneg (s : R) :
  0 <= s -> (0 <= timedelta_of_seconds s)%Z.
Proof.
  intros Hs. unfold timedelta_of_seconds.
  rewrite <- (round_half_even_IZR 0) at 1.
  apply round_half_even_le. lra.
Qed.

Section NormalClock.
Context {G : Type} `{RandomSource G}.

(** [expovariate] with a positive rate returns a non-negative number. *)
Lemma random_expovariate_nonneg (lambd x : R) (g g' : G) :
  0 < lambd -> random_expovariate lambd g = Ok (x, g') -> 0 <= x.
Proof.
  intros Hl. unfold random_expovariate, bind, random_random.
  pose proof (rng_random_range g) as [Hu0 Hu1].
  destruct (rng_random g) as [u g1]. simpl in *.
  unfold lift, math_log. destruct (Rle_dec (1 - u) 0); [lra|].
  rewrite py_div_nonzero by lra. intros [= <- _].
  assert (Hln : ln (1 - u) <= 0).
  { destruct (Req_dec u 0) as [-> | Hnz].
    - replace (1 - 0) with 1 by lra. rewrite ln_1. lra.
    - left. rewrite <- ln_1. apply ln_increasing; lra. }
  unfold Rdiv. apply Rmult_le_pos; [lra|].
  left. now apply Rinv_0_lt_compat.
Qed.

(** Lines 139-148, step by step. *)
Lemma normal_path_inv (cfg : Config) (card_info : Card)
    (now now' : datetime) (g g' : G) (b : bool) (amount mlat mlon : R) :
  normal_path cfg card_info now g = Ok (b, amount, mlat, mlon, now', g') ->
  exists a g0 d g1 g2 lambd incr,
    random_uniform (fst (NORMAL_AMOUNT_RANGE cfg))
                   (snd (NORMAL_AMOUNT_RANGE cfg)) g = Ok (a, g0) /\
    random_uniform 0 (LOCATION_VARIATION_KM_NORMAL cfg) g0 = Ok (d, g1) /\
    generate_location_around (HomeLatitude card_info)
      (HomeLongitude card_info) d g1 = Ok (mlat, mlon, g2) /\
    py_div 1 (AVG_TRANSACTION_DELAY_SECONDS cfg) = Ok lambd /\
    random_expovariate lambd g2 = Ok (incr, g') /\
    b = false /\ amount = py_round a 2 /\
    now' = generate_timestamp now incr.
Proof.
  unfold normal_path. intros Hp.
  inv_rand Hp. inv_rand Hk. rename a0 into d, g1 into g_loc.
  inv_rand Hk0. destruct a0 as [la lo].
  inv_rand Hk. inv_rand Hm2. inv_rand Hk0. inv_rand Hk.
  injection Hk as -> -> -> -> ->.
  exists a, g0, d, g_loc, g1, a0, a1. auto 10.
Qed.

(** The normal path behind a record that is not fraud. *)
Lemma step_normal (cfg : Config) (tid : string) (st st' : State)
    (tx : Transaction) :
  step cfg tid st = Ok (tx, st') -> IsFraud tx = false ->
  exists card_info g1 g2,
    dict_get (CardID tx) (cards_data st) = Ok card_info /\
    TxHomeLatitude tx = HomeLatitude card_info /\
    TxHomeLongitude tx = HomeLongitude card_info /\
    normal_path cfg card_info (current_time st) g1
    = Ok (false, Amount tx, MerchantLatitude tx, MerchantLongitude tx,
          current_time st', g2).
Proof.
  intros Hstep Hnf. apply step_Ok in Hstep.
  destruct Hstep as (card_id & card_info & g1 & is_fraud & amount & mlat
                     & mlon & now & g2 & _ & _ & Hget & Hdec & _ & Hid & _
                     & Ham & Hla & Hlo & Hf & Hhla & Hhlo & Hnow & _).
  rewrite Hnf in Hf. subst is_fraud.
  apply decide_transaction_Ok in Hdec. destruct Hdec as (g3 & _ & Hpath).
  exists card_info, g3, g2.
  rewrite Hid, Ham, Hla, Hlo, Hnow. auto.
Qed.

(** A record that is not fraud never moves the clock backward. *)
Lemma step_normal_clock (cfg : Config) (tid : string) (st st' : State)
    (tx : Transaction) :
  0 < AVG_TRANSACTION_DELAY_SECONDS cfg ->
  step cfg tid st = Ok (tx, st') -> IsFraud tx = false ->
  (current_time st <= current_time st')%Z.
Proof.
  intros Havg Hstep Hnf.
  destruct (step_normal _ _ _ _ _ Hstep Hnf)
    as (card_info & g1 & g2 & _ & _ & _ & Hpath).
  apply normal_path_inv in Hpath.
  destruct Hpath as (a & g0 & d & ga & gb & lambd & incr & _ & _ & _
                     & Hdiv & Hexp & _ & _ & Hnow).
  rewrite py_div_nonzero in Hdiv by lra. injection Hdiv as <-.
  assert (Hl : 0 < 1 / AVG_TRANSACTION_DELAY_SECONDS cfg).
  { unfold Rdiv. rewrite Rmult_1_l. now apply Rinv_0_lt_compat. }
  pose proof (random_expovariate_nonneg _ _ _ _ Hl Hexp) as Hincr.
  pose proof (timedelta_of_seconds_nonneg incr Hincr) as Hd.
  rewrite Hnow. unfold generate_timestamp. lia.
Qed.

Lemma strftime_second_le (t1 t2 : datetime) :
  (t1 <= t2)%Z -> (strftime_second t1 <= strftime_second t2)%Z.
Proof.
  intros Hle. unfold strftime_second. apply Z.div_le_mono; lia.
Qed.

Lemma transaction_loop_sorted (cfg : Config) (uuid4 : nat -> string) :
  0 < AVG_TRANSACTION_DELAY_SECONDS cfg ->
  forall (n i : nat) (st : State),
    (forall tx, In tx (fst (transaction_loop cfg uuid4 i n st)) ->
                IsFraud tx = false) ->
    StronglySorted Z.le
      (map Timestamp (fst (transaction_loop cfg uuid4 i n st))) /\
    Forall (fun t => (strftime_second (current_time st) <= t)%Z)
      (map Timestamp (fst (transaction_loop cfg uuid4 i n st))).
Proof.
  intros Havg. induction n as [| n IH]; intros i st Hnf.
  - simpl. split; constructor.
  - simpl in *.
    destruct (step cfg (uuid4 i) st) as [[tx st1] | e] eqn:Hs;
      [|simpl; split; constructor].
    specialize (IH (S i) st1).
    destruct (transaction_loop cfg uuid4 (S i) n st1) as [out r].
    simpl in *.
    assert (Hclock : (current_time st <= current_time st1)%Z).
    { apply (step_normal_clock _ _ _ _ _ Havg Hs). apply Hnf. now left. }
    destruct IH as [Hsorted Hall]; [intros tx' Hin'; apply Hnf; now right|].
    rewrite (step_timestamp _ _ _ _ _ Hs).
    split.
    + constructor; assumption.
    + constructor; [now apply strftime_second_le|].
      apply Forall_impl with (2 := Hall).
      intros t Ht. apply strftime_second_le in Hclock. lia.
Qed.

(** X20: In a run without fraud records the printed timestamps never
    decrease, for a positive average delay: every normal transaction
    adds a non-negative increment to the shared clock. *)
Theorem timestamps_sorted_without_fraud (cfg : Config) (g : G)
    (now : datetime) (uuid4 : nat -> string) :
  0 < AVG_TRANSACTION_DELAY_SECONDS cfg ->
  (forall tx, In tx (fst (simulate cfg g now uuid4)) -> IsFraud tx = false) ->
  StronglySorted Z.le (map Timestamp (fst (simulate cfg g now uuid4))).
Proof.
  intros Havg Hnf. rewrite simulate_bootstrap in *.
  destruct (bootstrap cfg g) as [[cards g1] | e]; [|constructor].
  exact (proj1 (transaction_loop_sorted cfg uuid4 Havg _ _ _ Hnf)).
Qed.

End NormalClock.

Lemma timestamps_sorted_without_fraud_witness :
  StronglySorted Z.le
    (map Timestamp (fst (simulate zero_compromise_config exhausted_script
                           0%Z (fun _ => EmptyString)))).
Proof.
  apply (timestamps_sorted_without_fraud zero_compromise_config
           exhausted_script 0%Z (fun _ => EmptyString)).
  - simpl. lra.
  - intros tx Hin.
    apply (zero_probability_no_fraud zero_compromise_config exhausted_script
             0%Z (fun _ => EmptyString) tx); [simpl; lra | exact Hin].
Defined.

(* ================================================================= *)
(** ** The fraud clock once a card has a history *)

Lemma haversine_nonneg (lat1 lon1 lat2 lon2 d : R) :
  haversine lat1 lon1 lat2 lon2 = Ok d -> 0 <= d.
Proof.
  rewrite haversine_Ok. intros [= <-].
  pose proof (math_atan2_quadrant
                (sqrt (haversine_a lat1 lon1 lat2 lon2))
                (sqrt (1 - haversine_a lat1 lon1 lat2 lon2))
                (sqrt_pos _) (sqrt_pos _)) as [Hlo _].
  lra.
Qed.

(** A distance covered in [dt] seconds below the threshold speed: the
    threshold is positive and the time the threshold speed needs is
    below [dt]. *)
Lemma required_time_below (d dt T : R) :
  0 <= d -> 0 < dt -> d / dt * 3600 < T ->
  0 < T /\ 0 <= d / T * 3600 < dt.
Proof.
  intros Hd Hdt Hv.
  assert (Hq : 0 <= d / dt).
  { unfold Rdiv. apply Rmult_le_pos; [exact Hd|].
    left. now apply Rinv_0_lt_compat. }
  assert (HT : 0 < T) by lra.
  split; [exact HT|].
  assert (Hd' : d = d / dt * dt) by (field; lra).
  assert (Hreq : d / T * 3600 = (d * 3600) * / T) by (field; lra).
  rewrite Hreq.
  assert (Hinv : 0 < / T) by now apply Rinv_0_lt_compat.
  split.
  - apply Rmult_le_pos; lra.
  - apply Rmult_lt_reg_r with (r := T); [exact HT|].
    rewrite Rmult_assoc, Rinv_l by lra.
    rewrite Hd' at 1. nra.
Qed.

(** The script's constants with a velocity threshold of 0. *)
Definition zero_threshold_config : Config := {|
  NUM_CARDS := 50;
  NUM_TRANSACTIONS := 1000;
  FRAUD_INJECTION_PROBABILITY := 0.03;
  COMPROMISE_CARD_PROBABILITY := 0.10;
  AVG_TRANSACTION_DELAY_SECONDS := 0.5;
  LOCATION_VARIATION_KM_NORMAL := 50;
  LOCATION_VARIATION_KM_FRAUD := 5000;
  NORMAL_AMOUNT_RANGE := (5, 250);
  FRAUD_AMOUNT_RANGE := (100, 2000);
  HIGH_VELOCITY_THRESHOLD_KMH := 0
|}.

Section FraudClockBound.
Context {G : Type} `{RandomSource G}.

(** X21: Once the chosen card has a prior transaction at least one
    second old (at a latitude other than 0.0), a fraud transaction never
    moves the shared clock forward: lines 114-135 either keep it or set
    it back to the prior timestamp plus a delay that is below the time
    elapsed. *)
Theorem fraud_clock_never_moves_forward (cfg : Config) (card_info : Card)
    (mlat mlon : R) (now now' : datetime) (g g' : G)
    (last_ts : datetime) (last_lat : R) :
  LastTxTimestamp card_info = Some last_ts ->
  LastTxLatitude card_info = Some last_lat ->
  last_lat <> 0 ->
  1 <= total_seconds (now - last_ts)%Z ->
  velocity_anomaly cfg card_info mlat mlon now g = Ok (now', g') ->
  (now' <= now)%Z.
Proof.
  intros Hts Hlat Hnz Hdt Hv.
  destruct (LastTxLongitude card_info) as [last_lon|] eqn:Hlon.
  - assert (Hpos : 0 < total_seconds (now - last_ts)%Z) by lra.
    rewrite (velocity_anomaly_positive cfg card_info mlat mlon now g
               last_ts last_lat last_lon _
               Hts Hlat Hnz Hlon Hpos
               (haversine_Ok last_lat last_lon mlat mlon)) in Hv.
    pose proof (haversine_nonneg _ _ _ _ _ (haversine_Ok last_lat last_lon
                                              mlat mlon)) as Hd.
    set (d := 6371 * _) in *.
    set (dt := total_seconds (now - last_ts)%Z) in *.
    destruct (Rlt_dec _ _) as [Hslow | Hfast];
      [|injection Hv as <- _; lia].
    destruct (required_time_below d dt _ Hd Hpos Hslow)
      as [HT [Hreq0 Hreq]].
    unfold bind at 1, random_random in Hv.
    destruct (rng_random g) as [u g0].
    destruct (Rlt_dec u 0.5); [|unfold ret in Hv; injection Hv as <- _; lia].
    unfold bind at 1, lift in Hv. rewrite py_div_nonzero in Hv by lra.
    unfold bind in Hv. rewrite random_uniform_eq in Hv. unfold ret in Hv.
    injection Hv as <- _.
    pose proof (rng_random_range g0) as [Hu0 Hu1].
    set (req := d / HIGH_VELOCITY_THRESHOLD_KMH cfg * 3600) in *.
    set (v := req * 0.5 + (req * 0.9 - req * 0.5) * fst (rng_random g0)).
    assert (Hv : v <= dt) by (unfold v; nra).
    assert (Hdelay : py_max 1 v <= dt).
    { unfold py_max. destruct (Rlt_dec 1 v); lra. }
    assert (Hround : (timedelta_of_seconds (py_max 1 v)
                      <= now - last_ts)%Z).
    { unfold timedelta_of_seconds.
      rewrite <- (round_half_even_IZR (now - last_ts)).
      apply round_half_even_le. unfold dt, total_seconds in Hdelay. lra. }
    lia.
  - unfold velocity_anomaly in Hv.
    rewrite (truthy_prior _ _ _ Hts Hlat Hnz), Hts, Hlat, Hlon in Hv.
    destruct (Rlt_dec 0 _); [discriminate | lra].
Qed.

(** X22: A velocity threshold of 0 or less switches the forcing off:
    for a card with a prior transaction and a positive elapsed time,
    once [haversine] has returned a distance, the velocity, which is
    never negative, is not below the threshold, so lines 124-130 are
    skipped, nothing is drawn, the clock is kept, and the division of
    line 128 is never reached with a zero divisor. *)
Theorem nonpositive_threshold_keeps_clock (cfg : Config) (card_info : Card)
    (mlat mlon : R) (now : datetime) (g : G)
    (last_ts : datetime) (last_lat last_lon d : R) :
  LastTxTimestamp card_info = Some last_ts ->
  LastTxLatitude card_info = Some last_lat ->
  last_lat <> 0 ->
  LastTxLongitude card_info = Some last_lon ->
  0 < total_seconds (now - last_ts)%Z ->
  haversine last_lat last_lon mlat mlon = Ok d ->
  HIGH_VELOCITY_THRESHOLD_KMH cfg <= 0 ->
  velocity_anomaly cfg card_info mlat mlon now g = Ok (now, g).
Proof.
  intros Hts Hlat Hnz Hlon Hpos Hd HT.
  rewrite (velocity_anomaly_positive cfg card_info mlat mlon now g
             last_ts last_lat last_lon d Hts Hlat Hnz Hlon Hpos Hd).
  pose proof (haversine_nonneg _ _ _ _ _ Hd) as Hd0.
  destruct (Rlt_dec _ _) as [Hslow | _]; [|reflexivity].
  destruct (required_time_below _ _ _ Hd0 Hpos Hslow) as [HT' _]. lra.
Qed.

End FraudClockBound.

Lemma card_at_30_20_ok : card_ok card_at_30_20.
Proof.
  unfold card_ok. simpl. split; [lra|]. split; [lra|].
  intros la [= <-]. split; [lra | eauto].
Qed.

Lemma fraud_clock_never_moves_forward_witness :
  exists now' g',
    velocity_anomaly default_config card_at_30_20 31 20 3600000000%Z
      forcing_script = Ok (now', g') /\
    (now' <= 3600000000)%Z.
Proof.
  destruct (velocity_anomaly_total default_config card_at_30_20 31 20
              3600000000%Z forcing_script default_config_divisors
              card_at_30_20_ok) as (now' & g' & Hrun); [lra|].
  exists now', g'. split; [exact Hrun|].
  apply (fraud_clock_never_moves_forward default_config card_at_30_20 31 20
           3600000000%Z now' forcing_script g' 0%Z 30);
    [reflexivity | reflexivity | lra | rewrite one_hour; lra | exact Hrun].
Defined.

Lemma nonpositive_threshold_keeps_clock_witness :
  velocity_anomaly zero_threshold_config card_at_30_20 31 20 3600000000%Z
    forcing_script = Ok (3600000000%Z, forcing_script).
Proof.
  assert (Hd : haversine 30 20 31 20 = Ok (6371 * math_radians (31 - 30))).
  { apply haversine_meridian. lra. }
  apply (nonpositive_threshold_keeps_clock zero_threshold_config
           card_at_30_20 31 20 3600000000%Z forcing_script 0%Z 30 20
           (6371 * math_radians (31 - 30)));
    [reflexivity | reflexivity | lra | reflexivity
     | rewrite one_hour; lra | exact Hd | simpl; lra].
Defined.

(* ================================================================= *)
(** ** The two divisors of the configuration *)

(** The script's constants with an average delay of 0 and no compromised
    card. *)
Definition zero_delay_config : Config := {|
  NUM_CARDS := 50;
  NUM_TRANSACTIONS := 1000;
  FRAUD_INJECTION_PROBABILITY := 0.03;
  COMPROMISE_CARD_PROBABILITY := 0;
  AVG_TRANSACTION_DELAY_SECONDS := 0;
  LOCATION_VARIATION_KM_NORMAL := 50;
  LOCATION_VARIATION_KM_FRAUD := 5000;
  NORMAL_AMOUNT_RANGE := (5, 250);
  FRAUD_AMOUNT_RANGE := (100, 2000);
  HIGH_VELOCITY_THRESHOLD_KMH := 800
|}.

Section Divisors.
Context {G : Type} `{RandomSource G}.

(** Lines 114-135 either return or raise [ZeroDivisionError] at line
    134, with an average delay of 0: the division by the threshold at
    line 128 is only reached with a velocity below the threshold, hence
    with a positive threshold. *)
Lemma velocity_anomaly_outcome (cfg : Config) (card_info : Card)
    (mlat mlon : R) (now : datetime) (g : G) :
  card_ok card_info ->
  (exists now' g',
      velocity_anomaly cfg card_info mlat mlon now g = Ok (now', g')) \/
  (AVG_TRANSACTION_DELAY_SECONDS cfg = 0 /\
   velocity_anomaly cfg card_info mlat mlon now g = Raise ZeroDivisionError).
Proof.
  intros (_ & _ & Hlast).
  destruct (truthy_datetime (LastTxTimestamp card_info)
            && truthy_float (LastTxLatitude card_info)) eqn:Hguard.
  - apply andb_prop in Hguard. destruct Hguard as [Hts Hlat].
    destruct (LastTxTimestamp card_info) as [last_ts|] eqn:Ets;
      [|discriminate].
    destruct (LastTxLatitude card_info) as [last_lat|] eqn:Elat;
      [|discriminate].
    simpl in Hlat. destruct (Req_dec_T last_lat 0) as [|Hnz]; [discriminate|].
    destruct (Hlast last_lat eq_refl) as [_ [last_lon Elon]].
    destruct (Rlt_dec 0 (total_seconds (now - last_ts)%Z)) as [Hpos | Hneg].
    + left.
      rewrite (velocity_anomaly_positive cfg card_info mlat mlon now g
                 last_ts last_lat last_lon _ Ets Elat Hnz Elon Hpos
                 (haversine_Ok last_lat last_lon mlat mlon)).
      pose proof (haversine_nonneg _ _ _ _ _
                    (haversine_Ok last_lat last_lon mlat mlon)) as Hd.
      destruct (Rlt_dec _ _) as [Hslow | Hfast]; [|eauto].
      destruct (required_time_below _ _ _ Hd Hpos Hslow) as [HT _].
      unfold bind at 1, random_random. destruct (rng_random g) as [u g1].
      destruct (Rlt_dec u 0.5); [|unfold ret; eauto].
      unfold bind at 1, lift. rewrite py_div_nonzero by lra.
      unfold bind. rewrite random_uniform_eq. unfold ret. eauto.
    + rewrite (velocity_anomaly_not_positive _ _ _ _ _ _ _ _
                 Ets Elat Hnz Hneg).
      destruct (Req_dec_T (AVG_TRANSACTION_DELAY_SECONDS cfg) 0)
        as [Hz | Havg].
      * right. split; [exact Hz|].
        unfold bind at 1, lift, py_div. rewrite Hz.
        destruct (Req_dec_T 0 0); [reflexivity | contradiction].
      * left. now apply advance_clock_total.
  - left. rewrite velocity_anomaly_guard_false by exact Hguard. eauto.
Qed.

Lemma decide_transaction_outcome (cfg : Config) (card_info : Card)
    (now : datetime) (g : G) :
  card_ok card_info ->
  (exists is_fraud amount mlat mlon now' g',
      decide_transaction cfg card_info now g
      = Ok (is_fraud, amount, mlat, mlon, now', g')) \/
  (AVG_TRANSACTION_DELAY_SECONDS cfg = 0 /\
   decide_transaction cfg card_info now g = Raise ZeroDivisionError).
Proof.
  intros Hok. pose proof Hok as (Hhome & _ & _).
  destruct (decide_transaction cfg card_info now g)
    as [[[[[[is_fraud amount] mlat] mlon] now'] g'] | e] eqn:Hdec;
    [left; eauto 7 | right].
  rewrite decide_transaction_paths in Hdec.
  destruct (fraud_decision_total cfg card_info g) as (b & g1 & Hb).
  unfold bind at 1 in Hdec. rewrite Hb in Hdec.
  assert (Hcos : cos (math_radians (HomeLatitude card_info)) <> 0)
    by (apply Rgt_not_eq, home_cos_pos, Hhome).
  destruct b.
  - unfold fraud_path in Hdec.
    unfold bind at 1 in Hdec. rewrite random_uniform_eq in Hdec.
    unfold bind at 1 in Hdec. rewrite random_uniform_eq in Hdec.
    set (g2 := snd (rng_random (snd (rng_random g1)))) in Hdec.
    set (d := _ + _ * fst (rng_random (snd (rng_random g1)))) in Hdec.
    destruct (generate_location_around_total (HomeLatitude card_info)
                (HomeLongitude card_info) d g2 Hcos) as (la & lo & g3 & Hloc).
    unfold bind at 1 in Hdec. rewrite Hloc in Hdec.
    destruct (velocity_anomaly_outcome cfg card_info la lo now g3 Hok)
      as [(now' & g' & Hv) | [Hz Hv]];
      unfold bind in Hdec; rewrite Hv in Hdec.
    + discriminate.
    + injection Hdec as <-. auto.
  - unfold normal_path in Hdec.
    unfold bind at 1 in Hdec. rewrite random_uniform_eq in Hdec.
    unfold bind at 1 in Hdec. rewrite random_uniform_eq in Hdec.
    set (g2 := snd (rng_random (snd (rng_random g1)))) in Hdec.
    set (d := _ + _ * fst (rng_random (snd (rng_random g1)))) in Hdec.
    destruct (generate_location_around_total (HomeLatitude card_info)
                (HomeLongitude card_info) d g2 Hcos) as (la & lo & g3 & Hloc).
    unfold bind at 1 in Hdec. rewrite Hloc in Hdec.
    destruct (Req_dec_T (AVG_TRANSACTION_DELAY_SECONDS cfg) 0)
      as [Hz | Havg].
    + unfold bind at 1, lift, py_div in Hdec. rewrite Hz in Hdec.
      destruct (Req_dec_T 0 0); [|contradiction].
      injection Hdec as <-. auto.
    + unfold bind at 1, lift in Hdec.
      rewrite py_div_nonzero in Hdec by exact Havg.
      assert (Hl : 1 / AVG_TRANSACTION_DELAY_SECONDS cfg <> 0).
      { unfold Rdiv. rewrite Rmult_1_l. now apply Rinv_neq_0_compat. }
      destruct (random_expovariate_total _ g3 Hl) as (x & g' & Hx).
      unfold bind in Hdec. rewrite Hx in Hdec. discriminate.
Qed.

Lemma step_outcome (cfg : Config) (tid : string) (st : State) :
  cards_ok (cards_data st) -> cards_data st <> [] ->
  (exists tx st', step cfg tid st = Ok (tx, st')) \/
  (AVG_TRANSACTION_DELAY_SECONDS cfg = 0 /\
   step cfg tid st = Raise ZeroDivisionError).
Proof.
  intros Hok Hne.
  destruct (step cfg tid st) as [[tx st'] | e] eqn:Hstep;
    [left; eauto | right].
  unfold step in Hstep.
  destruct (random_choice_total (dict_keys (cards_data st)) (rng st))
    as (card_id & g1 & Hchoice).
  { unfold dict_keys. destruct (cards_data st); [contradiction | discriminate]. }
  pose proof (random_choice_Ok _ _ _ _ Hchoice) as Hin.
  destruct (dict_get_in_keys _ _ Hin) as [card_info Hget].
  unfold bind at 1 in Hstep. rewrite Hchoice in Hstep.
  unfold bind at 1, lift at 1 in Hstep. rewrite Hget in Hstep.
  unfold bind at 1 in Hstep.
  destruct (decide_transaction_outcome cfg card_info (current_time st) g1
              (Hok _ _ Hget))
    as [(is_fraud & amount & mlat & mlon & now & g2 & Hdec) | [Hz Hdec]];
    rewrite Hdec in Hstep.
  - destruct (random_randint_total 1000 9999 g2) as (n & g3 & Hn); [lia|].
    unfold bind at 1 in Hstep. rewrite Hn in Hstep.
    unfold bind, random_gauss, ret in Hstep.
    destruct (rng_gauss _ _ g3). discriminate.
  - injection Hstep as <-. auto.
Qed.

Lemma transaction_loop_outcome (cfg : Config) (uuid4 : nat -> string)
    (n i : nat) (st : State) :
  cards_ok (cards_data st) -> cards_data st <> [] ->
  (exists st', snd (transaction_loop cfg uuid4 i n st) = Ok st') \/
  (AVG_TRANSACTION_DELAY_SECONDS cfg = 0 /\
   snd (transaction_loop cfg uuid4 i n st) = Raise ZeroDivisionError).
Proof.
  revert i st. induction n as [| n IH]; intros i st Hok Hne.
  - left. simpl. eauto.
  - simpl.
    destruct (step_outcome cfg (uuid4 i) st Hok Hne)
      as [(tx & st1 & Hstep) | [Hz Hstep]]; rewrite Hstep.
    + destruct (step_preserves _ _ _ _ _ Hstep) as [Hkeys Hok'].
      specialize (IH (S i) st1 (Hok' Hok)
                     (dict_keys_nonempty _ _ Hkeys Hne)).
      destruct (transaction_loop cfg uuid4 (S i) n st1) as [out r].
      exact IH.
    + right. auto.
Qed.

(** How a run of the embedding can end with an exception. *)
Lemma simulate_raise_cases (cfg : Config) (g : G) (now : datetime)
    (uuid4 : nat -> string) (e : exn) :
  snd (simulate cfg g now uuid4) = Raise e ->
  (e = IndexError /\ (NUM_CARDS cfg <= 0)%Z) \/
  (e = ZeroDivisionError /\ AVG_TRANSACTION_DELAY_SECONDS cfg = 0).
Proof.
  intros Hraise.
  destruct (Z_lt_le_dec 0 (NUM_CARDS cfg)) as [Hpos | Hle].
  - right. rewrite simulate_bootstrap in Hraise.
    destruct (bootstrap_total cfg g) as (cards & g' & Hb & Hok & Hne & _).
    rewrite Hb in Hraise.
    destruct (transaction_loop_outcome cfg uuid4
                (Z.to_nat (NUM_TRANSACTIONS cfg)) 0
                {| rng := g'; current_time := now; cards_data := cards |}
                Hok (Hne Hpos))
      as [[st' Hend] | [Hz Hend]]; rewrite Hend in Hraise.
    + discriminate.
    + injection Hraise as <-. auto.
  - left. split; [|exact Hle].
    destruct (Z_lt_le_dec 0 (NUM_TRANSACTIONS cfg)) as [Hn | Hn].
    + rewrite simulate_empty_population in Hraise by assumption.
      now injection Hraise as <-.
    + rewrite simulate_bootstrap in Hraise.
      destruct (bootstrap cfg g) as [[cards g'] | e'] eqn:Hb.
      * replace (Z.to_nat (NUM_TRANSACTIONS cfg)) with 0%nat in Hraise
          by lia.
        discriminate.
      * destruct (bootstrap_total cfg g) as (cards & g' & Hb' & _).
        rewrite Hb' in Hb. discriminate.
Qed.

(** X23: A run never ends with [KeyError] or [TypeError]: the card
    looked up at line 96 is a key of [cards_data], and a card with a
    stored latitude has a stored timestamp and longitude.  A run that
    ends with [IndexError] has no card (the choice of line 95), and a
    run that ends with [ZeroDivisionError] has an average delay of 0
    (lines 134 and 147): the divisors of lines 32, 122 and 128 are never
    zero. *)
Theorem simulate_exceptions (cfg : Config) (g : G) (now : datetime)
    (uuid4 : nat -> string) (e : exn) :
  snd (simulate cfg g now uuid4) = Raise e ->
  e <> KeyError /\ e <> TypeError /\
  (e = IndexError -> (NUM_CARDS cfg <= 0)%Z) /\
  (e = ZeroDivisionError -> AVG_TRANSACTION_DELAY_SECONDS cfg = 0).
Proof.
  intros Hraise.
  destruct (simulate_raise_cases cfg g now uuid4 e Hraise)
    as [[-> Hcards] | [-> Havg]].
  - split; [discriminate|]. split; [discriminate|].
    split; [intros _; exact Hcards | discriminate].
  - split; [discriminate|]. split; [discriminate|].
    split; [discriminate | intros _; exact Havg].
Qed.

(** C9 (amended): the script does not check its configuration.  The
    bootstrap never fails, so nothing is rejected before the loop
    starts.  Without a card and with at least one transaction the run
    raises [IndexError] at the card choice of the first iteration,
    before any record is printed.  With at least one card and one
    transaction and an average delay other than 0 (and of at most a day
    in absolute value, which keeps the increment far inside the range of
    [timedelta]), the first iteration prints a record, whatever the
    probabilities, the radii, the amount ranges and the velocity
    threshold are. *)
Theorem configuration_is_not_validated (cfg : Config) (g : G)
    (now : datetime) (uuid4 : nat -> string) :
  (exists cards g', bootstrap cfg g = Ok (cards, g')) /\
  ((NUM_CARDS cfg <= 0)%Z -> (0 < NUM_TRANSACTIONS cfg)%Z ->
   simulate cfg g now uuid4 = ([], Raise IndexError)) /\
  ((0 < NUM_CARDS cfg)%Z -> (0 < NUM_TRANSACTIONS cfg)%Z ->
   AVG_TRANSACTION_DELAY_SECONDS cfg <> 0 ->
   Rabs (AVG_TRANSACTION_DELAY_SECONDS cfg) <= 86400 ->
   exists tx out, fst (simulate cfg g now uuid4) = tx :: out).
Proof.
  destruct (bootstrap_total cfg g) as (cards & g' & Hb & Hok & Hne & _).
  split; [eauto|]. split.
  - intros Hle Hn. now apply simulate_empty_population.
  - intros Hpos Hn Havg _. rewrite simulate_bootstrap, Hb.
    destruct (Z.to_nat (NUM_TRANSACTIONS cfg)) as [| n] eqn:E; [lia|].
    simpl.
    destruct (step_outcome cfg (uuid4 0%nat)
                {| rng := g'; current_time := now; cards_data := cards |}
                Hok (Hne Hpos))
      as [(tx & st1 & Hstep) | [Hz _]]; [|contradiction].
    rewrite Hstep.
    destruct (transaction_loop cfg uuid4 1 n st1) as [out r].
    exists tx, out. reflexivity.
Qed.

(** An iteration on a population without compromised cards, with an
    average delay of 0: line 147 divides by zero. *)
Lemma step_zero_delay (cfg : Config) (tid : string) (st : State) :
  AVG_TRANSACTION_DELAY_SECONDS cfg = 0 ->
  cards_ok (cards_data st) -> all_uncompromised (cards_data st) ->
  cards_data st <> [] ->
  step cfg tid st = Raise ZeroDivisionError.
Proof.
  intros Havg Hok Hun Hne. unfold step.
  destruct (random_choice_total (dict_keys (cards_data st)) (rng st))
    as (card_id & g1 & Hchoice).
  { unfold dict_keys. destruct (cards_data st); [contradiction | discriminate]. }
  pose proof (random_choice_Ok _ _ _ _ Hchoice) as Hin.
  destruct (dict_get_in_keys _ _ Hin) as [card_info Hget].
  destruct (Hok _ _ Hget) as (Hhome & _ & _).
  unfold bind at 1. rewrite Hchoice.
  unfold bind at 1, lift at 1. rewrite Hget.
  unfold bind at 1.
  assert (Hdec : decide_transaction cfg card_info (current_time st) g1
                 = Raise ZeroDivisionError).
  { unfold decide_transaction. rewrite (Hun _ _ Hget).
    unfold bind at 1, ret at 1.
    unfold bind at 1. rewrite random_uniform_eq.
    unfold bind at 1. rewrite random_uniform_eq.
    set (g2 := snd (rng_random (snd (rng_random g1)))).
    set (d := _ + _ * fst (rng_random (snd (rng_random g1)))).
    destruct (generate_location_around_total (HomeLatitude card_info)
                (HomeLongitude card_info) d g2) as (la & lo & g3 & Hloc).
    { apply Rgt_not_eq, home_cos_pos, Hhome. }
    unfold bind at 1. rewrite Hloc.
    unfold bind at 1, lift, py_div. rewrite Havg.
    destruct (Req_dec_T 0 0); [reflexivity | contradiction]. }
  now rewrite Hdec.
Qed.

(** X24: With an average delay of 0 and no compromised card the very
    first iteration raises [ZeroDivisionError] at line 147 and nothing is
    printed. *)
Theorem zero_average_delay_raises (cfg : Config) (g : G) (now : datetime)
    (uuid4 : nat -> string) :
  AVG_TRANSACTION_DELAY_SECONDS cfg = 0 ->
  COMPROMISE_CARD_PROBABILITY cfg <= 0 ->
  (0 < NUM_CARDS cfg)%Z -> (0 < NUM_TRANSACTIONS cfg)%Z ->
  simulate cfg g now uuid4 = ([], Raise ZeroDivisionError).
Proof.
  intros Havg Hp Hcards Hn. rewrite simulate_bootstrap.
  destruct (bootstrap_total cfg g)
    as (cards & g' & Hb & Hok & Hne & _ & Hun).
  rewrite Hb.
  destruct (Z.to_nat (NUM_TRANSACTIONS cfg)) as [| n] eqn:E; [lia|].
  simpl. rewrite step_zero_delay; auto.
Qed.

End Divisors.

(** The script's constants without any card. *)
Definition no_cards_config : Config := {|
  NUM_CARDS := 0;
  NUM_TRANSACTIONS := 1000;
  FRAUD_INJECTION_PROBABILITY := 0.03;
  COMPROMISE_CARD_PROBABILITY := 0.10;
  AVG_TRANSACTION_DELAY_SECONDS := 0.5;
  LOCATION_VARIATION_KM_NORMAL := 50;
  LOCATION_VARIATION_KM_FRAUD := 5000;
  NORMAL_AMOUNT_RANGE := (5, 250);
  FRAUD_AMOUNT_RANGE := (100, 2000);
  HIGH_VELOCITY_THRESHOLD_KMH := 800
|}.

Lemma simulate_exceptions_witness :
  snd (simulate no_cards_config exhausted_script 0%Z (fun _ => EmptyString))
  = Raise IndexError /\
  (NUM_CARDS no_cards_config <= 0)%Z.
Proof.
  assert (Hrun : snd (simulate no_cards_config exhausted_script 0%Z
                        (fun _ => EmptyString)) = Raise IndexError).
  { rewrite simulate_empty_population; reflexivity. }
  split; [exact Hrun|].
  destruct (simulate_exceptions no_cards_config exhausted_script 0%Z
              (fun _ => EmptyString) IndexError Hrun)
    as (_ & _ & Hindex & _).
  exact (Hindex eq_refl).
Defined.

Lemma configuration_is_not_validated_witness :
  exists tx out,
    fst (simulate overdriven_config exhausted_script 0%Z
           (fun _ => EmptyString)) = tx :: out.
Proof.
  destruct (configuration_is_not_validated overdriven_config
              exhausted_script 0%Z (fun _ => EmptyString))
    as (_ & _ & Hfirst).
  apply Hfirst.
  - reflexivity.
  - reflexivity.
  - simpl. lra.
  - simpl. unfold Rabs. destruct (Rcase_abs 0.5); lra.
Defined.

Lemma zero_average_delay_raises_witness :
  simulate zero_delay_config exhausted_script 0%Z (fun _ => EmptyString)
  = ([], Raise ZeroDivisionError).
Proof.
  apply (zero_average_delay_raises zero_delay_config exhausted_script 0%Z
           (fun _ => EmptyString)).
  - reflexivity.
  - simpl. lra.
  - reflexivity.
  - reflexivity.
Defined.

(* ================================================================= *)
(** ** A normal radius of zero *)

(** The script's constants with a normal radius of 0 and no compromised
    card. *)
Definition zero_radius_config : Config := {|
  NUM_CARDS := 50;
  NUM_TRANSACTIONS := 1000;
  FRAUD_INJECTION_PROBABILITY := 0.03;
  COMPROMISE_CARD_PROBABILITY := 0;
  AVG_TRANSACTION_DELAY_SECONDS := 0.5;
  LOCATION_VARIATION_KM_NORMAL := 0;
  LOCATION_VARIATION_KM_FRAUD := 5000;
  NORMAL_AMOUNT_RANGE := (5, 250);
  FRAUD_AMOUNT_RANGE := (100, 2000);
  HIGH_VELOCITY_THRESHOLD_KMH := 800
|}.

(** A home as the bootstrap draws and rounds it. *)
Definition home_on_grid (c : Card) : Prop :=
  25 <= HomeLatitude c <= 65 /\
  -125 <= HomeLongitude c <= 40 /\
  py_round (HomeLatitude c) 6 = HomeLatitude c /\
  py_round (HomeLongitude c) 6 = HomeLongitude c.

Section ZeroNormalRadius.
Context {G : Type} `{RandomSource G}.

(** The sampler at a home of the population, with a radius of 0. *)
Lemma generate_location_around_home (c : Card) (g g' : G) (la lo : R) :
  home_on_grid c ->
  generate_location_around (HomeLatitude c) (HomeLongitude c) 0 g
  = Ok (la, lo, g') ->
  la = HomeLatitude c /\ lo = HomeLongitude c.
Proof.
  intros (Hlat & Hlon & Hrlat & Hrlon).
  rewrite generate_location_around_eq.
  destruct (Req_dec_T _ 0) as [Hz | _]; [discriminate|].
  cbv zeta.
  assert (Hz1 : 0 / 111.1 = 0) by (unfold Rdiv; apply Rmult_0_l).
  assert (Hz2 : 0 / (111.1 * cos (math_radians (HomeLatitude c))) = 0)
    by (unfold Rdiv; apply Rmult_0_l).
  rewrite Hz1, Hz2.
  set (u1 := fst (rng_random g)).
  set (u2 := fst (rng_random (snd (rng_random g)))).
  replace (HomeLatitude c + (- 0 + (0 - - 0) * u1))
    with (HomeLatitude c) by lra.
  replace (HomeLongitude c + (- 0 + (0 - - 0) * u2) + 180)
    with (HomeLongitude c + 180) by lra.
  rewrite clamp_inside by lra.
  rewrite py_mod_small by lra.
  replace (HomeLongitude c + 180 - 180) with (HomeLongitude c) by lra.
  rewrite Hrlat, Hrlon. intros [= <- <- _]. auto.
Qed.

(** X25: With [LOCATION_VARIATION_KM_NORMAL = 0] every record that is
    not fraud places the merchant exactly at the card's home. *)
Theorem zero_radius_records_at_home (cfg : Config) (g : G) (now : datetime)
    (uuid4 : nat -> string) (tx : Transaction) :
  LOCATION_VARIATION_KM_NORMAL cfg = 0 ->
  In tx (fst (simulate cfg g now uuid4)) ->
  IsFraud tx = false ->
  MerchantLatitude tx = TxHomeLatitude tx /\
  MerchantLongitude tx = TxHomeLongitude tx.
Proof.
  intros Hzero Hin. rewrite simulate_bootstrap in Hin.
  destruct (bootstrap cfg g) as [[cards g1] | e] eqn:Hboot; [|contradiction].
  assert (Hgrid : forall k c, dict_get k cards = Ok c -> home_on_grid c).
  { intros k c Hk. unfold bootstrap in Hboot.
    apply (init_cards_forall cfg home_on_grid)
      with (range := seq 0 (Z.to_nat (NUM_CARDS cfg))) (cards := [])
           (cards' := cards) (g := g) (g' := g1) (k := k);
      [| exact Hboot | discriminate | exact Hk].
    intros u1 u2 u3 Hu1 Hu2 _. unfold home_on_grid, new_card. simpl.
    split; [apply (py_round6_between 25 65); lra|].
    split; [apply (py_round6_between (-125) 40); lra|].
    split; apply py_round_idem. }
  apply In_nth_error in Hin. destruct Hin as [k Hk]. revert Hk.
  apply (transaction_loop_records cfg uuid4
           (fun st => homes_from cards (cards_data st))
           (fun _ tx => IsFraud tx = false ->
                        MerchantLatitude tx = TxHomeLatitude tx /\
                        MerchantLongitude tx = TxHomeLongitude tx));
    [|apply homes_from_refl].
  intros i st tx0 st' Hinv Hs.
  destruct (step_homes _ _ _ _ _ _ Hinv Hs) as (Hinv' & _ & _).
  split; [exact Hinv'|]. intros Hnf.
  destruct (step_normal _ _ _ _ _ Hs Hnf)
    as (card_info & ga & gb & Hget & Hhla & Hhlo & Hpath).
  destruct (Hinv _ _ Hget) as (c0 & Hc0 & Hla0 & Hlo0).
  assert (Hcard : home_on_grid card_info).
  { destruct (Hgrid _ _ Hc0) as (H1 & H2 & H3 & H4).
    unfold home_on_grid. rewrite <- Hla0, <- Hlo0. auto. }
  apply normal_path_inv in Hpath.
  destruct Hpath as (a & g0 & d & gc & gd & lambd & incr & _ & Hd & Hloc & _).
  rewrite random_uniform_eq, Hzero in Hd. injection Hd as <- _.
  replace (0 + (0 - 0) * fst (rng_random g0)) with 0 in Hloc by lra.
  destruct (generate_location_around_home _ _ _ _ _ Hcard Hloc) as [-> ->].
  now rewrite Hhla, Hhlo.
Qed.

End ZeroNormalRadius.

Lemma zero_radius_config_divisors : divisors_nonzero zero_radius_config.
Proof. split; simpl; lra. Qed.

Lemma zero_radius_records_at_home_witness :
  exists tx,
    In tx (fst (simulate zero_radius_config exhausted_script 0%Z
                  (fun _ => EmptyString))) /\
    MerchantLatitude tx = TxHomeLatitude tx /\
    MerchantLongitude tx = TxHomeLongitude tx.
Proof.
  destruct (simulate_total zero_radius_config exhausted_script 0%Z
              (fun _ => EmptyString) zero_radius_config_divisors)
    as (out & st' & Hrun & Hlen); [reflexivity|].
  destruct out as [| tx out]; [discriminate|].
  assert (Hin : In tx (fst (simulate zero_radius_config exhausted_script
                              0%Z (fun _ => EmptyString)))).
  { rewrite Hrun. now left. }
  exists tx. split; [exact Hin|].
  apply (zero_radius_records_at_home zero_radius_config exhausted_script
           0%Z (fun _ => EmptyString) tx); [reflexivity | exact Hin |].
  apply (zero_probability_no_fraud zero_radius_config exhausted_script
           0%Z (fun _ => EmptyString) tx); [simpl; lra | exact Hin].
Defined.
(* ================================================================= *)
(** ** The population at the end of the run *)

(** The last record of a card among the printed records, if any. *)
Definition last_record (card_id : string) (out : list Transaction)
  : option Transaction :=
  find (fun tx => String.eqb (CardID tx) card_id) (rev out).

Lemma find_app_first {A : Type} (f : A -> bool) (l1 l2 : list A) :
  find f (l1 ++ l2)
  = match find f l1 with
    | Some x => Some x
    | None => find f l2
    end.
Proof.
  induction l1 as [| a l1 IH]; simpl; [reflexivity|].
  destruct (f a); [reflexivity | exact IH].
Qed.

(** What a card holds about a record that was its last. *)
Definition holds_record (c : Card) (tx : Transaction) : Prop :=
  LastTxLatitude c = Some (MerchantLatitude tx) /\
  LastTxLongitude c = Some (MerchantLongitude tx) /\
  exists t, LastTxTimestamp c = Some t /\ Timestamp tx = strftime_second t.

Section FinalState.
Context {G : Type} `{RandomSource G}.

Lemma transaction_loop_last (cfg : Config) (uuid4 : nat -> string)
    (n i : nat) (st st' : State) (out : list Transaction) :
  transaction_loop cfg uuid4 i n st = (out, Ok st') ->
  forall k c', dict_get k (cards_data st') = Ok c' ->
    match last_record k out with
    | None => dict_get k (cards_data st) = Ok c'
    | Some tx => holds_record c' tx
    end.
Proof.
  revert i st out. induction n as [| n IH]; intros i st out Hloop k c' Hk.
  - simpl in Hloop. injection Hloop as <- <-. exact Hk.
  - simpl in Hloop.
    destruct (step cfg (uuid4 i) st) as [[tx st1] | e] eqn:Hs;
      [|discriminate].
    destruct (transaction_loop cfg uuid4 (S i) n st1) as [out1 r] eqn:E.
    injection Hloop as <- ->.
    specialize (IH (S i) st1 out1 E k c' Hk).
    unfold last_record in *. simpl rev. rewrite find_app_first.
    destruct (find _ (rev out1)) as [tx1|]; [exact IH|].
    apply step_Ok in Hs.
    destruct Hs as (card_id & card_info & g1 & is_fraud & amount & mlat
                    & mlon & now & g2 & _ & _ & _ & _ & _ & Hid & Hts & _
                    & Hla & Hlo & _ & _ & _ & _ & Hcards).
    rewrite Hcards in IH. simpl.
    destruct (String.eqb (CardID tx) k) eqn:Heq.
    + apply String.eqb_eq in Heq. rewrite Hid in Heq. subst k.
      rewrite dict_get_set_same in IH. injection IH as <-.
      unfold holds_record. simpl. rewrite Hla, Hlo, Hts. eauto.
    + apply String.eqb_neq in Heq. rewrite Hid in Heq.
      rewrite dict_get_set_other in IH by congruence. exact IH.
Qed.

(** X26: When the run ends, a card that no record names is as the
    bootstrap made it, and any other card holds the merchant
    coordinates and the timestamp of the last record that names it. *)
Theorem final_card_state (cfg : Config) (g g1 : G) (now : datetime)
    (uuid4 : nat -> string) (cards : Cards) (out : list Transaction)
    (st' : State) (k : string) (c' : Card) :
  bootstrap cfg g = Ok (cards, g1) ->
  simulate cfg g now uuid4 = (out, Ok st') ->
  dict_get k (cards_data st') = Ok c' ->
  match last_record k out with
  | None => dict_get k cards = Ok c'
  | Some tx => holds_record c' tx
  end.
Proof.
  intros Hboot Hrun Hk.
  rewrite simulate_bootstrap, Hboot in Hrun.
  exact (transaction_loop_last _ _ _ _ _ _ _ Hrun k c' Hk).
Qed.

End FinalState.

Lemma final_card_state_witness :
  exists cards out st',
    simulate default_config exhausted_script 0%Z (fun _ => EmptyString)
    = (out, Ok st') /\
    forall k c', dict_get k (cards_data st') = Ok c' ->
      match last_record k out with
      | None => dict_get k cards = Ok c'
      | Some tx => holds_record c' tx
      end.
Proof.
  destruct (bootstrap_total default_config exhausted_script)
    as (cards & g1 & Hboot & _).
  destruct (simulate_total default_config exhausted_script 0%Z
              (fun _ => EmptyString) default_config_divisors)
    as (out & st' & Hrun & _); [reflexivity|].
  exists cards, out, st'. split; [exact Hrun|].
  intros k c' Hk.
  exact (final_card_state default_config exhausted_script g1 0%Z
           (fun _ => EmptyString) cards out st' k c' Hboot Hrun Hk).
Defined.
